(** * vault-escrow: the client-side protocol of the escrow scripts

    A shallow embedding of the TypeScript drivers of the repository
    ([scripts/2_vault_and_escrow.ts], the escrow script, the mint script and
    [scripts/_shared.ts]) together with the parts of their libraries they
    call: Node's [crypto] (SHA-256) and [Buffer] integer writers, and the
    [PublicKey] derivations of [@solana/web3.js].

    Conventions.
    - A byte is a [Z] in [0, 256); a [Buffer] is a [list Z].
    - A JavaScript string is a [string] holding its UTF-8 bytes, which is
      how [Buffer.from(s)] and [hash.update(s)] read it.
    - A [bigint] is a [Z]. *)

From Stdlib Require Import ZArith List String Ascii Lia Bool.
From stdpp Require Import base option list gmap.

Import ListNotations.
Local Open Scope Z_scope.
Local Open Scope list_scope.

(** ** Buffers *)

Abbreviation Buffer := (list Z).

(** [Buffer.from(s)] for a string [s]: its UTF-8 bytes. *)
Definition Buffer_from (s : string) : Buffer :=
  map (fun c => Z.of_N (N_of_ascii c)) (list_ascii_of_string s).

(** [buf.subarray(0, n)]. *)
Definition subarray0 (n : nat) (b : Buffer) : Buffer := firstn n b.

(** [Buffer.concat(list)]. *)
Definition Buffer_concat (l : list Buffer) : Buffer := concat l.

(** ** SHA-256 (FIPS 180-4), as computed by
    [createHash("sha256").update(m).digest()] *)

Module SHA256.

Definition mask32 : Z := 2 ^ 32 - 1.
Definition trunc32 (x : Z) : Z := Z.land x mask32.
Definition add32 (x y : Z) : Z := trunc32 (x + y).

Definition rotr (n x : Z) : Z :=
  Z.lor (Z.shiftr x n) (trunc32 (Z.shiftl x (32 - n))).

Definition Ch (x y z : Z) : Z :=
  Z.lxor (Z.land x y) (Z.land (Z.lxor x mask32) z).
Definition Maj (x y z : Z) : Z :=
  Z.lxor (Z.lxor (Z.land x y) (Z.land x z)) (Z.land y z).
Definition bsig0 (x : Z) : Z := Z.lxor (Z.lxor (rotr 2 x) (rotr 13 x)) (rotr 22 x).
Definition bsig1 (x : Z) : Z := Z.lxor (Z.lxor (rotr 6 x) (rotr 11 x)) (rotr 25 x).
Definition ssig0 (x : Z) : Z := Z.lxor (Z.lxor (rotr 7 x) (rotr 18 x)) (Z.shiftr x 3).
Definition ssig1 (x : Z) : Z := Z.lxor (Z.lxor (rotr 17 x) (rotr 19 x)) (Z.shiftr x 10).

(** The constants are fractional parts of roots of the first primes
    (FIPS 180-4, sections 4.2.2 and 5.3.3); they are computed here rather
    than tabulated. *)
Definition primes64 : list Z :=
  [2; 3; 5; 7; 11; 13; 17; 19; 23; 29; 31; 37; 41; 43; 47; 53;
   59; 61; 67; 71; 73; 79; 83; 89; 97; 101; 103; 107; 109; 113; 127; 131;
   137; 139; 149; 151; 157; 163; 167; 173; 179; 181; 191; 193; 197; 199; 211; 223;
   227; 229; 233; 239; 241; 251; 257; 263; 269; 271; 277; 281; 283; 293; 307; 311].

(** Largest [r] below [2 ^ bits] with [r ^ 3 <= n], found bit by bit. *)
Fixpoint cbrt_bits (bits : nat) (n r : Z) : Z :=
  match bits with
  | O => r
  | S b =>
      let r' := r + 2 ^ Z.of_nat b in
      cbrt_bits b n (if r' * r' * r' <=? n then r' else r)
  end.

Definition frac_cbrt32 (p : Z) : Z := trunc32 (cbrt_bits 36 (p * 2 ^ 96) 0).
Definition frac_sqrt32 (p : Z) : Z := trunc32 (Z.sqrt (p * 2 ^ 64)).

Definition K : list Z := Eval vm_compute in map frac_cbrt32 primes64.

Record state := State
  { ha : Z; hb : Z; hc : Z; hd : Z; he : Z; hf : Z; hg : Z; hh : Z }.

Definition H0 : state :=
  Eval vm_compute in
    match map frac_sqrt32 (firstn 8 primes64) with
    | [a; b; c; d; e; f; g; h] => State a b c d e f g h
    | _ => State 0 0 0 0 0 0 0 0
    end.

(** Padding (section 5.1.1): a [0x80] byte, zero bytes up to 56 modulo 64,
    then the bit length as a 64-bit big-endian integer. *)
Definition be_bytes (n : nat) (x : Z) : Buffer :=
  map (fun i => Z.land (Z.shiftr x (8 * Z.of_nat i)) 255) (rev (seq 0 n)).

Definition pad (m : Buffer) : Buffer :=
  let len := Z.of_nat (length m) in
  m ++ [128] ++ repeat 0 (Z.to_nat ((55 - len) mod 64)) ++ be_bytes 8 (8 * len).

Definition be_word (b : Buffer) : Z :=
  fold_left (fun acc x => acc * 256 + x) b 0.

(** The first [n] big-endian 32-bit words of a buffer. *)
Fixpoint words (n : nat) (b : Buffer) : list Z :=
  match n with
  | O => []
  | S k => be_word (firstn 4 b) :: words k (skipn 4 b)
  end.

(** Message schedule (section 6.2.2, step 1); [rw] holds the words computed
    so far, latest first. *)
Fixpoint schedule (n : nat) (rw : list Z) : list Z :=
  match n with
  | O => rev rw
  | S k =>
      let wt := add32 (add32 (ssig1 (nth 1 rw 0)) (nth 6 rw 0))
                      (add32 (ssig0 (nth 14 rw 0)) (nth 15 rw 0)) in
      schedule k (wt :: rw)
  end.

Definition round (s : state) (kw : Z * Z) : state :=
  let t1 := add32 (add32 (add32 (hh s) (bsig1 (he s)))
                         (add32 (Ch (he s) (hf s) (hg s)) (fst kw))) (snd kw) in
  let t2 := add32 (bsig0 (ha s)) (Maj (ha s) (hb s) (hc s)) in
  State (add32 t1 t2) (ha s) (hb s) (hc s) (add32 (hd s) t1) (he s) (hf s) (hg s).

Definition compress (h : state) (block : Buffer) : state :=
  let w := schedule 48 (rev (words 16 block)) in
  let s := fold_left round (combine K w) h in
  State (add32 (ha h) (ha s)) (add32 (hb h) (hb s)) (add32 (hc h) (hc s))
        (add32 (hd h) (hd s)) (add32 (he h) (he s)) (add32 (hf h) (hf s))
        (add32 (hg h) (hg s)) (add32 (hh h) (hh s)).

Fixpoint blocks (n : nat) (h : state) (b : Buffer) : state :=
  match n with
  | O => h
  | S k => blocks k (compress h (firstn 64 b)) (skipn 64 b)
  end.

Definition be32 (x : Z) : Buffer :=
  [Z.land (Z.shiftr x 24) 255; Z.land (Z.shiftr x 16) 255;
   Z.land (Z.shiftr x 8) 255; Z.land x 255].

Definition digest_of (s : state) : Buffer :=
  be32 (ha s) ++ be32 (hb s) ++ be32 (hc s) ++ be32 (hd s) ++
  be32 (he s) ++ be32 (hf s) ++ be32 (hg s) ++ be32 (hh s).

Definition sha256 (m : Buffer) : Buffer :=
  let p := pad m in
  digest_of (blocks (length p / 64)%nat H0 p).

End SHA256.

Definition hex_digit (c : ascii) : Z :=
  let n := Z.of_N (N_of_ascii c) in
  if (48 <=? n) && (n <=? 57) then n - 48 else n - 87.

(** Reads a lower-case hexadecimal dump, two digits a byte. *)
Fixpoint of_hex (s : string) : Buffer :=
  match s with
  | String a (String b r) => (16 * hex_digit a + hex_digit b) :: of_hex r
  | _ => []
  end.

(** ** Exceptions and results

    A JavaScript computation either returns a value or throws.  The classes
    are the ones the scripts and their libraries throw. *)

(** Categories of a failed submission (section 7 of the specification). *)
Inductive Category :=
| DuplicateInitialization
| PreconditionViolation
| AuthorizationError
| TransientError.

Inductive Exn :=
| TypeError (msg : string)
| RangeError (msg : string)
| Error (msg : string)
| TokenOwnerOffCurveError
| SendTransactionError (c : Category) (detail : string).

Inductive result (A : Type) :=
| Ok (a : A)
| Throw (e : Exn).
Arguments Ok {A} a.
Arguments Throw {A} e.

#[global] Instance result_ret : MRet result := fun A a => Ok a.
#[global] Instance result_bind : MBind result := fun A B f m =>
  match m with
  | Ok a => f a
  | Throw e => Throw e
  end.

(** ** Public keys *)

Definition PUBLIC_KEY_LENGTH : nat := 32.
Definition MAX_SEED_LENGTH : nat := 32.

(** A [PublicKey] is its 32-byte image [toBuffer()]. *)
Record PublicKey := mkPublicKey { toBuffer : Buffer }.

Definition wf_key (k : PublicKey) : Prop := length (toBuffer k) = PUBLIC_KEY_LENGTH.

#[global] Instance PublicKey_eq_dec : EqDecision PublicKey.
Proof. solve_decision. Defined.

(** [a.equals(b)] compares the numbers the keys hold. *)
Definition equals (a b : PublicKey) : bool := bool_decide (toBuffer a = toBuffer b).

(** ** Instructions *)

Record AccountMeta := mkMeta
  { pubkey : PublicKey; isSigner : bool; isWritable : bool }.

Record TransactionInstruction := mkIx
  { programId : PublicKey; keys : list AccountMeta; data : Buffer }.

(** ** The selector: [discriminator] (defined alike in both scripts) *)

Definition discriminator (ixName : string) : Buffer :=
  let preimage := ("global:" ++ ixName)%string in
  let hash := SHA256.sha256 (Buffer_from preimage) in
  subarray0 8 hash.

(** ** [Buffer.writeBigUInt64LE] and [Buffer.writeBigInt64LE]

    Node implements both with one routine: a range check, then the low and
    the high 32 bits are stored a byte at a time, each next byte after
    [lo = lo >> 8] on the 32-bit number. *)

Definition toInt32 (x : Z) : Z :=
  let y := x mod 2 ^ 32 in if y <? 2 ^ 31 then y else y - 2 ^ 32.

(** Storing a number into a [Uint8Array] cell. *)
Definition toUint8 (x : Z) : Z := x mod 256.

(** [x >> 8] on a JavaScript number. *)
Definition sar8 (x : Z) : Z := Z.shiftr (toInt32 x) 8.

Definition store32 (lo : Z) : Buffer :=
  let b0 := toUint8 lo in
  let lo := sar8 lo in
  let b1 := toUint8 lo in
  let lo := sar8 lo in
  let b2 := toUint8 lo in
  let lo := sar8 lo in
  let b3 := toUint8 lo in
  [b0; b1; b2; b3].

Definition writeBigU_Int64LE (value min max : Z) : result Buffer :=
  if (value >? max) || (value <? min) then Throw (RangeError "ERR_OUT_OF_RANGE")
  else
    let lo := Z.land value 0xffffffff in
    let hi := Z.land (Z.shiftr value 32) 0xffffffff in
    Ok (store32 lo ++ store32 hi).

(** The eight bytes a fresh [Buffer.alloc(8)] holds after the write. *)
Definition writeBigUInt64LE (value : Z) : result Buffer :=
  writeBigU_Int64LE value 0 0xffffffffffffffff.

Definition writeBigInt64LE (value : Z) : result Buffer :=
  writeBigU_Int64LE value (- 0x8000000000000000) 0x7fffffffffffffff.

(** The readers of [Buffer] that invert them. *)
Definition le_value (b : Buffer) : Z := fold_right (fun x acc => x + 256 * acc) 0 b.

Definition readBigUInt64LE (b : Buffer) : Z := le_value (firstn 8 b).

Definition readBigInt64LE (b : Buffer) : Z :=
  let v := le_value (firstn 8 b) in if v <? 2 ^ 63 then v else v - 2 ^ 64.

(** The little-endian bytes of an integer, as the specification words the
    argument encoding: byte [i] is [value / 256^i mod 256]; for a negative
    value this is its two's complement. *)
Definition le_bytes (n : nat) (value : Z) : Buffer :=
  map (fun i => (value / 256 ^ Z.of_nat i) mod 256) (seq 0 n).

Definition u64_le (amount : Z) : Buffer := le_bytes 8 amount.
Definition i64_le (timestamp : Z) : Buffer := le_bytes 8 timestamp.

(** ** Base58, the text form of a key

    The reference decoder of the [bs58] package for ASCII text: the leading
    [1] characters are zero bytes, the rest is a number in base 58 written
    big-endian without leading zero bytes; a character outside the alphabet
    is refused. *)

Definition base58_alphabet : string :=
  "123456789ABCDEFGHJKLMNPQRSTUVWXYZabcdefghijkmnopqrstuvwxyz".

Fixpoint index_in (c : ascii) (s : string) (i : Z) : option Z :=
  match s with
  | EmptyString => None
  | String d r => if Ascii.eqb c d then Some i else index_in c r (i + 1)
  end.

Fixpoint base58_number (s : string) (acc : Z) : option Z :=
  match s with
  | EmptyString => Some acc
  | String c r =>
      match index_in c base58_alphabet 0 with
      | Some d => base58_number r (acc * 58 + d)
      | None => None
      end
  end.

Fixpoint leading_ones (s : string) : nat * string :=
  match s with
  | String "1" r => let (n, t) := leading_ones r in (S n, t)
  | _ => (O, s)
  end.

(** Big-endian bytes of a natural number, none for zero. *)
Definition be_minimal (n : Z) : Buffer :=
  if n <=? 0 then [] else SHA256.be_bytes (Z.to_nat (Z.log2 n / 8 + 1)) n.

Definition base58_decode (s : string) : option Buffer :=
  let (zeroes, rest) := leading_ones s in
  match base58_number rest 0 with
  | Some n => Some (repeat 0 zeroes ++ be_minimal n)
  | None => None
  end.

(** [new PublicKey(s)] for a string, over a decoder of base 58. *)
Definition PublicKey_of_string (decode : string -> option Buffer) (s : string)
  : result PublicKey :=
  match decode s with
  | None => Throw (Error "Non-base58 character")
  | Some decoded =>
      if bool_decide (length decoded = PUBLIC_KEY_LENGTH)
      then Ok (mkPublicKey decoded)
      else Throw (Error "Invalid public key input")
  end.

(** ** Program identities of the libraries *)

Definition key_of_base58 (s : string) : PublicKey :=
  mkPublicKey (default [] (base58_decode s)).

Definition SystemProgram_programId : PublicKey :=
  Eval vm_compute in key_of_base58 "11111111111111111111111111111111".

Definition TOKEN_PROGRAM_ID : PublicKey :=
  Eval vm_compute in key_of_base58 "TokenkegQfeZyiNwAJbNbGKPFXCWuBvf9Ss623VQ5DA".

Definition ASSOCIATED_TOKEN_PROGRAM_ID : PublicKey :=
  Eval vm_compute in key_of_base58 "ATokenGPvbdGVxr1b2hvZbsiqW5xWH25efTNsLJA8knL".

(** ** The instruction encoders *)

(** [encodeInitVaultIx] (vault script). *)
Definition encodeInitVaultIx (programId authority mint vaultPda : PublicKey)
  : TransactionInstruction :=
  let data := discriminator "init_vault" in
  let keys :=
    [ mkMeta authority true true;
      mkMeta mint false false;
      mkMeta vaultPda false true;
      mkMeta SystemProgram_programId false false ] in
  mkIx programId keys data.

(** [encodeLockTokensIx] (vault script). *)
Definition encodeLockTokensIx
  (programId user mint vaultPda vaultAta userAta : PublicKey) (amount : Z)
  : result TransactionInstruction :=
  let disc := discriminator "lock_tokens" in
  amountBuf ← writeBigUInt64LE amount;
  let data := Buffer_concat [disc; amountBuf] in
  let keys :=
    [ mkMeta user true true;
      mkMeta mint false false;
      mkMeta vaultPda false false;
      mkMeta vaultAta false true;
      mkMeta userAta false true;
      mkMeta TOKEN_PROGRAM_ID false false;
      mkMeta ASSOCIATED_TOKEN_PROGRAM_ID false false;
      mkMeta SystemProgram_programId false false ] in
  Ok (mkIx programId keys data).

(** [encodeInitEscrowIx] (escrow script). *)
Definition encodeInitEscrowIx
  (programId buyer seller mint vault escrow : PublicKey) (amount deadlineUnixTs : Z)
  : result TransactionInstruction :=
  let disc := discriminator "init_escrow" in
  amountBuf ← writeBigUInt64LE amount;
  deadlineBuf ← writeBigInt64LE deadlineUnixTs;
  let data := Buffer_concat [disc; amountBuf; deadlineBuf] in
  let keys :=
    [ mkMeta buyer true true;
      mkMeta seller false false;
      mkMeta mint false false;
      mkMeta vault false false;
      mkMeta escrow false true;
      mkMeta SystemProgram_programId false false ] in
  Ok (mkIx programId keys data).

(** [encodeReleaseToSellerIx] (escrow script). *)
Definition encodeReleaseToSellerIx
  (programId buyer seller mint escrow vault vaultAta sellerAta : PublicKey)
  : TransactionInstruction :=
  let disc := discriminator "release_to_seller" in
  let data := disc in
  let keys :=
    [ mkMeta buyer true true;
      mkMeta seller false true;
      mkMeta mint false false;
      mkMeta escrow false true;
      mkMeta vault false false;
      mkMeta vaultAta false true;
      mkMeta sellerAta false true;
      mkMeta TOKEN_PROGRAM_ID false false;
      mkMeta ASSOCIATED_TOKEN_PROGRAM_ID false false;
      mkMeta SystemProgram_programId false false ] in
  mkIx programId keys data.


(** ** Program-derived addresses ([PublicKey] of [@solana/web3.js])

    [isOnCurve] is the library's test that 32 bytes are a point of the
    ed25519 curve. *)

Section Derivation.

Variable isOnCurve : Buffer -> bool.

(** The [seeds.forEach] loop of [createProgramAddressSync]. *)
Fixpoint concat_seeds (seeds : list Buffer) (buffer : Buffer) : result Buffer :=
  match seeds with
  | [] => Ok buffer
  | seed :: rest =>
      if (MAX_SEED_LENGTH <? length seed)%nat
      then Throw (TypeError "Max seed length exceeded")
      else concat_seeds rest (Buffer_concat [buffer; seed])
  end.

(** The bytes that are hashed into an address. *)
Definition address_preimage (buffer : Buffer) (programId : PublicKey) : Buffer :=
  Buffer_concat [buffer; toBuffer programId; Buffer_from "ProgramDerivedAddress"].

Definition createProgramAddressSync (seeds : list Buffer) (programId : PublicKey)
  : result PublicKey :=
  buffer ← concat_seeds seeds [];
  let publicKeyBytes := SHA256.sha256 (address_preimage buffer programId) in
  if isOnCurve publicKeyBytes
  then Throw (Error "Invalid seeds, address must fall off the curve")
  else Ok (mkPublicKey publicKeyBytes).

(** [err instanceof TypeError]. *)
Definition is_TypeError (err : Exn) : bool :=
  match err with
  | TypeError _ => true
  | _ => false
  end.

(** The loop of [findProgramAddressSync]: [nonce] runs from 255 down to 1;
    a [TypeError] is thrown again, any other failure tries the next one. *)
Fixpoint find_nonce (nonce : nat) (seeds : list Buffer) (programId : PublicKey)
  : result (PublicKey * Z) :=
  match nonce with
  | O => Throw (Error "Unable to find a viable program address nonce")
  | S n =>
      let seedsWithNonce := seeds ++ [[Z.of_nat nonce]] in
      match createProgramAddressSync seedsWithNonce programId with
      | Ok address => Ok (address, Z.of_nat nonce)
      | Throw err => if is_TypeError err then Throw err else find_nonce n seeds programId
      end
  end.

Definition findProgramAddress (seeds : list Buffer) (programId : PublicKey)
  : result (PublicKey * Z) :=
  find_nonce 255 seeds programId.

(** The seed lists of the two scripts. *)
Definition vault_seeds (mint authority : PublicKey) : list Buffer :=
  [Buffer_from "vault"; toBuffer mint; toBuffer authority].

Definition escrow_seeds (vaultPk buyerPk sellerPk : PublicKey) : list Buffer :=
  [Buffer_from "escrow"; toBuffer vaultPk; toBuffer buyerPk; toBuffer sellerPk].

(** [deriveVaultPda] (defined alike in both scripts). *)
Definition deriveVaultPda (programId mint authority : PublicKey)
  : result (PublicKey * Z) :=
  findProgramAddress (vault_seeds mint authority) programId.

(** [deriveEscrowPda] (escrow script). *)
Definition deriveEscrowPda (programId vaultPk buyerPk sellerPk : PublicKey)
  : result (PublicKey * Z) :=
  findProgramAddress (escrow_seeds vaultPk buyerPk sellerPk) programId.

(** [getAssociatedTokenAddress] of [@solana/spl-token]. *)
Definition getAssociatedTokenAddress
  (mint owner : PublicKey) (allowOwnerOffCurve : bool)
  (programId associatedTokenProgramId : PublicKey) : result PublicKey :=
  if negb allowOwnerOffCurve && negb (isOnCurve (toBuffer owner))
  then Throw TokenOwnerOffCurveError
  else
    '(address, _) ← findProgramAddress
        [toBuffer owner; toBuffer programId; toBuffer mint] associatedTokenProgramId;
    Ok address.

End Derivation.

(** ** Reference instances of the library functions

    The scripts are modelled over any curve test and any base-58 codec;
    these are the ones of the libraries, used to run the model. *)

Fixpoint pow_mod (b : Z) (e : positive) (m : Z) : Z :=
  match e with
  | xH => b mod m
  | xO e' => let r := pow_mod b e' m in r * r mod m
  | xI e' => let r := pow_mod b e' m in (r * r mod m) * b mod m
  end.

Definition ed25519_p : Z := 2 ^ 255 - 19.

(** [d = -121665 / 121666] in the field. *)
Definition ed25519_d : Z :=
  Eval vm_compute in
    ((ed25519_p - 121665) * pow_mod 121666 (Z.to_pos (ed25519_p - 2)) ed25519_p)
      mod ed25519_p.

(** Reduction modulo [2^255 - 19] of a number below [2^512], by folding
    the high bits twice ([2^255 = 19] in the field). *)
Definition fe (x : Z) : Z :=
  let r1 := Z.land x (Z.ones 255) + 19 * Z.shiftr x 255 in
  let r2 := Z.land r1 (Z.ones 255) + 19 * Z.shiftr r1 255 in
  if r2 <? ed25519_p then r2 else r2 - ed25519_p.

Fixpoint fe_pow (b : Z) (e : positive) : Z :=
  match e with
  | xH => fe b
  | xO e' => let r := fe_pow b e' in fe (r * r)
  | xI e' => let r := fe_pow b e' in fe (fe (r * r) * b)
  end.

(** Whether 32 bytes decode to a point [(x, y)] with
    [-x^2 + y^2 = 1 + d x^2 y^2]: [y] is the little-endian number without
    its top bit, and [x^2 = (y^2 - 1) / (d y^2 + 1)] must be a square
    (Euler's criterion on numerator times denominator). *)
Definition ed25519_isOnCurve (b : Buffer) : bool :=
  let n := le_value (firstn 32 b) in
  let y := Z.land n (Z.ones 255) in
  let sign := Z.testbit n 255 in
  let y2 := fe (y * y) in
  let u := fe (y2 + ed25519_p - 1) in
  let v := fe (ed25519_d * y2 + 1) in
  let t := fe (u * v) in
  let euler := fe_pow t (Z.to_pos ((ed25519_p - 1) / 2)) in
  (y <? ed25519_p) && ((euler =? 0) || (euler =? 1)) && negb ((u =? 0) && sign).

Fixpoint base58_digits (fuel : nat) (n : Z) (acc : string) : string :=
  match fuel with
  | O => acc
  | S f =>
      if n <=? 0 then acc
      else
        let c := default "1"%char (String.get (Z.to_nat (n mod 58)) base58_alphabet) in
        base58_digits f (n / 58) (String c acc)
  end.

Fixpoint leading_zeroes (b : Buffer) : nat :=
  match b with
  | 0 :: r => S (leading_zeroes r)
  | _ => O
  end.

(** [bs58.encode]. *)
Definition base58_encode (b : Buffer) : string :=
  (string_of_list_ascii (repeat "1"%char (leading_zeroes b))
   ++ base58_digits (2 * length b) (SHA256.be_word b) "")%string.

(** ** Transactions

    The instructions built by the scripts' own encoders are kept as the
    bytes and account lists they produce; the instructions built by the
    libraries ([SystemProgram] and [@solana/spl-token]) are kept as the
    calls that build them. *)

Inductive Instruction :=
| ProgramCall (ix : TransactionInstruction)
| SystemProgram_createAccount
    (fromPubkey newAccountPubkey : PublicKey) (lamports space : Z) (owner : PublicKey)
| createInitializeMint2Instruction
    (mint : PublicKey) (decimals : Z) (mintAuthority freezeAuthority : PublicKey)
| createAssociatedTokenAccountInstruction
    (payer associatedToken owner mint tokenProgram ataProgram : PublicKey)
| createMintToInstruction
    (mint destination authority : PublicKey) (amount : Z) (tokenProgram : PublicKey).

(** [new Transaction().add(...)]. *)
Abbreviation Transaction := (list Instruction).

Abbreviation Signature := string.

(** [MINT_SIZE] of [@solana/spl-token]. *)
Definition MINT_SIZE : Z := 82.

(** ** The scripts' surroundings

    What a script reads from and does to the outside: the cluster behind
    [connection], the random source of [Keypair.generate], the clock and
    the file [deploy-info.json]. *)

Record DeployInfo := mkInfo
  { info_programId : string;
    info_mint : string;
    info_payer : string;
    info_payerAta : string;
    info_decimals : Z;
    info_tokenName : string }.

(** An argument of [console.log]. *)
Inductive LogArg :=
| LStr (s : string)
| LKey (k : PublicKey)
| LExn (e : Exn)
| LInfo (i : DeployInfo).

Record Env (World : Type) := mkEnv
  { sendAndConfirmTransaction :
      Transaction -> list PublicKey -> World -> result Signature * World;
    Keypair_generate : World -> PublicKey * World;
    Date_now : World -> Z;
    getMinimumBalanceForRentExemptMint : World -> result Z }.
Arguments sendAndConfirmTransaction {World}.
Arguments Keypair_generate {World}.
Arguments Date_now {World}.
Arguments getMinimumBalanceForRentExemptMint {World}.

(** The state a run threads: the world, the lines logged, the transactions
    submitted with their signers (latest last), and the file. *)
Record Run (World : Type) := mkRun
  { world : World;
    console : list (list LogArg);
    sent : list (Transaction * list PublicKey);
    deploy_info : option DeployInfo }.
Arguments mkRun {World}.
Arguments world {World}.
Arguments console {World}.
Arguments sent {World}.
Arguments deploy_info {World}.

Definition M (World A : Type) : Type := Run World -> result A * Run World.

Section Monad.

Context {World : Type}.

Definition ret {A} (a : A) : M World A := fun s => (Ok a, s).

Definition bind {A B} (m : M World A) (k : A -> M World B) : M World B :=
  fun s =>
    match m s with
    | (Ok a, s') => k a s'
    | (Throw e, s') => (Throw e, s')
    end.

Definition throw {A} (e : Exn) : M World A := fun s => (Throw e, s).

Definition lift {A} (r : result A) : M World A := fun s => (r, s).

(** [try { body } catch (e) { handler(e) }]. *)
Definition try_catch {A} (body : M World A) (handler : Exn -> M World A) : M World A :=
  fun s =>
    match body s with
    | (Ok a, s') => (Ok a, s')
    | (Throw e, s') => handler e s'
    end.

Definition console_log (line : list LogArg) : M World unit :=
  fun s => (Ok tt, mkRun (world s) (console s ++ [line]) (sent s) (deploy_info s)).

End Monad.

#[global] Instance M_ret {World} : MRet (M World) := fun A a => ret a.
#[global] Instance M_bind {World} : MBind (M World) := fun A B k m => bind m k.

(** ** The three scripts *)

Section Scripts.

Variable isOnCurve : Buffer -> bool.
Variable bs58_decode : string -> option Buffer.
Variable toBase58 : PublicKey -> string.
Context {World : Type} (env : Env World).

(** The wallet [payer] of [_shared.ts], by its public key. *)
Variable payer : PublicKey.

(** [pubkeyFromString] of [_shared.ts]. *)
Definition pubkeyFromString (s : string) : result PublicKey :=
  PublicKey_of_string bs58_decode s.

(** [logPubkeys] of [_shared.ts]. *)
Definition logPubkeys : M World unit :=
  console_log [LStr "Payer pubkey:"; LKey payer].

(** [await sendAndConfirmTransaction(connection, tx, signers)]. *)
Definition send (tx : Transaction) (signers : list PublicKey) : M World Signature :=
  fun s =>
    let (r, w) := sendAndConfirmTransaction env tx signers (world s) in
    (r, mkRun w (console s) (sent s ++ [(tx, signers)]) (deploy_info s)).

Definition generate : M World PublicKey :=
  fun s =>
    let (k, w) := Keypair_generate env (world s) in
    (Ok k, mkRun w (console s) (sent s) (deploy_info s)).

(** [JSON.parse(fs.readFileSync("deploy-info.json", "utf8"))]. *)
Definition read_deploy_info : M World DeployInfo :=
  fun s =>
    match deploy_info s with
    | Some info => (Ok info, s)
    | None => (Throw (Error "ENOENT: no such file or directory"), s)
    end.

(** [fs.writeFileSync("deploy-info.json", JSON.stringify(info, null, 2))]. *)
Definition write_deploy_info (info : DeployInfo) : M World unit :=
  fun s => (Ok tt, mkRun (world s) (console s) (sent s) (Some info)).

Definition wallet_mismatch : Exn :=
  Error "Wallet mismatch: deploy-info.json payer != local payer.publicKey".

(** The mint script. *)
Definition main_create_mint : M World unit :=
  logPubkeys;;
  let TOKEN_NAME := "Goblin Gold"%string in
  let DECIMALS := 6 in
  let INITIAL_AMOUNT := 1000000 * 1000000 in
  mintKeypair ← generate;
  rentLamports ← (fun s => (getMinimumBalanceForRentExemptMint env (world s), s));
  let createMintIx :=
    SystemProgram_createAccount payer mintKeypair rentLamports MINT_SIZE TOKEN_PROGRAM_ID in
  let initMintIx := createInitializeMint2Instruction mintKeypair DECIMALS payer payer in
  payerAta ← lift (getAssociatedTokenAddress isOnCurve mintKeypair payer false
                     TOKEN_PROGRAM_ID ASSOCIATED_TOKEN_PROGRAM_ID);
  let createAtaIx :=
    createAssociatedTokenAccountInstruction payer payerAta payer mintKeypair
      TOKEN_PROGRAM_ID ASSOCIATED_TOKEN_PROGRAM_ID in
  let mintToIx :=
    createMintToInstruction mintKeypair payerAta payer INITIAL_AMOUNT TOKEN_PROGRAM_ID in
  let tx := [createMintIx; initMintIx; createAtaIx; mintToIx] in
  sig ← send tx [payer; mintKeypair];
  console_log [LStr "Mint created and funded!"];;
  console_log [LStr "Signature:"; LStr sig];;
  console_log [LStr "Mint address:"; LKey mintKeypair];;
  console_log [LStr "Your ATA for this mint:"; LKey payerAta];;
  let info :=
    mkInfo "AhtmyF1FM2NwGYECDzgjC6jbNtPnSRDFzhahugFfqkZW"
           (toBase58 mintKeypair) (toBase58 payer) (toBase58 payerAta)
           DECIMALS TOKEN_NAME in
  write_deploy_info info;;
  console_log [LStr "Wrote deploy-info.json:"];;
  console_log [LInfo info].

(** The four keys both later scripts read from the file, and their guard. *)
Definition load_deploy_info (buyerLabel : string)
  : M World (PublicKey * PublicKey * PublicKey * PublicKey) :=
  info ← read_deploy_info;
  programId ← lift (pubkeyFromString (info_programId info));
  mint ← lift (pubkeyFromString (info_mint info));
  buyer ← lift (pubkeyFromString (info_payer info));
  buyerAta ← lift (pubkeyFromString (info_payerAta info));
  console_log [LStr "Program ID:"; LKey programId];;
  console_log [LStr "Mint:"; LKey mint];;
  console_log [LStr buyerLabel; LKey buyer];;
  console_log [LStr "Buyer ATA:"; LKey buyerAta];;
  if negb (equals buyer payer) then throw wallet_mismatch
  else mret (programId, mint, buyer, buyerAta).

(** [scripts/2_vault_and_escrow.ts]. *)
Definition main_vault : M World unit :=
  '(programId, mint, buyer, buyerAta) ← load_deploy_info "Buyer (authority):";
  '(vaultPda, _) ← lift (deriveVaultPda isOnCurve programId mint buyer);
  console_log [LStr "Vault PDA:"; LKey vaultPda];;
  vaultAta ← lift (getAssociatedTokenAddress isOnCurve mint vaultPda true
                     TOKEN_PROGRAM_ID ASSOCIATED_TOKEN_PROGRAM_ID);
  console_log [LStr "Vault ATA:"; LKey vaultAta];;
  let initVaultIx := encodeInitVaultIx programId buyer mint vaultPda in
  try_catch
    (let tx1 := [ProgramCall initVaultIx] in
     sig1 ← send tx1 [payer];
     console_log [LStr "init_vault tx sig:"; LStr sig1])
    (fun e =>
       console_log [LStr "init_vault probably already ran, skipping. Details:"];;
       console_log [LExn e]);;
  let createVaultAtaIx :=
    createAssociatedTokenAccountInstruction buyer vaultAta vaultPda mint
      TOKEN_PROGRAM_ID ASSOCIATED_TOKEN_PROGRAM_ID in
  try_catch
    (let tx2 := [createVaultAtaIx] in
     sig2 ← send tx2 [payer];
     console_log [LStr "create vault ATA tx sig:"; LStr sig2])
    (fun e =>
       console_log [LStr "vault ATA likely already exists, skipping. Details:"];;
       console_log [LExn e]);;
  let amountToLock := 100000 in
  lockTokensIx ← lift (encodeLockTokensIx programId buyer mint vaultPda vaultAta
                         buyerAta amountToLock);
  let tx3 := [ProgramCall lockTokensIx] in
  sig3 ← send tx3 [payer];
  console_log [LStr "lock_tokens tx sig:"; LStr sig3];;
  console_log [LStr "DONE"];;
  console_log [LStr "- Vault PDA is initialized on devnet."];;
  console_log [LStr "- Vault ATA exists for that PDA and mint."];;
  console_log [LStr "- ~0.1 Goblin Gold moved from your wallet ATA into the vault ATA."];;
  console_log [LStr "That completes: mint token -> create vault -> lock tokens in vault."];;
  console_log [LStr "Escrow is next."].

(** The escrow script.  [Date.now()] is a time value, an integer of at most
    8.64e15 in magnitude; for these [Math.floor(Date.now() / 1000) + 3600] is
    exact in doubles, and the deadline is computed in integers. *)
Definition main_escrow : M World unit :=
  '(programId, mint, buyer, buyerAta) ← load_deploy_info "Buyer:";
  seller ← generate;
  console_log [LStr "Seller pubkey:"; LKey seller];;
  '(vaultPda, _) ← lift (deriveVaultPda isOnCurve programId mint buyer);
  console_log [LStr "Vault PDA:"; LKey vaultPda];;
  '(escrowPda, _) ← lift (deriveEscrowPda isOnCurve programId vaultPda buyer seller);
  console_log [LStr "Escrow PDA:"; LKey escrowPda];;
  vaultAta ← lift (getAssociatedTokenAddress isOnCurve mint vaultPda true
                     TOKEN_PROGRAM_ID ASSOCIATED_TOKEN_PROGRAM_ID);
  console_log [LStr "Vault ATA:"; LKey vaultAta];;
  sellerAta ← lift (getAssociatedTokenAddress isOnCurve mint seller false
                      TOKEN_PROGRAM_ID ASSOCIATED_TOKEN_PROGRAM_ID);
  console_log [LStr "Seller ATA:"; LKey sellerAta];;
  let amountToEscrow := 50000 in
  nowSec ← (fun s => (Ok (Date_now env (world s) / 1000), s));
  let deadlineSec := nowSec + 3600 in
  let deadlineUnixTs := deadlineSec in
  initEscrowIx ← lift (encodeInitEscrowIx programId buyer seller mint vaultPda
                         escrowPda amountToEscrow deadlineUnixTs);
  let createSellerAtaIx :=
    createAssociatedTokenAccountInstruction buyer sellerAta seller mint
      TOKEN_PROGRAM_ID ASSOCIATED_TOKEN_PROGRAM_ID in
  let tx1 := [createSellerAtaIx; ProgramCall initEscrowIx] in
  sig1 ← send tx1 [payer];
  console_log [LStr "init_escrow tx sig:"; LStr sig1];;
  let releaseIx :=
    encodeReleaseToSellerIx programId buyer seller mint escrowPda vaultPda
      vaultAta sellerAta in
  let tx2 := [ProgramCall releaseIx] in
  sig2 ← send tx2 [payer];
  console_log [LStr "release_to_seller tx sig:"; LStr sig2];;
  console_log [LStr "ESCROW COMPLETE"];;
  console_log [LStr "- Escrow PDA was created to track amount, seller, and deadline."];;
  console_log [LStr "- Seller ATA was created so they can receive Goblin Gold."];;
  console_log [LStr "- Tokens were released from your Vault PDA ATA to the seller."];;
  console_log [LStr "You have now completed Task 2 end-to-end on devnet."].

End Scripts.

(** ** The settlement executor

    The on-ledger program and the asset ledger are not among the sources;
    this part follows sections 3, 4.3, 4.4, 5 and 7 of the specification. *)

(** Modelled from the spec: the status of an agreement record (section 4.4);
    an agreement that is not recorded is Uninitialized. *)
Inductive Status := Active | Released.

(** Modelled from the spec: the escrow agreement record (section 3). *)
Record Agreement := mkAgreement
  { agreement_vault : PublicKey;
    agreement_buyer : PublicKey;
    agreement_seller : PublicKey;
    amount_locked : Z;
    deadline : Z;
    status : Status }.

(** Modelled from the spec: the custody vault record (section 3); a vault
    that is not recorded is Absent. *)
Record Vault := mkVault
  { vault_asset : PublicKey; vault_authority : PublicKey }.

(** Modelled from the spec: the fungible asset descriptor (section 3). *)
Record Asset := mkAsset
  { decimals : Z; mint_authority : PublicKey; freeze_authority : PublicKey }.

(** Modelled from the spec: a holding account, the balance of an
    (asset, owner) pair (section 3). *)
Record Holding := mkHolding
  { holding_asset : PublicKey; holding_owner : PublicKey; balance : Z }.

(** Modelled from the spec: the state of the ledger.  Records are kept by
    address; [canonical] gives the one holding account of an
    (asset, owner) pair; [clock] is the ledger's time in seconds. *)
Record Ledger := mkLedger
  { program : PublicKey;
    assets : gmap Buffer Asset;
    holdings : gmap Buffer Holding;
    canonical : gmap (Buffer * Buffer) Buffer;
    vaults : gmap Buffer Vault;
    agreements : gmap Buffer Agreement;
    clock : Z }.

(** Modelled from the spec: a unit rejected by the executor, by category
    (section 7). *)
Definition reject {A} (c : Category) (detail : string) : result A :=
  Throw (SendTransactionError c detail).

(** Modelled from the spec: a check of the executor. *)
Definition require (b : bool) (c : Category) (detail : string) : result unit :=
  if b then Ok tt else reject c detail.

(** Modelled from the spec: an account reference co-signs when it is
    flagged as signer and its key signed the unit (section 4.2). *)
Definition cosigns (signers : list PublicKey) (m : AccountMeta) : bool :=
  isSigner m && bool_decide (pubkey m ∈ signers).

(** Modelled from the spec: the account reference at a position of the
    ordered list (section 6). *)
Definition account (ix : TransactionInstruction) (i : nat) : result PublicKey :=
  match keys ix !! i with
  | Some m => Ok (pubkey m)
  | None => reject PreconditionViolation "missing account reference"
  end.

(** Modelled from the spec: the first reference of every operation must
    co-sign (section 6). *)
Definition authorize (signers : list PublicKey) (ix : TransactionInstruction)
  : result unit :=
  match keys ix !! 0%nat with
  | Some m => require (cosigns signers m) AuthorizationError "missing co-signer"
  | None => reject PreconditionViolation "missing account reference"
  end.

(** Modelled from the spec: the holdings of an (asset, owner) pair, zero
    when the pair has no holding account. *)
Definition holdings_of (l : Ledger) (asset owner : PublicKey) : Z :=
  match canonical l !! (toBuffer asset, toBuffer owner) with
  | Some a => from_option balance 0 (holdings l !! a)
  | None => 0
  end.

(** Modelled from the spec: the holding account at an address, which must
    be the canonical one of the pair. *)
Definition holding_at (l : Ledger) (address asset owner : PublicKey)
  : result Holding :=
  match canonical l !! (toBuffer asset, toBuffer owner), holdings l !! toBuffer address with
  | Some a, Some h =>
      if bool_decide (a = toBuffer address) then Ok h
      else reject PreconditionViolation "not the holding account of the pair"
  | _, _ => reject PreconditionViolation "missing holding account"
  end.

(** Modelled from the spec: the ledger with the balance at an address set. *)
Definition set_balance (l : Ledger) (address : PublicKey) (h : Holding) (b : Z) : Ledger :=
  mkLedger (program l) (assets l)
    (<[toBuffer address := mkHolding (holding_asset h) (holding_owner h) b]> (holdings l))
    (canonical l) (vaults l) (agreements l) (clock l).

(** Modelled from the spec: moving value between two holding accounts
    (sections 4.3 and 4.4): the source must hold the amount. *)
Definition transfer (l : Ledger) (asset src srcOwner dst dstOwner : PublicKey) (amount : Z)
  : result Ledger :=
  hs ← holding_at l src asset srcOwner;
  _ ← holding_at l dst asset dstOwner;
  _ ← require (amount <=? balance hs) PreconditionViolation "amount exceeds holdings";
  let l1 := set_balance l src hs (balance hs - amount) in
  hd ← holding_at l1 dst asset dstOwner;
  Ok (set_balance l1 dst hd (balance hd + amount)).

(** Modelled from the spec: Vault-Init (section 4.3), Absent to
    Initialized; a second one fails with the already-exists condition. *)
Definition vault_init (l : Ledger) (signers : list PublicKey) (ix : TransactionInstruction)
  : result Ledger :=
  _ ← authorize signers ix;
  authority ← account ix 0;
  asset ← account ix 1;
  vault ← account ix 2;
  match vaults l !! toBuffer vault with
  | Some _ => reject DuplicateInitialization "already exists"
  | None =>
      Ok (mkLedger (program l) (assets l) (holdings l) (canonical l)
            (<[toBuffer vault := mkVault asset authority]> (vaults l))
            (agreements l) (clock l))
  end.

(** Modelled from the spec: Custody-Fund (section 4.3): the amount moves
    from the authority's holding account to the vault's. *)
Definition custody_fund (l : Ledger) (signers : list PublicKey) (ix : TransactionInstruction)
  : result Ledger :=
  _ ← authorize signers ix;
  holder ← account ix 0;
  asset ← account ix 1;
  vault ← account ix 2;
  vaultHolding ← account ix 3;
  holderHolding ← account ix 4;
  let amount := readBigUInt64LE (skipn 8 (data ix)) in
  match vaults l !! toBuffer vault with
  | None => reject PreconditionViolation "vault is not initialized"
  | Some v =>
      _ ← require (equals (vault_authority v) holder) AuthorizationError "wrong authority";
      transfer l asset holderHolding holder vaultHolding vault amount
  end.

(** Modelled from the spec: Agreement-Init (section 4.4), Uninitialized to
    Active: the amount is at most the vault's holdings and the deadline is
    in the future. *)
Definition agreement_init (l : Ledger) (signers : list PublicKey) (ix : TransactionInstruction)
  : result Ledger :=
  _ ← authorize signers ix;
  buyer ← account ix 0;
  seller ← account ix 1;
  asset ← account ix 2;
  vault ← account ix 3;
  agreement ← account ix 4;
  let amount := readBigUInt64LE (skipn 8 (data ix)) in
  let deadline := readBigInt64LE (skipn 16 (data ix)) in
  _ ← require (bool_decide (is_Some (vaults l !! toBuffer vault)))
        PreconditionViolation "vault is not initialized";
  _ ← require (bool_decide (agreements l !! toBuffer agreement = None))
        DuplicateInitialization "already exists";
  _ ← require (amount <=? holdings_of l asset vault)
        PreconditionViolation "amount exceeds the vault's holdings";
  _ ← require (clock l <? deadline) PreconditionViolation "deadline is not in the future";
  Ok (mkLedger (program l) (assets l) (holdings l) (canonical l) (vaults l)
        (<[toBuffer agreement := mkAgreement vault buyer seller amount deadline Active]>
           (agreements l))
        (clock l)).

(** Modelled from the spec: Release (section 4.4), Active to Released: the
    buyer alone co-signs, and exactly the amount locked moves from the
    vault's holding account to the seller's. *)
Definition release (l : Ledger) (signers : list PublicKey) (ix : TransactionInstruction)
  : result Ledger :=
  _ ← authorize signers ix;
  buyer ← account ix 0;
  seller ← account ix 1;
  asset ← account ix 2;
  agreement ← account ix 3;
  vault ← account ix 4;
  vaultHolding ← account ix 5;
  sellerHolding ← account ix 6;
  match agreements l !! toBuffer agreement with
  | None => reject PreconditionViolation "agreement is not initialized"
  | Some a =>
      _ ← require (equals (agreement_buyer a) buyer && equals (agreement_seller a) seller
                   && equals (agreement_vault a) vault)
            AuthorizationError "not the parties of this agreement";
      match status a with
      | Released => reject PreconditionViolation "agreement is not Active"
      | Active =>
          l1 ← transfer l asset vaultHolding vault sellerHolding seller (amount_locked a);
          Ok (mkLedger (program l1) (assets l1) (holdings l1) (canonical l1) (vaults l1)
                (<[toBuffer agreement :=
                     mkAgreement (agreement_vault a) (agreement_buyer a) (agreement_seller a)
                       (amount_locked a) (deadline a) Released]> (agreements l1))
                (clock l1))
      end
  end.

(** Modelled from the spec: dispatch on the selector, the first 8 bytes of
    the payload (section 4.2). *)
Definition dispatch (l : Ledger) (signers : list PublicKey) (ix : TransactionInstruction)
  : result Ledger :=
  let selector := firstn 8 (data ix) in
  if negb (equals (programId ix) (program l))
  then reject PreconditionViolation "unknown program"
  else if bool_decide (selector = discriminator "init_vault") then vault_init l signers ix
  else if bool_decide (selector = discriminator "lock_tokens") then custody_fund l signers ix
  else if bool_decide (selector = discriminator "init_escrow") then agreement_init l signers ix
  else if bool_decide (selector = discriminator "release_to_seller") then release l signers ix
  else reject PreconditionViolation "unknown selector".

(** Modelled from the spec: the asset ledger and the execution of one
    instruction of a unit (section 6, external collaborator capabilities). *)
Definition execute_instruction (signers : list PublicKey) (l : Ledger) (i : Instruction)
  : result Ledger :=
  match i with
  | ProgramCall ix => dispatch l signers ix
  | SystemProgram_createAccount from new _ _ _ =>
      _ ← require (bool_decide (from ∈ signers) && bool_decide (new ∈ signers))
            AuthorizationError "missing co-signer";
      Ok l
  | createInitializeMint2Instruction mint decimals mintAuthority freezeAuthority =>
      _ ← require (bool_decide (assets l !! toBuffer mint = None))
            DuplicateInitialization "already exists";
      Ok (mkLedger (program l)
            (<[toBuffer mint := mkAsset decimals mintAuthority freezeAuthority]> (assets l))
            (holdings l) (canonical l) (vaults l) (agreements l) (clock l))
  | createAssociatedTokenAccountInstruction payer associatedToken owner mint _ _ =>
      _ ← require (bool_decide (payer ∈ signers)) AuthorizationError "missing co-signer";
      _ ← require (bool_decide (canonical l !! (toBuffer mint, toBuffer owner) = None)
                   && bool_decide (holdings l !! toBuffer associatedToken = None))
            DuplicateInitialization "already exists";
      Ok (mkLedger (program l) (assets l)
            (<[toBuffer associatedToken := mkHolding mint owner 0]> (holdings l))
            (<[(toBuffer mint, toBuffer owner) := toBuffer associatedToken]> (canonical l))
            (vaults l) (agreements l) (clock l))
  | createMintToInstruction mint destination authority amount _ =>
      _ ← require (bool_decide (authority ∈ signers)) AuthorizationError "missing co-signer";
      match assets l !! toBuffer mint, holdings l !! toBuffer destination with
      | Some a, Some h =>
          _ ← require (equals (mint_authority a) authority) AuthorizationError "wrong authority";
          _ ← require (equals (holding_asset h) mint)
                PreconditionViolation "holding account of another asset";
          Ok (set_balance l destination h (balance h + amount))
      | _, _ => reject PreconditionViolation "missing asset or holding account"
      end
  end.

(** Modelled from the spec: a unit applies wholly or not at all
    (section 5). *)
Fixpoint execute (signers : list PublicKey) (l : Ledger) (tx : Transaction)
  : result Ledger :=
  match tx with
  | [] => Ok l
  | i :: rest => l' ← execute_instruction signers l i; execute signers l' rest
  end.

(** Modelled from the spec: the cluster a script talks to: the ledger, the
    random source of fresh keys, the wall clock in milliseconds and the
    rent of a mint account. *)
Record Cluster := mkCluster
  { ledger : Ledger;
    fresh_keys : list PublicKey;
    now_ms : Z;
    mint_rent : Z }.

(** Modelled from the spec: submission of one atomic unit; a rejected unit
    leaves the ledger as it was. *)
Definition cluster_env : Env Cluster :=
  mkEnv Cluster
    (fun tx signers c =>
       match execute signers (ledger c) tx with
       | Ok l => (Ok "confirmed"%string,
                  mkCluster l (fresh_keys c) (now_ms c) (mint_rent c))
       | Throw e => (Throw e, c)
       end)
    (fun c =>
       match fresh_keys c with
       | k :: rest => (k, mkCluster (ledger c) rest (now_ms c) (mint_rent c))
       | [] => (mkPublicKey (repeat 0 32), c)
       end)
    now_ms
    (fun c => Ok (mint_rent c)).

(** Modelled from the spec: the ledger before anything is created. *)
Definition empty_ledger (program : PublicKey) (clock : Z) : Ledger :=
  mkLedger program ∅ ∅ ∅ ∅ ∅ clock.

(** ** Concrete surroundings, to run the scripts *)

(** Surroundings that answer the submissions as scripted: each submission
    takes the next answer of the list and is confirmed once the list is
    exhausted. *)
Definition scripted_env (fresh : PublicKey) (now rent : Z)
  : Env (list (result Signature)) :=
  mkEnv (list (result Signature))
    (fun _ _ answers =>
       match answers with
       | a :: rest => (a, rest)
       | [] => (Ok "confirmed"%string, [])
       end)
    (fun answers => (fresh, answers))
    (fun _ => now)
    (fun _ => Ok rent).

(** [k.toBase58()] over the reference codec. *)
Definition toBase58_ref (k : PublicKey) : string := base58_encode (toBuffer k).

(** The program of the scripts, and three public keys of RFC 8032 as the
    wallet, the mint and the seller. *)
Definition example_program : PublicKey :=
  Eval vm_compute in key_of_base58 "AhtmyF1FM2NwGYECDzgjC6jbNtPnSRDFzhahugFfqkZW".

Definition example_payer : PublicKey :=
  Eval vm_compute in
    mkPublicKey (of_hex "d75a980182b10ab7d54bfed3c964073a0ee172f3daa62325af021a68f707511a").

Definition example_mint : PublicKey :=
  Eval vm_compute in
    mkPublicKey (of_hex "fc51cd8e6218a1a38da47ed00230f0580816ed13ba3303ac5deb911548908025").

Definition example_seller : PublicKey :=
  Eval vm_compute in
    mkPublicKey (of_hex "3d4017c3e843895a92b70aa74d1b7ebc9c982ccf2ec4968cc0cd55f12af4660c").

(** The file the mint script writes for these keys. *)
Definition example_info : DeployInfo :=
  mkInfo "AhtmyF1FM2NwGYECDzgjC6jbNtPnSRDFzhahugFfqkZW"
         "Hyx62wPQGyvXCoihZq1BrbUjBRh2LuNxWiiqMkfAuSZr"
         "FVen3X669xLzsi6N2V91DoiyzHzg1uAgqiT8jZ9nS96Z"
         "7t5MTXcXbBavXhiaes1qnehM3NrRHmbSajCq9M5Hshrf"
         6 "Goblin Gold".

Definition example_cluster : Cluster :=
  mkCluster (empty_ledger example_program 1700000000)
    [example_mint; example_seller] 1700000000123 1461600.

(** The key a derivation returns, for keys it is known to succeed on. *)
Definition derived {A} (r : result (PublicKey * A)) : PublicKey :=
  match r with
  | Ok (k, _) => k
  | Throw _ => mkPublicKey []
  end.

Definition example_payer_ata : PublicKey :=
  Eval vm_compute in key_of_base58 (info_payerAta example_info).

Definition example_vault : PublicKey :=
  Eval vm_compute in
    derived (deriveVaultPda ed25519_isOnCurve example_program example_mint example_payer).

Definition example_vault_ata : PublicKey :=
  Eval vm_compute in
    derived (findProgramAddress ed25519_isOnCurve
               [toBuffer example_vault; toBuffer TOKEN_PROGRAM_ID; toBuffer example_mint]
               ASSOCIATED_TOKEN_PROGRAM_ID).

(** The cluster after the mint script, with a vault that was funded with
    [amount] base units. *)
Definition funded_cluster (amount : Z) : Cluster :=
  let c := (main_create_mint ed25519_isOnCurve toBase58_ref cluster_env example_payer
              (mkRun example_cluster [] [] None)).2 in
  let fund :=
    lockTokensIx ← encodeLockTokensIx example_program example_payer example_mint
                     example_vault example_vault_ata example_payer_ata amount;
    execute [example_payer] (ledger (world c))
      [ ProgramCall (encodeInitVaultIx example_program example_payer example_mint
                       example_vault);
        createAssociatedTokenAccountInstruction example_payer example_vault_ata
          example_vault example_mint TOKEN_PROGRAM_ID ASSOCIATED_TOKEN_PROGRAM_ID;
        ProgramCall lockTokensIx ] in
  match fund with
  | Ok l => mkCluster l (fresh_keys (world c)) (now_ms (world c)) (mint_rent (world c))
  | Throw _ => world c
  end.

(** A cluster whose vault holds 100 base units; the seller's key is the next
    one generated. *)
Definition low_vault_ledger : Ledger := Eval vm_compute in ledger (funded_cluster 100).

Definition low_vault_cluster : Cluster :=
  mkCluster low_vault_ledger [example_seller] 1700000000123 1461600.

Definition example_escrow : PublicKey :=
  Eval vm_compute in
    derived (deriveEscrowPda ed25519_isOnCurve example_program example_vault
               example_payer example_seller).

Definition example_seller_ata : PublicKey :=
  Eval vm_compute in
    derived (findProgramAddress ed25519_isOnCurve
               [toBuffer example_seller; toBuffer TOKEN_PROGRAM_ID; toBuffer example_mint]
               ASSOCIATED_TOKEN_PROGRAM_ID).

(** The amount of an agreement-init instruction. *)
Definition agreement_init_amount (i : Instruction) : option Z :=
  match i with
  | ProgramCall ix =>
      if bool_decide (firstn 8 (data ix) = discriminator "init_escrow")
      then Some (readBigUInt64LE (skipn 8 (data ix)))
      else None
  | _ => None
  end.

(** The amount of a custody-fund instruction. *)
Definition custody_fund_amount (i : Instruction) : option Z :=
  match i with
  | ProgramCall ix =>
      if bool_decide (firstn 8 (data ix) = discriminator "lock_tokens")
      then Some (readBigUInt64LE (skipn 8 (data ix)))
      else None
  | _ => None
  end.

(** The instructions submitted during a run, in order. *)
Definition submitted {World} (r : Run World) : list Instruction :=
  concat (map fst (sent r)).

(** ** Notions used to state further properties *)

(** The 32 bytes hashed for a nonce by the search of a program address. *)
Definition candidate (seeds : list Buffer) (programId : PublicKey) (nonce : Z) : Buffer :=
  SHA256.sha256 (address_preimage (concat (seeds ++ [[nonce]])) programId).

(** A key as the cluster knows one: 32 bytes, each of them a byte. *)
Definition key_bytes (k : PublicKey) : Prop :=
  wf_key k /\ Forall (fun x => 0 <= x < 256) (toBuffer k).

(** The signatures an instruction asks for: the accounts it marks as
    signers.  Among the instructions of the libraries,
    [SystemProgram.createAccount] marks the funding and the new account,
    [createAssociatedTokenAccountInstruction] the payer,
    [createMintToInstruction] without multi-signers the authority, and
    [createInitializeMint2Instruction] none. *)
Definition required_signers (i : Instruction) : list PublicKey :=
  match i with
  | ProgramCall ix => map pubkey (List.filter isSigner (keys ix))
  | SystemProgram_createAccount fromPubkey newAccountPubkey _ _ _ =>
      [fromPubkey; newAccountPubkey]
  | createInitializeMint2Instruction _ _ _ _ => []
  | createAssociatedTokenAccountInstruction payer _ _ _ _ _ => [payer]
  | createMintToInstruction _ _ authority _ _ => [authority]
  end.

(** A submission whose signers cover what its instructions ask for. *)
Definition fully_signed (t : Transaction * list PublicKey) : Prop :=
  forall i k, In i t.1 -> In k (required_signers i) -> In k t.2.

(** A command that, from any state, submits at most [n] further
    transactions, each of them as [Q] says, and leaves the file alone. *)
Definition submits {World A} (n : nat) (Q : Transaction * list PublicKey -> Prop)
    (m : M World A) : Prop :=
  forall s,
    exists new,
      sent (m s).2 = sent s ++ new
      /\ (length new <= n)%nat
      /\ Forall Q new
      /\ deploy_info (m s).2 = deploy_info s.

(** A submission signed by the wallet alone, and asking for no other
    signature. *)
Definition wallet_signed (payer : PublicKey) (t : Transaction * list PublicKey) : Prop :=
  t.2 = [payer] /\ fully_signed t.

(** A command whose errors, from any state, are all as [P] says. *)
Definition throws_only {World A} (P : Exn -> Prop) (m : M World A) : Prop :=
  forall s e, (m s).1 = Throw e -> P e.

(** * Properties *)

(** ** Sanity of the library models *)

Example sha256_empty :
  SHA256.sha256 [] =
  of_hex "e3b0c44298fc1c149afbf4c8996fb92427ae41e4649b934ca495991b7852b855".
Proof. vm_compute. reflexivity. Qed.

Example sha256_abc :
  SHA256.sha256 (Buffer_from "abc") =
  of_hex "ba7816bf8f01cfea414140de5dae2223b00361a396177a9cb410ff61f20015ad".
Proof. vm_compute. reflexivity. Qed.

Example sha256_two_blocks :
  SHA256.sha256 (Buffer_from "abcdbcdecdefdefgefghfghighijhijkijkljklmklmnlmnomnopnopq") =
  of_hex "248d6a61d20638b8e5c026930c3e6039a33ce45964ff2167f6ecedd419db06c1".
Proof. vm_compute. reflexivity. Qed.

Example library_keys :
  toBuffer SystemProgram_programId = repeat 0 32 /\
  toBuffer TOKEN_PROGRAM_ID =
    of_hex "06ddf6e1d765a193d9cbe146ceeb79ac1cb485ed5f5b37913a8cf5857eff00a9" /\
  toBuffer ASSOCIATED_TOKEN_PROGRAM_ID =
    of_hex "8c97258f4e2489f1bb3d1029148e0d830b5a1399daff1084048e7bd8dbe9f859".
Proof. vm_compute. auto. Qed.

Lemma fe_mod x : 0 <= x < 2 ^ 512 -> fe x = x mod ed25519_p.
Proof.
  intros [H0 H1]. unfold fe.
  rewrite !Z.land_ones, !Z.shiftr_div_pow2 by lia.
  set (q := x / 2 ^ 255). set (r := x mod 2 ^ 255).
  assert (Hx : x = 2 ^ 255 * q + r) by (apply Z.div_mod; lia).
  assert (0 <= r < 2 ^ 255) by (apply Z.mod_pos_bound; lia).
  assert (0 <= q < 2 ^ 257).
  { unfold q. split; [apply Z.div_pos; lia | apply Z.div_lt_upper_bound; lia]. }
  set (r1 := r + 19 * q).
  set (q2 := r1 / 2 ^ 255). set (s := r1 mod 2 ^ 255).
  assert (Hr1 : r1 = 2 ^ 255 * q2 + s) by (apply Z.div_mod; lia).
  assert (0 <= s < 2 ^ 255) by (apply Z.mod_pos_bound; lia).
  assert (0 <= q2 < 2 ^ 7).
  { unfold q2. split; [apply Z.div_pos; lia | apply Z.div_lt_upper_bound; unfold r1; lia]. }
  unfold ed25519_p in *.
  destruct (Z.ltb_spec (s + 19 * q2) (2 ^ 255 - 19)).
  - apply Z.mod_unique with (q := q + q2); lia.
  - apply Z.mod_unique with (q := q + q2 + 1); lia.
Qed.

(** The README's vault holding account is the one derived from its mint
    and vault addresses. *)
Example readme_vault_ata :
  getAssociatedTokenAddress ed25519_isOnCurve
    (key_of_base58 "7i5mgewTU2REvi4CDz5wkgftRVK1Kienw8Rrwo4fmcP1")
    (key_of_base58 "2LQeqSBLJh9ebhubpmWRQgeeQVsZtwmhKF59swavhEzX")
    true TOKEN_PROGRAM_ID ASSOCIATED_TOKEN_PROGRAM_ID
  = Ok (key_of_base58 "Ct5yvnD8a1x4boTL2iiZqEDtJ5mTNSvnX3UJRA27b5T2").
Proof. vm_compute. reflexivity. Qed.

(** ** The hash and the selector *)

Arguments SHA256.sha256 : simpl never.
Arguments discriminator : simpl never.

Lemma sha256_length m : length (SHA256.sha256 m) = 32%nat.
Proof. reflexivity. Qed.

Lemma discriminator_length ixName : length (discriminator ixName) = 8%nat.
Proof.
  unfold discriminator, subarray0.
  rewrite length_take, sha256_length. reflexivity.
Qed.

Lemma selector_values :
  discriminator "init_vault" = [77; 79; 85; 150; 33; 217; 52; 106]
  /\ discriminator "lock_tokens" = [136; 11; 32; 232; 161; 117; 54; 211]
  /\ discriminator "init_escrow" = [70; 46; 40; 23; 6; 11; 81; 139]
  /\ discriminator "release_to_seller" = [218; 83; 41; 9; 49; 54; 255; 56].
Proof. vm_compute. auto. Qed.

Lemma take_selector ixName rest : firstn 8 (discriminator ixName ++ rest) = discriminator ixName.
Proof. apply take_app_length'. symmetry. apply discriminator_length. Qed.

Lemma drop_selector ixName rest : skipn 8 (discriminator ixName ++ rest) = rest.
Proof. apply drop_app_length'. symmetry. apply discriminator_length. Qed.

(** ** The integer writers *)

Lemma toInt32_range x : - 2 ^ 31 <= toInt32 x < 2 ^ 31.
Proof.
  unfold toInt32. pose proof (Z.mod_pos_bound x (2 ^ 32) ltac:(lia)).
  destruct (Z.ltb_spec (x mod 2 ^ 32) (2 ^ 31)); lia.
Qed.

Lemma toInt32_small x : - 2 ^ 31 <= x < 2 ^ 31 -> toInt32 x = x.
Proof.
  intros H. unfold toInt32.
  destruct (Z.ltb_spec (x mod 2 ^ 32) (2 ^ 31)) as [L | L];
    revert L; Z.div_mod_to_equations; lia.
Qed.

Lemma sar8_div x : - 2 ^ 31 <= x < 2 ^ 31 -> sar8 x = x / 256.
Proof.
  intros H. unfold sar8. rewrite toInt32_small by assumption.
  rewrite Z.shiftr_div_pow2 by lia. reflexivity.
Qed.

Lemma sar8_range x : - 2 ^ 31 <= sar8 x < 2 ^ 31.
Proof.
  unfold sar8. pose proof (toInt32_range x) as H.
  rewrite Z.shiftr_div_pow2 by lia.
  change (2 ^ 8) with 256. Z.div_mod_to_equations. lia.
Qed.

(** The four bytes stored for a 32-bit number. *)
Lemma toInt32_cases x : toInt32 x = x mod 2 ^ 32 \/ toInt32 x = x mod 2 ^ 32 - 2 ^ 32.
Proof. unfold toInt32. destruct (_ <? _); auto. Qed.

Lemma store32_bytes lo :
  0 <= lo < 2 ^ 32 ->
  store32 lo = [lo mod 256; (lo / 256) mod 256; (lo / 65536) mod 256; (lo / 16777216) mod 256].
Proof.
  intros H. unfold store32, toUint8.
  rewrite (sar8_div (sar8 (sar8 lo))) by apply sar8_range.
  rewrite (sar8_div (sar8 lo)) by apply sar8_range.
  unfold sar8. rewrite Z.shiftr_div_pow2 by lia. change (2 ^ 8) with 256.
  rewrite !Z.div_div by lia. change (256 * 256 * 256) with 16777216.
  change (256 * 256) with 65536.
  generalize (toInt32_cases lo). rewrite (Z.mod_small lo) by lia.
  change (2 ^ 32) with 4294967296 in *.
  intros [-> | ->]; [reflexivity |].
  replace (((lo - 4294967296) / 256) mod 256) with ((lo / 256) mod 256)
    by (Z.div_mod_to_equations; lia).
  replace (((lo - 4294967296) / 65536) mod 256) with ((lo / 65536) mod 256)
    by (Z.div_mod_to_equations; lia).
  replace (((lo - 4294967296) / 16777216) mod 256) with ((lo / 16777216) mod 256)
    by (Z.div_mod_to_equations; lia).
  reflexivity.
Qed.

Lemma write_bytes value min max :
  min <= value <= max ->
  writeBigU_Int64LE value min max = Ok (le_bytes 8 value).
Proof.
  intros H. unfold writeBigU_Int64LE.
  destruct (Z.gtb_spec value max); [lia |].
  destruct (Z.ltb_spec value min); [lia |]. cbn [orb].
  change 0xffffffff with (Z.ones 32).
  rewrite !Z.land_ones, Z.shiftr_div_pow2 by lia.
  rewrite !store32_bytes by (apply Z.mod_pos_bound; lia).
  unfold le_bytes. cbn [seq map app]. f_equal.
  change (2 ^ 32) with 4294967296.
  repeat (apply (f_equal2 cons); [cbn; Z.div_mod_to_equations; lia |]). reflexivity.
Qed.

Lemma write_throws value min max :
  value < min \/ max < value ->
  writeBigU_Int64LE value min max = Throw (RangeError "ERR_OUT_OF_RANGE").
Proof.
  intros H. unfold writeBigU_Int64LE.
  destruct (Z.gtb_spec value max), (Z.ltb_spec value min); try reflexivity; lia.
Qed.

Lemma le_bytes_length n value : length (le_bytes n value) = n.
Proof. unfold le_bytes. rewrite length_map, length_seq. reflexivity. Qed.

Lemma le_value_le_bytes8 value : le_value (le_bytes 8 value) = value mod 2 ^ 64.
Proof.
  unfold le_bytes, le_value. cbn [seq map fold_right].
  change (2 ^ 64) with 18446744073709551616.
  cbn. Z.div_mod_to_equations. lia.
Qed.

Lemma read_u64_le amount :
  0 <= amount < 2 ^ 64 -> readBigUInt64LE (u64_le amount) = amount.
Proof.
  intros H. unfold readBigUInt64LE, u64_le.
  rewrite firstn_all2 by (rewrite le_bytes_length; lia).
  rewrite le_value_le_bytes8. apply Z.mod_small. lia.
Qed.

Lemma read_i64_le timestamp :
  - 2 ^ 63 <= timestamp < 2 ^ 63 -> readBigInt64LE (i64_le timestamp) = timestamp.
Proof.
  intros H. unfold readBigInt64LE, i64_le.
  rewrite firstn_all2 by (rewrite le_bytes_length; lia).
  rewrite le_value_le_bytes8.
  destruct (Z.ltb_spec (timestamp mod 2 ^ 64) (2 ^ 63)) as [L | L]; revert L;
    change (2 ^ 64) with 18446744073709551616; change (2 ^ 63) with 9223372036854775808;
    Z.div_mod_to_equations; lia.
Qed.

(** ** The instruction encoders *)

Lemma Ok_inj {A} (a b : A) : Ok a = Ok b -> a = b.
Proof. intros H. injection H as ->. reflexivity. Qed.

Lemma encodeLockTokensIx_ok programId user mint vaultPda vaultAta userAta amount :
  0 <= amount < 2 ^ 64 ->
  encodeLockTokensIx programId user mint vaultPda vaultAta userAta amount
  = Ok (mkIx programId
          [ mkMeta user true true; mkMeta mint false false; mkMeta vaultPda false false;
            mkMeta vaultAta false true; mkMeta userAta false true;
            mkMeta TOKEN_PROGRAM_ID false false;
            mkMeta ASSOCIATED_TOKEN_PROGRAM_ID false false;
            mkMeta SystemProgram_programId false false ]
          (discriminator "lock_tokens" ++ u64_le amount)).
Proof.
  intros H. unfold encodeLockTokensIx, writeBigUInt64LE.
  rewrite write_bytes by (change 0xffffffffffffffff with (2 ^ 64 - 1); lia).
  cbn [mbind result_bind Buffer_concat concat]. rewrite app_nil_r. reflexivity.
Qed.

Lemma encodeInitEscrowIx_ok programId buyer seller mint vault escrow amount deadlineUnixTs :
  0 <= amount < 2 ^ 64 -> - 2 ^ 63 <= deadlineUnixTs < 2 ^ 63 ->
  encodeInitEscrowIx programId buyer seller mint vault escrow amount deadlineUnixTs
  = Ok (mkIx programId
          [ mkMeta buyer true true; mkMeta seller false false; mkMeta mint false false;
            mkMeta vault false false; mkMeta escrow false true;
            mkMeta SystemProgram_programId false false ]
          (discriminator "init_escrow" ++ u64_le amount ++ i64_le deadlineUnixTs)).
Proof.
  intros Ha Hd. unfold encodeInitEscrowIx, writeBigUInt64LE, writeBigInt64LE.
  rewrite (write_bytes amount) by (change 0xffffffffffffffff with (2 ^ 64 - 1); lia).
  cbn [mbind result_bind].
  rewrite (write_bytes deadlineUnixTs)
    by (change 0x8000000000000000 with (2 ^ 63);
        change 0x7fffffffffffffff with (2 ^ 63 - 1); lia).
  cbn [mbind result_bind Buffer_concat concat]. rewrite app_nil_r. reflexivity.
Qed.

Lemma encodeLockTokensIx_throws programId user mint vaultPda vaultAta userAta amount :
  amount < 0 \/ 2 ^ 64 <= amount ->
  encodeLockTokensIx programId user mint vaultPda vaultAta userAta amount
  = Throw (RangeError "ERR_OUT_OF_RANGE").
Proof.
  intros H. unfold encodeLockTokensIx, writeBigUInt64LE.
  rewrite write_throws by (change 0xffffffffffffffff with (2 ^ 64 - 1); lia).
  reflexivity.
Qed.

Lemma encodeInitEscrowIx_throws programId buyer seller mint vault escrow amount deadlineUnixTs :
  (amount < 0 \/ 2 ^ 64 <= amount) \/ (deadlineUnixTs < - 2 ^ 63 \/ 2 ^ 63 <= deadlineUnixTs) ->
  encodeInitEscrowIx programId buyer seller mint vault escrow amount deadlineUnixTs
  = Throw (RangeError "ERR_OUT_OF_RANGE").
Proof.
  intros H. unfold encodeInitEscrowIx, writeBigUInt64LE, writeBigInt64LE.
  destruct (Z_lt_dec amount 0) as [L | L];
    [rewrite (write_throws amount) by (change 0xffffffffffffffff with (2 ^ 64 - 1); lia);
     reflexivity |].
  destruct (Z_le_dec (2 ^ 64) amount) as [G | G];
    [rewrite (write_throws amount) by (change 0xffffffffffffffff with (2 ^ 64 - 1); lia);
     reflexivity |].
  rewrite (write_bytes amount) by (change 0xffffffffffffffff with (2 ^ 64 - 1); lia).
  cbn [mbind result_bind].
  rewrite (write_throws deadlineUnixTs)
    by (change 0x8000000000000000 with (2 ^ 63);
        change 0x7fffffffffffffff with (2 ^ 63 - 1); lia).
  reflexivity.
Qed.

(** A produced agreement-init instruction carries in-range arguments. *)
Lemma encodeInitEscrowIx_inv programId buyer seller mint vault escrow amount deadlineUnixTs ix :
  encodeInitEscrowIx programId buyer seller mint vault escrow amount deadlineUnixTs = Ok ix ->
  0 <= amount < 2 ^ 64 /\ - 2 ^ 63 <= deadlineUnixTs < 2 ^ 63.
Proof.
  intros H.
  destruct (Z_lt_dec amount 0); [rewrite encodeInitEscrowIx_throws in H by lia; discriminate |].
  destruct (Z_le_dec (2 ^ 64) amount);
    [rewrite encodeInitEscrowIx_throws in H by lia; discriminate |].
  destruct (Z_lt_dec deadlineUnixTs (- 2 ^ 63));
    [rewrite encodeInitEscrowIx_throws in H by lia; discriminate |].
  destruct (Z_le_dec (2 ^ 63) deadlineUnixTs);
    [rewrite encodeInitEscrowIx_throws in H by lia; discriminate |].
  lia.
Qed.

(** C1: the account-reference list of the encoded release instruction is, in
    order, buyer (signer, mutable), seller (mutable, no signer), mint
    (read-only), escrow (mutable), vault (read-only), vault holding account
    (mutable), seller holding account (mutable), then the token program, the
    associated-token program and the system program (read-only, no signers);
    the entry at position 0, the buyer, is the only one flagged as signer, and
    the seller's entry is never flagged. *)
Theorem release_account_list
  (programId buyer seller mint escrow vault vaultAta sellerAta : PublicKey) :
  let ix := encodeReleaseToSellerIx programId buyer seller mint escrow vault
              vaultAta sellerAta in
  keys ix =
    [ mkMeta buyer true true;
      mkMeta seller false true;
      mkMeta mint false false;
      mkMeta escrow false true;
      mkMeta vault false false;
      mkMeta vaultAta false true;
      mkMeta sellerAta false true;
      mkMeta TOKEN_PROGRAM_ID false false;
      mkMeta ASSOCIATED_TOKEN_PROGRAM_ID false false;
      mkMeta SystemProgram_programId false false ]
  /\ (forall (i : nat) (m : AccountMeta),
        keys ix !! i = Some m -> isSigner m = true -> i = 0%nat /\ pubkey m = buyer)
  /\ (exists m : AccountMeta,
        keys ix !! 1%nat = Some m /\ pubkey m = seller /\ isSigner m = false).
Proof.
  cbn zeta. split; [reflexivity |]. split.
  - intros i m Hi Hs. cbn [encodeReleaseToSellerIx keys] in Hi.
    do 10 (destruct i as [| i];
           [cbn in Hi; injection Hi as <-; cbn in Hs; try discriminate; auto |]).
    cbn in Hi. discriminate.
  - eexists. split; [reflexivity |]. split; reflexivity.
Qed.

(** C4: the selector of an operation name is the first 8 bytes of the SHA-256
    hash of "global:" followed by the name, and is always 8 bytes long; every
    encoder puts the selector of its operation in the first 8 bytes of the
    payload; the selector depends on the name alone, and the four operations
    have four different selectors, so a selector names its operation. *)
Theorem selector_is_hash_prefix :
  (forall ixName : string,
      discriminator ixName
      = firstn 8 (SHA256.sha256 (Buffer_from ("global:" ++ ixName)%string))
      /\ length (discriminator ixName) = 8%nat)
  /\ (forall programId authority mint vaultPda,
        firstn 8 (data (encodeInitVaultIx programId authority mint vaultPda))
        = discriminator "init_vault")
  /\ (forall programId user mint vaultPda vaultAta userAta amount ix,
        encodeLockTokensIx programId user mint vaultPda vaultAta userAta amount = Ok ix ->
        firstn 8 (data ix) = discriminator "lock_tokens")
  /\ (forall programId buyer seller mint vault escrow amount deadlineUnixTs ix,
        encodeInitEscrowIx programId buyer seller mint vault escrow amount deadlineUnixTs
        = Ok ix ->
        firstn 8 (data ix) = discriminator "init_escrow")
  /\ (forall programId buyer seller mint escrow vault vaultAta sellerAta,
        firstn 8 (data (encodeReleaseToSellerIx programId buyer seller mint escrow vault
                          vaultAta sellerAta))
        = discriminator "release_to_seller")
  /\ (forall a b : string, a = b -> discriminator a = discriminator b)
  /\ NoDup [discriminator "init_vault"; discriminator "lock_tokens";
            discriminator "init_escrow"; discriminator "release_to_seller"].
Proof.
  pose proof take_selector as Hpre.
  split; [intros n; split; [reflexivity | apply discriminator_length] |].
  split.
  { intros. cbn [encodeInitVaultIx data].
    rewrite <- (app_nil_r (discriminator _)). apply Hpre. }
  split.
  { intros * H. unfold encodeLockTokensIx in H.
    destruct (writeBigUInt64LE amount); cbn [mbind result_bind] in H; [| discriminate].
    apply Ok_inj in H. rewrite <- H. cbn [data Buffer_concat concat]. apply Hpre. }
  split.
  { intros * H. unfold encodeInitEscrowIx in H.
    destruct (writeBigUInt64LE amount); cbn [mbind result_bind] in H; [| discriminate].
    destruct (writeBigInt64LE deadlineUnixTs); cbn [mbind result_bind] in H; [| discriminate].
    apply Ok_inj in H. rewrite <- H. cbn [data Buffer_concat concat]. apply Hpre. }
  split.
  { intros. cbn [encodeReleaseToSellerIx data].
    rewrite <- (app_nil_r (discriminator _)). apply Hpre. }
  split; [intros a b ->; reflexivity |].
  destruct selector_values as (-> & -> & -> & ->).
  repeat constructor; rewrite ?list_elem_of_In; cbn; intuition discriminate.
Qed.

Lemma selector_is_hash_prefix_witness :
  discriminator "lock_tokens" = [136; 11; 32; 232; 161; 117; 54; 211]
  /\ exists ix,
       encodeLockTokensIx (mkPublicKey [1]) (mkPublicKey [2]) (mkPublicKey [3])
         (mkPublicKey [4]) (mkPublicKey [5]) (mkPublicKey [6]) 100000 = Ok ix
       /\ firstn 8 (data ix) = discriminator "lock_tokens".
Proof.
  split; [vm_compute; reflexivity |].
  destruct selector_is_hash_prefix as (_ & _ & H & _).
  pose proof (encodeLockTokensIx_ok (mkPublicKey [1]) (mkPublicKey [2]) (mkPublicKey [3])
                (mkPublicKey [4]) (mkPublicKey [5]) (mkPublicKey [6]) 100000 ltac:(lia))
    as E.
  eexists. split; [exact E | exact (H _ _ _ _ _ _ _ _ E)].
Defined.

(** C5: for an amount in the unsigned 64-bit range, the lock_tokens payload
    is the 8-byte selector followed by the 8 little-endian bytes of the
    amount, 16 bytes in all; with a deadline in the signed 64-bit range the
    init_escrow payload is the selector, the 8 little-endian bytes of the
    amount, then the 8 little-endian (two's complement) bytes of the deadline,
    24 bytes in all. *)
Theorem payload_layout
  (programId user mint vaultPda vaultAta userAta buyer seller vault escrow : PublicKey)
  (amount deadlineUnixTs : Z) :
  0 <= amount < 2 ^ 64 ->
  - 2 ^ 63 <= deadlineUnixTs < 2 ^ 63 ->
  (exists ix,
      encodeLockTokensIx programId user mint vaultPda vaultAta userAta amount = Ok ix
      /\ data ix = discriminator "lock_tokens" ++ u64_le amount
      /\ length (data ix) = 16%nat)
  /\ (exists ix,
        encodeInitEscrowIx programId buyer seller mint vault escrow amount deadlineUnixTs
        = Ok ix
        /\ data ix = discriminator "init_escrow" ++ u64_le amount ++ i64_le deadlineUnixTs
        /\ length (data ix) = 24%nat).
Proof.
  intros Ha Hd. split.
  - rewrite encodeLockTokensIx_ok by exact Ha.
    eexists. split; [reflexivity |]. cbn [data]. split; [reflexivity |].
    rewrite length_app, discriminator_length. unfold u64_le.
    rewrite le_bytes_length. reflexivity.
  - rewrite encodeInitEscrowIx_ok by assumption.
    eexists. split; [reflexivity |]. cbn [data]. split; [reflexivity |].
    rewrite !length_app, discriminator_length. unfold u64_le, i64_le.
    rewrite !le_bytes_length. reflexivity.
Qed.

Lemma payload_layout_witness :
  (exists ix,
      encodeLockTokensIx (mkPublicKey [0]) (mkPublicKey [1]) (mkPublicKey [2])
        (mkPublicKey [3]) (mkPublicKey [4]) (mkPublicKey [5]) 100000 = Ok ix
      /\ data ix = discriminator "lock_tokens" ++ u64_le 100000
      /\ length (data ix) = 16%nat)
  /\ (exists ix,
        encodeInitEscrowIx (mkPublicKey [0]) (mkPublicKey [6]) (mkPublicKey [7])
          (mkPublicKey [2]) (mkPublicKey [8]) (mkPublicKey [9]) 100000 (-1) = Ok ix
        /\ data ix = discriminator "init_escrow" ++ u64_le 100000 ++ i64_le (-1)
        /\ length (data ix) = 24%nat).
Proof.
  apply (payload_layout (mkPublicKey [0]) (mkPublicKey [1]) (mkPublicKey [2])
           (mkPublicKey [3]) (mkPublicKey [4]) (mkPublicKey [5]) (mkPublicKey [6])
           (mkPublicKey [7]) (mkPublicKey [8]) (mkPublicKey [9]) 100000 (-1)); lia.
Defined.

Example lock_payload_100000 :
  u64_le 100000 = [160; 134; 1; 0; 0; 0; 0; 0] /\ i64_le (-1) = repeat 255 8.
Proof. split; reflexivity. Qed.

(** C10: the encoders throw, and produce no instruction, when the amount is
    negative or at least 2^64, and the init_escrow encoder throws when the
    deadline is outside [-2^63, 2^63); for an amount and a deadline in range
    the instruction is produced and reading the bytes written after the
    selector back as little-endian 64-bit integers gives the amount and the
    deadline. *)
Theorem encoders_never_truncate
  (programId user mint vaultPda vaultAta userAta buyer seller vault escrow : PublicKey)
  (amount deadlineUnixTs : Z) :
  (amount < 0 \/ 2 ^ 64 <= amount ->
     encodeLockTokensIx programId user mint vaultPda vaultAta userAta amount
     = Throw (RangeError "ERR_OUT_OF_RANGE")
     /\ encodeInitEscrowIx programId buyer seller mint vault escrow amount deadlineUnixTs
        = Throw (RangeError "ERR_OUT_OF_RANGE"))
  /\ (deadlineUnixTs < - 2 ^ 63 \/ 2 ^ 63 <= deadlineUnixTs ->
        encodeInitEscrowIx programId buyer seller mint vault escrow amount deadlineUnixTs
        = Throw (RangeError "ERR_OUT_OF_RANGE"))
  /\ (0 <= amount < 2 ^ 64 ->
        exists ix,
          encodeLockTokensIx programId user mint vaultPda vaultAta userAta amount = Ok ix
          /\ readBigUInt64LE (skipn 8 (data ix)) = amount)
  /\ (0 <= amount < 2 ^ 64 -> - 2 ^ 63 <= deadlineUnixTs < 2 ^ 63 ->
        exists ix,
          encodeInitEscrowIx programId buyer seller mint vault escrow amount deadlineUnixTs
          = Ok ix
          /\ readBigUInt64LE (skipn 8 (data ix)) = amount
          /\ readBigInt64LE (skipn 16 (data ix)) = deadlineUnixTs).
Proof.
  split; [| split; [| split]].
  - intros H. rewrite encodeLockTokensIx_throws, encodeInitEscrowIx_throws by auto.
    split; reflexivity.
  - intros H. apply encodeInitEscrowIx_throws. auto.
  - intros Ha. rewrite encodeLockTokensIx_ok by exact Ha.
    eexists. split; [reflexivity |]. cbn [data].
    rewrite drop_selector.
    apply read_u64_le, Ha.
  - intros Ha Hd. rewrite encodeInitEscrowIx_ok by assumption.
    eexists. split; [reflexivity |]. cbn [data]. split.
    + rewrite drop_selector. unfold readBigUInt64LE.
      rewrite (take_app_length' _ _ 8) by (symmetry; apply le_bytes_length).
      rewrite <- (firstn_all2 (n := 8) (u64_le amount))
        by (unfold u64_le; rewrite le_bytes_length; lia).
      apply read_u64_le, Ha.
    + rewrite app_assoc, (drop_app_length' _ _ 16)
        by (rewrite length_app, discriminator_length; unfold u64_le;
            rewrite le_bytes_length; reflexivity).
      apply read_i64_le, Hd.
Qed.

Lemma encoders_never_truncate_witness :
  encodeLockTokensIx (mkPublicKey [0]) (mkPublicKey [1]) (mkPublicKey [2])
    (mkPublicKey [3]) (mkPublicKey [4]) (mkPublicKey [5]) (2 ^ 64)
  = Throw (RangeError "ERR_OUT_OF_RANGE")
  /\ encodeInitEscrowIx (mkPublicKey [0]) (mkPublicKey [6]) (mkPublicKey [7])
       (mkPublicKey [2]) (mkPublicKey [8]) (mkPublicKey [9]) 50000 (2 ^ 63)
     = Throw (RangeError "ERR_OUT_OF_RANGE")
  /\ exists ix,
       encodeInitEscrowIx (mkPublicKey [0]) (mkPublicKey [6]) (mkPublicKey [7])
         (mkPublicKey [2]) (mkPublicKey [8]) (mkPublicKey [9]) 50000 (- 2 ^ 63) = Ok ix
       /\ readBigUInt64LE (skipn 8 (data ix)) = 50000
       /\ readBigInt64LE (skipn 16 (data ix)) = - 2 ^ 63.
Proof.
  pose (k := fun n : Z => mkPublicKey [n]).
  destruct (encoders_never_truncate (k 0) (k 1) (k 2) (k 3) (k 4) (k 5) (k 6) (k 7)
              (k 8) (k 9) (2 ^ 64) 0) as (H1 & _).
  destruct (encoders_never_truncate (k 0) (k 1) (k 2) (k 3) (k 4) (k 5) (k 6) (k 7)
              (k 8) (k 9) 50000 (2 ^ 63)) as (_ & H2 & _).
  destruct (encoders_never_truncate (k 0) (k 1) (k 2) (k 3) (k 4) (k 5) (k 6) (k 7)
              (k 8) (k 9) 50000 (- 2 ^ 63)) as (_ & _ & _ & H3).
  split; [apply H1; lia |]. split; [apply H2; lia |]. apply H3; lia.
Defined.

(** ** Address derivation *)

Section DerivationFacts.

Variable isOnCurve : Buffer -> bool.

Lemma concat_seeds_ok seeds buffer :
  Forall (fun seed => (length seed <= MAX_SEED_LENGTH)%nat) seeds ->
  concat_seeds seeds buffer = Ok (buffer ++ concat seeds).
Proof.
  intros H. revert buffer. induction H as [| seed rest Hs _ IH]; intros buffer.
  - cbn. rewrite app_nil_r. reflexivity.
  - cbn [concat_seeds]. destruct (Nat.ltb_spec MAX_SEED_LENGTH (length seed)); [lia |].
    rewrite IH. cbn [Buffer_concat concat]. rewrite app_nil_r, <- app_assoc. reflexivity.
Qed.

Lemma concat_seeds_inv seeds buffer out :
  concat_seeds seeds buffer = Ok out -> out = buffer ++ concat seeds.
Proof.
  revert buffer. induction seeds as [| seed rest IH]; intros buffer H.
  - cbn in H. apply Ok_inj in H. rewrite app_nil_r. congruence.
  - cbn [concat_seeds] in H. destruct (_ <? _)%nat; [discriminate |].
    apply IH in H. subst out. cbn [Buffer_concat concat].
    rewrite app_nil_r, <- app_assoc. reflexivity.
Qed.

(** What a successful [createProgramAddressSync] returns. *)
Lemma createProgramAddressSync_inv seeds programId address :
  createProgramAddressSync isOnCurve seeds programId = Ok address ->
  toBuffer address = SHA256.sha256 (address_preimage (concat seeds) programId)
  /\ isOnCurve (toBuffer address) = false.
Proof.
  unfold createProgramAddressSync. intros H.
  destruct (concat_seeds seeds []) as [buffer |] eqn:E; cbn [mbind result_bind] in H;
    [| discriminate].
  apply concat_seeds_inv in E. cbn [app] in E. subst buffer.
  destruct (isOnCurve _) eqn:C; [discriminate |].
  apply Ok_inj in H. subst address. auto.
Qed.

(** What a successful search returns: the first nonce, counting down, whose
    address is off the curve. *)
Lemma find_nonce_inv n seeds programId address bump :
  find_nonce isOnCurve n seeds programId = Ok (address, bump) ->
  1 <= bump <= Z.of_nat n
  /\ createProgramAddressSync isOnCurve (seeds ++ [[bump]]) programId = Ok address.
Proof.
  induction n as [| n IH]; intros H; [discriminate |].
  cbn [find_nonce] in H.
  destruct (createProgramAddressSync isOnCurve (seeds ++ [[Z.of_nat (S n)]]) programId)
    as [a | e] eqn:E.
  - apply Ok_inj in H. injection H as -> <-. split; [lia | exact E].
  - destruct (is_TypeError e); [discriminate |]. apply IH in H. split; [lia | tauto].
Qed.

End DerivationFacts.

Lemma key_bytes_inj (a b : PublicKey) : toBuffer a = toBuffer b -> a = b.
Proof. destruct a, b. cbn. congruence. Qed.

Lemma vault_preimage programId mint authority (bump : Z) :
  address_preimage (concat (vault_seeds mint authority ++ [[bump]])) programId
  = Buffer_from "vault" ++ toBuffer mint ++ toBuffer authority ++ [bump]
    ++ toBuffer programId ++ Buffer_from "ProgramDerivedAddress".
Proof.
  unfold address_preimage, vault_seeds, Buffer_concat.
  generalize (Buffer_from "vault") (Buffer_from "ProgramDerivedAddress").
  intros tag marker. cbn [concat app]. rewrite !app_nil_r, <- !app_assoc. reflexivity.
Qed.

(** C2: the vault address is derived from the seeds "vault", the mint bytes
    and the authority bytes, in this order, and from nothing else: the
    derivation is the library search on exactly this list; when it returns an
    address and a bump, the bump is between 1 and 255 and the address is the
    hash of these seeds followed by the bump, the program identity and the
    library's marker, and lies off the curve; two derivations on keys with the
    same bytes return the same address and the same bump. *)
Theorem vault_address_derivation
  (isOnCurve : Buffer -> bool) (programId mint authority : PublicKey) :
  deriveVaultPda isOnCurve programId mint authority
  = findProgramAddress isOnCurve
      [Buffer_from "vault"; toBuffer mint; toBuffer authority] programId
  /\ (forall address bump,
        deriveVaultPda isOnCurve programId mint authority = Ok (address, bump) ->
        1 <= bump <= 255
        /\ toBuffer address
           = SHA256.sha256
               (Buffer_from "vault" ++ toBuffer mint ++ toBuffer authority ++ [bump]
                ++ toBuffer programId ++ Buffer_from "ProgramDerivedAddress")
        /\ isOnCurve (toBuffer address) = false)
  /\ (forall programId' mint' authority',
        toBuffer programId' = toBuffer programId ->
        toBuffer mint' = toBuffer mint ->
        toBuffer authority' = toBuffer authority ->
        deriveVaultPda isOnCurve programId' mint' authority'
        = deriveVaultPda isOnCurve programId mint authority).
Proof.
  split; [reflexivity |]. split.
  - intros address bump H. unfold deriveVaultPda, findProgramAddress in H.
    apply find_nonce_inv in H as [Hb H].
    apply createProgramAddressSync_inv in H as [Ha Hc].
    split; [exact Hb |]. split; [| exact Hc].
    rewrite Ha. f_equal. apply vault_preimage.
  - intros programId' mint' authority' Hp Hm Ha.
    apply key_bytes_inj in Hp, Hm, Ha. subst. reflexivity.
Qed.

Lemma vault_address_derivation_witness :
  exists address bump,
    deriveVaultPda ed25519_isOnCurve
      (key_of_base58 "AhtmyF1FM2NwGYECDzgjC6jbNtPnSRDFzhahugFfqkZW")
      (key_of_base58 "7i5mgewTU2REvi4CDz5wkgftRVK1Kienw8Rrwo4fmcP1")
      (key_of_base58 "FVen3X669xLzsi6N2V91DoiyzHzg1uAgqiT8jZ9nS96Z")
    = Ok (address, bump)
    /\ 1 <= bump <= 255
    /\ ed25519_isOnCurve (toBuffer address) = false.
Proof.
  eexists. eexists. split; [vm_compute; reflexivity |].
  edestruct (vault_address_derivation ed25519_isOnCurve
              (key_of_base58 "AhtmyF1FM2NwGYECDzgjC6jbNtPnSRDFzhahugFfqkZW")
              (key_of_base58 "7i5mgewTU2REvi4CDz5wkgftRVK1Kienw8Rrwo4fmcP1")
              (key_of_base58 "FVen3X669xLzsi6N2V91DoiyzHzg1uAgqiT8jZ9nS96Z"))
    as (_ & H & _).
  edestruct H as (Hb & _ & Hc); [vm_compute; reflexivity |].
  split; [exact Hb | exact Hc].
Defined.




(** ** The scripts, over any surroundings *)

Arguments pubkeyFromString : simpl never.
Arguments deriveVaultPda : simpl never.
Arguments deriveEscrowPda : simpl never.
Arguments getAssociatedTokenAddress : simpl never.
Arguments encodeInitVaultIx : simpl never.
Arguments encodeLockTokensIx : simpl never.
Arguments encodeInitEscrowIx : simpl never.
Arguments encodeReleaseToSellerIx : simpl never.
Arguments equals : simpl never.

Section ScriptFacts.

Variable isOnCurve : Buffer -> bool.
Variable bs58_decode : string -> option Buffer.
Context {World : Type} (env : Env World).
Variable payer : PublicKey.

Lemma bind_ok {A B} (m : M World A) (k : A -> M World B) s a s' :
  m s = (Ok a, s') -> (m ≫= k) s = k a s'.
Proof. intros H. unfold mbind, M_bind, bind. rewrite H. reflexivity. Qed.

Lemma bind_throw {A B} (m : M World A) (k : A -> M World B) s e s' :
  m s = (Throw e, s') -> (m ≫= k) s = (Throw e, s').
Proof. intros H. unfold mbind, M_bind, bind. rewrite H. reflexivity. Qed.

(** The four lines logged after the keys are read. *)
Definition load_lines (label : string) (programId mint buyer buyerAta : PublicKey)
  : list (list LogArg) :=
  [ [LStr "Program ID:"; LKey programId]; [LStr "Mint:"; LKey mint];
    [LStr label; LKey buyer]; [LStr "Buyer ATA:"; LKey buyerAta] ].

Lemma load_deploy_info_run label (s : Run World) info programId mint buyer buyerAta :
  deploy_info s = Some info ->
  pubkeyFromString bs58_decode (info_programId info) = Ok programId ->
  pubkeyFromString bs58_decode (info_mint info) = Ok mint ->
  pubkeyFromString bs58_decode (info_payer info) = Ok buyer ->
  pubkeyFromString bs58_decode (info_payerAta info) = Ok buyerAta ->
  load_deploy_info bs58_decode payer label s
  = (if equals buyer payer then Ok (programId, mint, buyer, buyerAta)
     else Throw wallet_mismatch,
     mkRun (world s) (console s ++ load_lines label programId mint buyer buyerAta)
       (sent s) (deploy_info s)).
Proof.
  intros Hf Hp Hm Hb Ha. unfold load_deploy_info, read_deploy_info.
  unfold mbind, M_bind, bind, lift, console_log.
  destruct (deploy_info s) as [info' |] eqn:Hf'; [| discriminate].
  apply Some_inj in Hf. subst info'. rewrite Hp, Hm, Hb, Ha.
  cbn [world console sent deploy_info]. unfold load_lines.
  rewrite <- !app_assoc. cbn [app]. rewrite Hf'.
  destruct (equals buyer payer); reflexivity.
Qed.

(** Reading the keys submits nothing and leaves the world alone; when it
    succeeds, the payer of the file is the local wallet. *)
Lemma load_deploy_info_frame label (s : Run World) :
  sent (load_deploy_info bs58_decode payer label s).2 = sent s
  /\ world (load_deploy_info bs58_decode payer label s).2 = world s
  /\ (forall keys, (load_deploy_info bs58_decode payer label s).1 = Ok keys ->
        exists info,
          deploy_info s = Some info
          /\ pubkeyFromString bs58_decode (info_payer info) = Ok keys.1.2
          /\ equals keys.1.2 payer = true).
Proof.
  unfold load_deploy_info, read_deploy_info.
  unfold mbind, M_bind, bind, lift, console_log, throw, mret, M_ret, ret.
  destruct (deploy_info s) as [info |]; [| cbn; intuition discriminate].
  destruct (pubkeyFromString bs58_decode (info_programId info));
    [| cbn; intuition discriminate].
  destruct (pubkeyFromString bs58_decode (info_mint info));
    [| cbn; intuition discriminate].
  destruct (pubkeyFromString bs58_decode (info_payer info)) as [buyer |] eqn:Eb;
    [| cbn; intuition discriminate].
  destruct (pubkeyFromString bs58_decode (info_payerAta info));
    [| cbn; intuition discriminate].
  cbn [world console sent deploy_info].
  destruct (equals buyer payer) eqn:Ee; cbn; (split; [reflexivity |]);
    (split; [reflexivity |]); intros keys Hk; [| discriminate].
  apply Ok_inj in Hk. subst keys. exists info. auto.
Qed.

(** A script that fails while reading the keys stops there. *)
Lemma main_vault_load_throw (s : Run World) e s' :
  load_deploy_info bs58_decode payer "Buyer (authority):" s = (Throw e, s') ->
  main_vault isOnCurve bs58_decode env payer s = (Throw e, s').
Proof. intros H. unfold main_vault. apply bind_throw, H. Qed.

Lemma main_escrow_load_throw (s : Run World) e s' :
  load_deploy_info bs58_decode payer "Buyer:" s = (Throw e, s') ->
  main_escrow isOnCurve bs58_decode env payer s = (Throw e, s').
Proof. intros H. unfold main_escrow. apply bind_throw, H. Qed.

Lemma equals_false (a b : PublicKey) : toBuffer a <> toBuffer b -> equals a b = false.
Proof. intros H. unfold equals. apply bool_decide_eq_false_2, H. Qed.

Lemma equals_true (a b : PublicKey) : equals a b = true -> a = b.
Proof. unfold equals. intros H. apply bool_decide_eq_true_1 in H. apply key_bytes_inj, H. Qed.

(** The outcome of a script whose keys are read from a file naming another
    payer. *)
Lemma mismatch_stops (main : M World unit) label (s : Run World) info buyer :
  (forall e s', load_deploy_info bs58_decode payer label s = (Throw e, s') ->
                main s = (Throw e, s')) ->
  deploy_info s = Some info ->
  pubkeyFromString bs58_decode (info_payer info) = Ok buyer ->
  toBuffer buyer <> toBuffer payer ->
  (exists e, (main s).1 = Throw e)
  /\ sent (main s).2 = sent s
  /\ world (main s).2 = world s
  /\ (forall programId mint buyerAta,
        pubkeyFromString bs58_decode (info_programId info) = Ok programId ->
        pubkeyFromString bs58_decode (info_mint info) = Ok mint ->
        pubkeyFromString bs58_decode (info_payerAta info) = Ok buyerAta ->
        (main s).1 = Throw wallet_mismatch).
Proof.
  intros Hmain Hf Hb Hne.
  destruct (load_deploy_info_frame label s) as (Hs & Hw & Hk).
  destruct (load_deploy_info bs58_decode payer label s) as [[keys | e] s'] eqn:E.
  - exfalso. destruct (Hk keys eq_refl) as (info' & Hf' & Hb' & He).
    rewrite Hf in Hf'. apply Some_inj in Hf'. subst info'.
    rewrite Hb in Hb'. apply Ok_inj in Hb'. subst buyer.
    apply equals_true in He. apply Hne. congruence.
  - rewrite (Hmain e s' eq_refl). cbn [fst snd] in *.
    split; [eauto |]. split; [exact Hs |]. split; [exact Hw |].
    intros programId mint buyerAta Hp Hm Ha.
    rewrite (load_deploy_info_run label s info programId mint buyer buyerAta Hf Hp Hm Hb Ha),
      equals_false in E by exact Hne.
    congruence.
Qed.

(** The vault script once the keys are read and the addresses derived:
    three submissions, whatever the first two answer. *)
Lemma main_vault_run (s : Run World) info programId mint buyer buyerAta
      vaultPda bump vaultAta lockTokensIx r1 w1 r2 w2 r3 w3 :
  deploy_info s = Some info ->
  pubkeyFromString bs58_decode (info_programId info) = Ok programId ->
  pubkeyFromString bs58_decode (info_mint info) = Ok mint ->
  pubkeyFromString bs58_decode (info_payer info) = Ok buyer ->
  pubkeyFromString bs58_decode (info_payerAta info) = Ok buyerAta ->
  equals buyer payer = true ->
  deriveVaultPda isOnCurve programId mint buyer = Ok (vaultPda, bump) ->
  getAssociatedTokenAddress isOnCurve mint vaultPda true
    TOKEN_PROGRAM_ID ASSOCIATED_TOKEN_PROGRAM_ID = Ok vaultAta ->
  encodeLockTokensIx programId buyer mint vaultPda vaultAta buyerAta 100000
  = Ok lockTokensIx ->
  let tx1 := [ProgramCall (encodeInitVaultIx programId buyer mint vaultPda)] in
  let tx2 := [createAssociatedTokenAccountInstruction buyer vaultAta vaultPda mint
                TOKEN_PROGRAM_ID ASSOCIATED_TOKEN_PROGRAM_ID] in
  let tx3 := [ProgramCall lockTokensIx] in
  sendAndConfirmTransaction env tx1 [payer] (world s) = (r1, w1) ->
  sendAndConfirmTransaction env tx2 [payer] w1 = (r2, w2) ->
  sendAndConfirmTransaction env tx3 [payer] w2 = (r3, w3) ->
  exists lines,
    main_vault isOnCurve bs58_decode env payer s
    = (match r3 with Ok _ => Ok tt | Throw e => Throw e end,
       mkRun w3 (console s ++ lines)
         (sent s ++ [(tx1, [payer]); (tx2, [payer]); (tx3, [payer])]) (deploy_info s))
    /\ (forall e, r1 = Throw e -> In [LExn e] lines)
    /\ (forall e, r2 = Throw e -> In [LExn e] lines).
Proof.
  intros Hf Hp Hm Hb Ha He Hv Hva Hl tx1 tx2 tx3 H1 H2 H3.
  unfold main_vault.
  erewrite bind_ok
    by (rewrite (load_deploy_info_run _ s info programId mint buyer buyerAta Hf Hp Hm Hb Ha),
          He; reflexivity).
  unfold mbind, M_bind, bind, lift, console_log, try_catch, send.
  rewrite Hv, Hva, Hl. cbn [world console sent deploy_info].
  fold tx1 tx2 tx3. rewrite H1.
  destruct r1 as [sig1 | e1]; cbn [world console sent deploy_info]; rewrite H2;
    destruct r2 as [sig2 | e2]; cbn [world console sent deploy_info]; rewrite H3;
    destruct r3 as [sig3 | e3]; cbn [world console sent deploy_info];
    rewrite <- ?app_assoc; cbn [app];
    (eexists; split; [reflexivity |]);
    (split; intros e E; try discriminate E; apply Ok_inj in E || injection E as <-);
    cbn; tauto.
Qed.

(** The escrow script once the keys are read and the addresses derived:
    the seller's holding account and the agreement are submitted together,
    then the release; an error of either submission is the script's. *)
Lemma main_escrow_run (s : Run World) info programId mint buyer buyerAta
      seller w0 vaultPda bump escrowPda bump' vaultAta sellerAta initEscrowIx r1 w1 r2 w2 :
  deploy_info s = Some info ->
  pubkeyFromString bs58_decode (info_programId info) = Ok programId ->
  pubkeyFromString bs58_decode (info_mint info) = Ok mint ->
  pubkeyFromString bs58_decode (info_payer info) = Ok buyer ->
  pubkeyFromString bs58_decode (info_payerAta info) = Ok buyerAta ->
  equals buyer payer = true ->
  Keypair_generate env (world s) = (seller, w0) ->
  deriveVaultPda isOnCurve programId mint buyer = Ok (vaultPda, bump) ->
  deriveEscrowPda isOnCurve programId vaultPda buyer seller = Ok (escrowPda, bump') ->
  getAssociatedTokenAddress isOnCurve mint vaultPda true
    TOKEN_PROGRAM_ID ASSOCIATED_TOKEN_PROGRAM_ID = Ok vaultAta ->
  getAssociatedTokenAddress isOnCurve mint seller false
    TOKEN_PROGRAM_ID ASSOCIATED_TOKEN_PROGRAM_ID = Ok sellerAta ->
  encodeInitEscrowIx programId buyer seller mint vaultPda escrowPda 50000
    (Date_now env w0 / 1000 + 3600) = Ok initEscrowIx ->
  let tx1 := [createAssociatedTokenAccountInstruction buyer sellerAta seller mint
                TOKEN_PROGRAM_ID ASSOCIATED_TOKEN_PROGRAM_ID;
              ProgramCall initEscrowIx] in
  let tx2 := [ProgramCall (encodeReleaseToSellerIx programId buyer seller mint escrowPda
                             vaultPda vaultAta sellerAta)] in
  sendAndConfirmTransaction env tx1 [payer] w0 = (r1, w1) ->
  sendAndConfirmTransaction env tx2 [payer] w1 = (r2, w2) ->
  exists lines,
    main_escrow isOnCurve bs58_decode env payer s
    = (match r1, r2 with
       | Ok _, Ok _ => Ok tt
       | Ok _, Throw e => Throw e
       | Throw e, _ => Throw e
       end,
       mkRun (match r1 with Ok _ => w2 | Throw _ => w1 end) (console s ++ lines)
         (sent s ++ (tx1, [payer])
                    :: match r1 with Ok _ => [(tx2, [payer])] | Throw _ => [] end)
         (deploy_info s)).
Proof.
  intros Hf Hp Hm Hb Ha He Hg Hv Hes Hva Hsa Hi tx1 tx2 H1 H2.
  unfold main_escrow.
  erewrite bind_ok
    by (rewrite (load_deploy_info_run _ s info programId mint buyer buyerAta Hf Hp Hm Hb Ha),
          He; reflexivity).
  unfold mbind, M_bind, bind, lift, console_log, send, generate.
  cbn [world console sent deploy_info]. rewrite Hg.
  rewrite Hv. cbn [world console sent deploy_info].
  rewrite Hes, Hva, Hsa. cbn [world console sent deploy_info].
  rewrite Hi. fold tx1 tx2. rewrite H1.
  destruct r1 as [sig1 | e1]; cbn [world console sent deploy_info].
  - rewrite H2.
    destruct r2 as [sig2 | e2]; cbn [world console sent deploy_info];
      rewrite <- ?app_assoc; cbn [app]; eexists; reflexivity.
  - rewrite <- ?app_assoc; cbn [app]. eexists. reflexivity.
Qed.

(** The mint script: one submission of four instructions, signed by the
    wallet and the new mint; the file is written when it is confirmed. *)
Lemma main_create_mint_run (toBase58 : PublicKey -> string) (s : Run World)
      mintKeypair w0 rentLamports payerAta r w1 :
  Keypair_generate env (world s) = (mintKeypair, w0) ->
  getMinimumBalanceForRentExemptMint env w0 = Ok rentLamports ->
  getAssociatedTokenAddress isOnCurve mintKeypair payer false
    TOKEN_PROGRAM_ID ASSOCIATED_TOKEN_PROGRAM_ID = Ok payerAta ->
  let tx :=
    [ SystemProgram_createAccount payer mintKeypair rentLamports MINT_SIZE TOKEN_PROGRAM_ID;
      createInitializeMint2Instruction mintKeypair 6 payer payer;
      createAssociatedTokenAccountInstruction payer payerAta payer mintKeypair
        TOKEN_PROGRAM_ID ASSOCIATED_TOKEN_PROGRAM_ID;
      createMintToInstruction mintKeypair payerAta payer 1000000000000 TOKEN_PROGRAM_ID ] in
  let info :=
    mkInfo "AhtmyF1FM2NwGYECDzgjC6jbNtPnSRDFzhahugFfqkZW"
      (toBase58 mintKeypair) (toBase58 payer) (toBase58 payerAta) 6 "Goblin Gold" in
  sendAndConfirmTransaction env tx [payer; mintKeypair] w0 = (r, w1) ->
  exists lines,
    main_create_mint isOnCurve toBase58 env payer s
    = (match r with Ok _ => Ok tt | Throw e => Throw e end,
       mkRun w1 (console s ++ lines) (sent s ++ [(tx, [payer; mintKeypair])])
         (match r with Ok _ => Some info | Throw _ => deploy_info s end)).
Proof.
  intros Hg Hr Ha tx info H.
  unfold main_create_mint, logPubkeys.
  unfold mbind, M_bind, bind, lift, console_log, send, generate, write_deploy_info.
  cbn [world console sent deploy_info]. rewrite Hg.
  cbn [world console sent deploy_info]. rewrite Hr, Ha.
  cbn [world console sent deploy_info].
  change (1000000 * 1000000) with 1000000000000. fold tx. rewrite H.
  destruct r as [sig | e]; cbn [world console sent deploy_info];
    rewrite <- ?app_assoc; cbn [app]; eexists; reflexivity.
Qed.

End ScriptFacts.

(** C9, amended: when the payer recorded in deploy-info.json is the text of
    a key that differs from the public key of the local wallet, each of the
    two driver scripts throws and submits nothing (the world is not touched
    either); with the other three keys of the file readable, the error
    thrown is the wallet mismatch. *)
Theorem wallet_mismatch_guard
  (isOnCurve : Buffer -> bool) (bs58_decode : string -> option Buffer)
  (World : Type) (env : Env World) (payer : PublicKey)
  (s : Run World) (info : DeployInfo) (buyer : PublicKey) :
  deploy_info s = Some info ->
  pubkeyFromString bs58_decode (info_payer info) = Ok buyer ->
  toBuffer buyer <> toBuffer payer ->
  let vault_out := main_vault isOnCurve bs58_decode env payer s in
  let escrow_out := main_escrow isOnCurve bs58_decode env payer s in
  ((exists e, vault_out.1 = Throw e) /\ sent vault_out.2 = sent s
   /\ world vault_out.2 = world s)
  /\ ((exists e, escrow_out.1 = Throw e) /\ sent escrow_out.2 = sent s
      /\ world escrow_out.2 = world s)
  /\ (forall programId mint buyerAta,
        pubkeyFromString bs58_decode (info_programId info) = Ok programId ->
        pubkeyFromString bs58_decode (info_mint info) = Ok mint ->
        pubkeyFromString bs58_decode (info_payerAta info) = Ok buyerAta ->
        vault_out.1 = Throw wallet_mismatch /\ escrow_out.1 = Throw wallet_mismatch).
Proof.
  intros Hf Hb Hne. cbn zeta.
  pose proof (mismatch_stops bs58_decode payer
                (main_vault isOnCurve bs58_decode env payer) "Buyer (authority):" s info buyer
                (main_vault_load_throw isOnCurve bs58_decode env payer s) Hf Hb Hne)
    as (V1 & V2 & V3 & V4).
  pose proof (mismatch_stops bs58_decode payer
                (main_escrow isOnCurve bs58_decode env payer) "Buyer:" s info buyer
                (main_escrow_load_throw isOnCurve bs58_decode env payer s) Hf Hb Hne)
    as (E1 & E2 & E3 & E4).
  split; [auto |]. split; [auto |].
  intros programId mint buyerAta Hp Hm Ha.
  split; [eapply V4 | eapply E4]; eassumption.
Qed.

(** ** The error policy of the scripts *)

Lemma base58_key s k :
  base58_decode s = Some (toBuffer k) -> length (toBuffer k) = 32%nat ->
  pubkeyFromString base58_decode s = Ok k.
Proof.
  intros H L. unfold pubkeyFromString, PublicKey_of_string. rewrite H.
  rewrite bool_decide_eq_true_2 by exact L. destruct k. reflexivity.
Qed.

(** The keys of the example file and the addresses derived from them. *)
Lemma example_keys :
  pubkeyFromString base58_decode (info_programId example_info) = Ok example_program
  /\ pubkeyFromString base58_decode (info_mint example_info) = Ok example_mint
  /\ pubkeyFromString base58_decode (info_payer example_info) = Ok example_payer
  /\ pubkeyFromString base58_decode (info_payerAta example_info) = Ok example_payer_ata.
Proof.
  repeat split; (apply base58_key; [vm_compute; reflexivity | reflexivity]).
Qed.

Lemma example_addresses :
  deriveVaultPda ed25519_isOnCurve example_program example_mint example_payer
  = Ok (example_vault, 254)
  /\ getAssociatedTokenAddress ed25519_isOnCurve example_mint example_vault true
       TOKEN_PROGRAM_ID ASSOCIATED_TOKEN_PROGRAM_ID = Ok example_vault_ata
  /\ deriveEscrowPda ed25519_isOnCurve example_program example_vault example_payer
       example_seller = Ok (example_escrow, 255)
  /\ getAssociatedTokenAddress ed25519_isOnCurve example_mint example_seller false
       TOKEN_PROGRAM_ID ASSOCIATED_TOKEN_PROGRAM_ID = Ok example_seller_ata
  /\ getAssociatedTokenAddress ed25519_isOnCurve example_mint example_payer false
       TOKEN_PROGRAM_ID ASSOCIATED_TOKEN_PROGRAM_ID = Ok example_payer_ata.
Proof. vm_compute. auto. Qed.

(** C9, amended, at the keys of the example: the file names another payer
    than the local wallet, and its other keys are readable. *)
Lemma wallet_mismatch_guard_witness :
  let s := mkRun example_cluster [] [] (Some example_info) in
  let vault_out := main_vault ed25519_isOnCurve base58_decode cluster_env example_seller s in
  let escrow_out := main_escrow ed25519_isOnCurve base58_decode cluster_env example_seller s in
  (vault_out.1 = Throw wallet_mismatch /\ sent vault_out.2 = [])
  /\ (escrow_out.1 = Throw wallet_mismatch /\ sent escrow_out.2 = []).
Proof.
  cbn zeta. destruct example_keys as (Kp & Km & Kb & Ka).
  destruct (wallet_mismatch_guard ed25519_isOnCurve base58_decode Cluster cluster_env
              example_seller (mkRun example_cluster [] [] (Some example_info))
              example_info example_payer eq_refl Kb) as ((_ & V & _) & (_ & E & _) & H).
  - vm_compute. discriminate.
  - destruct (H example_program example_mint example_payer_ata Kp Km Ka) as [H1 H2].
    auto.
Defined.

(** C9 as stated fails: the four keys of the file are parsed before the
    guard compares the payer.  With a payer that differs from the wallet and
    a holding account that is not the text of a key, both scripts stop with
    the error of the parse, not with the wallet mismatch (nothing is
    submitted either way). *)
Lemma mismatch_hidden_by_unreadable_key :
  let info :=
    mkInfo (info_programId example_info) (info_mint example_info)
      (info_payer example_info) "0" 6 "Goblin Gold" in
  let s : Run (list (result Signature)) := mkRun [] [] [] (Some info) in
  let env := scripted_env example_mint 1700000000123 1461600 in
  let vault_out := main_vault ed25519_isOnCurve base58_decode env example_seller s in
  let escrow_out := main_escrow ed25519_isOnCurve base58_decode env example_seller s in
  pubkeyFromString base58_decode (info_payer info) = Ok example_payer
  /\ equals example_payer example_seller = false
  /\ vault_out.1 = Throw (Error "Non-base58 character")
  /\ escrow_out.1 = Throw (Error "Non-base58 character")
  /\ sent vault_out.2 = []
  /\ sent escrow_out.2 = [].
Proof. vm_compute. auto 7. Qed.

(** C6 as stated fails: a transient failure of the vault-init submission and
    an authorization failure of the holding-account creation are both caught
    and logged, and the script goes on to its three submissions and returns
    normally. *)
Lemma other_failures_are_swallowed :
  let s : Run (list (result Signature)) :=
    mkRun [Throw (SendTransactionError TransientError "timed out");
           Throw (SendTransactionError AuthorizationError "missing signature")]
          [] [] (Some example_info) in
  let out := main_vault ed25519_isOnCurve base58_decode
               (scripted_env example_seller 1700000000123 1461600) example_payer s in
  out.1 = Ok tt
  /\ length (sent out.2) = 3%nat
  /\ console out.2 !! 7%nat = Some [LExn (SendTransactionError TransientError "timed out")]
  /\ console out.2 !! 9%nat
     = Some [LExn (SendTransactionError AuthorizationError "missing signature")].
Proof. vm_compute. auto. Qed.

(** C6, amended: once the keys are read and the addresses derived, the vault
    script submits vault-init, the creation of the vault's holding account and
    custody-fund, in this order; every error thrown by the first or the second
    submission, of whatever category, is caught and logged and the script goes
    on; the outcome of the third submission is the script's: its error
    propagates to the caller. *)
Theorem vault_script_catches_every_error
  (isOnCurve : Buffer -> bool) (bs58_decode : string -> option Buffer)
  (World : Type) (env : Env World) (payer : PublicKey)
  (s : Run World) (info : DeployInfo)
  (programId mint buyer buyerAta vaultPda : PublicKey) (bump : Z) (vaultAta : PublicKey)
  (lockTokensIx : TransactionInstruction)
  (r1 r2 r3 : result Signature) (w1 w2 w3 : World) :
  deploy_info s = Some info ->
  pubkeyFromString bs58_decode (info_programId info) = Ok programId ->
  pubkeyFromString bs58_decode (info_mint info) = Ok mint ->
  pubkeyFromString bs58_decode (info_payer info) = Ok buyer ->
  pubkeyFromString bs58_decode (info_payerAta info) = Ok buyerAta ->
  equals buyer payer = true ->
  deriveVaultPda isOnCurve programId mint buyer = Ok (vaultPda, bump) ->
  getAssociatedTokenAddress isOnCurve mint vaultPda true
    TOKEN_PROGRAM_ID ASSOCIATED_TOKEN_PROGRAM_ID = Ok vaultAta ->
  encodeLockTokensIx programId buyer mint vaultPda vaultAta buyerAta 100000
  = Ok lockTokensIx ->
  let tx1 := [ProgramCall (encodeInitVaultIx programId buyer mint vaultPda)] in
  let tx2 := [createAssociatedTokenAccountInstruction buyer vaultAta vaultPda mint
                TOKEN_PROGRAM_ID ASSOCIATED_TOKEN_PROGRAM_ID] in
  let tx3 := [ProgramCall lockTokensIx] in
  sendAndConfirmTransaction env tx1 [payer] (world s) = (r1, w1) ->
  sendAndConfirmTransaction env tx2 [payer] w1 = (r2, w2) ->
  sendAndConfirmTransaction env tx3 [payer] w2 = (r3, w3) ->
  let out := main_vault isOnCurve bs58_decode env payer s in
  sent out.2 = sent s ++ [(tx1, [payer]); (tx2, [payer]); (tx3, [payer])]
  /\ world out.2 = w3
  /\ (forall e, r1 = Throw e -> In [LExn e] (console out.2))
  /\ (forall e, r2 = Throw e -> In [LExn e] (console out.2))
  /\ out.1 = match r3 with Ok _ => Ok tt | Throw e => Throw e end.
Proof.
  intros Hf Hp Hm Hb Ha He Hv Hva Hl tx1 tx2 tx3 H1 H2 H3 out.
  destruct (main_vault_run isOnCurve bs58_decode env payer s info programId mint buyer
              buyerAta vaultPda bump vaultAta lockTokensIx r1 w1 r2 w2 r3 w3
              Hf Hp Hm Hb Ha He Hv Hva Hl H1 H2 H3) as (lines & E & L1 & L2).
  subst out. rewrite E. cbn [fst snd sent world console].
  split; [reflexivity |]. split; [reflexivity |].
  split; [| split; [| reflexivity]]; intros e Hr; apply in_or_app; right; auto.
Qed.

Lemma vault_script_catches_every_error_witness :
  let s : Run (list (result Signature)) :=
    mkRun [Throw (SendTransactionError TransientError "timed out");
           Throw (SendTransactionError DuplicateInitialization "already in use");
           Throw (SendTransactionError PreconditionViolation "insufficient funds")]
          [] [] (Some example_info) in
  let out := main_vault ed25519_isOnCurve base58_decode
               (scripted_env example_seller 1700000000123 1461600) example_payer s in
  length (sent out.2) = 3%nat
  /\ In [LExn (SendTransactionError TransientError "timed out")] (console out.2)
  /\ out.1 = Throw (SendTransactionError PreconditionViolation "insufficient funds").
Proof.
  cbn zeta. destruct example_keys as (Kp & Km & Kb & Ka).
  destruct example_addresses as (Av & Ava & _).
  destruct (vault_script_catches_every_error ed25519_isOnCurve base58_decode
              (list (result Signature))
              (scripted_env example_seller 1700000000123 1461600) example_payer
              (mkRun [Throw (SendTransactionError TransientError "timed out");
                      Throw (SendTransactionError DuplicateInitialization "already in use");
                      Throw (SendTransactionError PreconditionViolation "insufficient funds")]
                     [] [] (Some example_info))
              example_info example_program example_mint example_payer example_payer_ata
              example_vault 254 example_vault_ata _ _ _ _ _ _ _
              eq_refl Kp Km Kb Ka eq_refl Av Ava
              (encodeLockTokensIx_ok _ _ _ _ _ _ 100000 ltac:(lia))
              eq_refl eq_refl eq_refl)
    as (S & _ & L & _ & R).
  split; [rewrite S; reflexivity |]. split; [apply L; reflexivity | exact R].
Defined.

Lemma agreement_init_amount_read programId buyer seller mint vault escrow amount deadlineUnixTs ix :
  encodeInitEscrowIx programId buyer seller mint vault escrow amount deadlineUnixTs = Ok ix ->
  agreement_init_amount (ProgramCall ix) = Some amount.
Proof.
  intros H. pose proof (encodeInitEscrowIx_inv _ _ _ _ _ _ _ _ _ H) as [Ha Hd].
  rewrite encodeInitEscrowIx_ok in H by assumption. apply Ok_inj in H. subst ix.
  unfold agreement_init_amount. cbn [data].
  rewrite take_selector, drop_selector, bool_decide_eq_true_2 by reflexivity.
  unfold readBigUInt64LE.
  rewrite (take_app_length' _ _ 8) by (symmetry; apply le_bytes_length).
  rewrite <- (firstn_all2 (n := 8) (u64_le amount))
    by (unfold u64_le; rewrite le_bytes_length; lia).
  f_equal. apply read_u64_le, Ha.
Qed.

(** The executor's answer to the escrow unit when the vault holds 100. *)
Lemma low_vault_execute :
  execute [example_payer] low_vault_ledger
    [ createAssociatedTokenAccountInstruction example_payer example_seller_ata
        example_seller example_mint TOKEN_PROGRAM_ID ASSOCIATED_TOKEN_PROGRAM_ID;
      ProgramCall
        (mkIx example_program
           [ mkMeta example_payer true true; mkMeta example_seller false false;
             mkMeta example_mint false false; mkMeta example_vault false false;
             mkMeta example_escrow false true;
             mkMeta SystemProgram_programId false false ]
           (discriminator "init_escrow" ++ u64_le 50000
            ++ i64_le (1700000000123 / 1000 + 3600))) ]
  = Throw (SendTransactionError PreconditionViolation
             "amount exceeds the vault's holdings").
Proof. vm_compute. reflexivity. Qed.

Lemma low_vault_rejects :
  sendAndConfirmTransaction cluster_env
    [ createAssociatedTokenAccountInstruction example_payer example_seller_ata
        example_seller example_mint TOKEN_PROGRAM_ID ASSOCIATED_TOKEN_PROGRAM_ID;
      ProgramCall
        (mkIx example_program
           [ mkMeta example_payer true true; mkMeta example_seller false false;
             mkMeta example_mint false false; mkMeta example_vault false false;
             mkMeta example_escrow false true;
             mkMeta SystemProgram_programId false false ]
           (discriminator "init_escrow" ++ u64_le 50000
            ++ i64_le (Date_now cluster_env
                         (mkCluster low_vault_ledger [] 1700000000123 1461600)
                       / 1000 + 3600))) ]
    [example_payer] (mkCluster low_vault_ledger [] 1700000000123 1461600)
  = (Throw (SendTransactionError PreconditionViolation
              "amount exceeds the vault's holdings"),
     mkCluster low_vault_ledger [] 1700000000123 1461600).
Proof.
  change (Date_now cluster_env _) with 1700000000123.
  unfold sendAndConfirmTransaction, cluster_env. cbv beta. cbn [ledger].
  rewrite low_vault_execute. reflexivity.
Qed.

(** C7 as stated fails: with a vault that holds 100 base units the escrow
    script still submits the agreement-init for 50000; it is the executor that
    rejects the unit for exceeding the holdings. *)
Lemma escrow_submitted_above_holdings :
  let s := mkRun low_vault_cluster [] [] (Some example_info) in
  let out := main_escrow ed25519_isOnCurve base58_decode cluster_env example_payer s in
  holdings_of (ledger (world s)) example_mint example_vault = 100
  /\ omap agreement_init_amount (submitted out.2) = [50000]
  /\ out.1 = Throw (SendTransactionError PreconditionViolation
                      "amount exceeds the vault's holdings").
Proof. vm_compute. auto. Qed.

(** C7, amended: the escrow script makes no check of the amount against the
    vault's holdings; once the keys are read and the addresses derived it
    submits, in whatever state the ledger is, the unit that creates the
    seller's holding account and the agreement for 50000 base units; when the
    submission fails its error is the script's and nothing more is
    submitted. *)
Theorem escrow_script_submits_unchecked
  (isOnCurve : Buffer -> bool) (bs58_decode : string -> option Buffer)
  (World : Type) (env : Env World) (payer : PublicKey)
  (s : Run World) (info : DeployInfo)
  (programId mint buyer buyerAta seller : PublicKey) (w0 : World)
  (vaultPda : PublicKey) (bump : Z) (escrowPda : PublicKey) (bump' : Z)
  (vaultAta sellerAta : PublicKey) (initEscrowIx : TransactionInstruction)
  (r1 : result Signature) (w1 : World) :
  deploy_info s = Some info ->
  pubkeyFromString bs58_decode (info_programId info) = Ok programId ->
  pubkeyFromString bs58_decode (info_mint info) = Ok mint ->
  pubkeyFromString bs58_decode (info_payer info) = Ok buyer ->
  pubkeyFromString bs58_decode (info_payerAta info) = Ok buyerAta ->
  equals buyer payer = true ->
  Keypair_generate env (world s) = (seller, w0) ->
  deriveVaultPda isOnCurve programId mint buyer = Ok (vaultPda, bump) ->
  deriveEscrowPda isOnCurve programId vaultPda buyer seller = Ok (escrowPda, bump') ->
  getAssociatedTokenAddress isOnCurve mint vaultPda true
    TOKEN_PROGRAM_ID ASSOCIATED_TOKEN_PROGRAM_ID = Ok vaultAta ->
  getAssociatedTokenAddress isOnCurve mint seller false
    TOKEN_PROGRAM_ID ASSOCIATED_TOKEN_PROGRAM_ID = Ok sellerAta ->
  encodeInitEscrowIx programId buyer seller mint vaultPda escrowPda 50000
    (Date_now env w0 / 1000 + 3600) = Ok initEscrowIx ->
  let tx1 := [createAssociatedTokenAccountInstruction buyer sellerAta seller mint
                TOKEN_PROGRAM_ID ASSOCIATED_TOKEN_PROGRAM_ID;
              ProgramCall initEscrowIx] in
  sendAndConfirmTransaction env tx1 [payer] w0 = (r1, w1) ->
  let out := main_escrow isOnCurve bs58_decode env payer s in
  (exists rest, sent out.2 = sent s ++ (tx1, [payer]) :: rest)
  /\ agreement_init_amount (ProgramCall initEscrowIx) = Some 50000
  /\ (forall e, r1 = Throw e ->
        out.1 = Throw e /\ sent out.2 = sent s ++ [(tx1, [payer])]).
Proof.
  intros Hf Hp Hm Hb Ha He Hg Hv Hes Hva Hsa Hi tx1 H1 out.
  destruct (sendAndConfirmTransaction env
              [ProgramCall (encodeReleaseToSellerIx programId buyer seller mint escrowPda
                              vaultPda vaultAta sellerAta)] [payer] w1) as [r2 w2] eqn:H2.
  destruct (main_escrow_run isOnCurve bs58_decode env payer s info programId mint buyer
              buyerAta seller w0 vaultPda bump escrowPda bump' vaultAta sellerAta
              initEscrowIx r1 w1 r2 w2 Hf Hp Hm Hb Ha He Hg Hv Hes Hva Hsa Hi H1 H2)
    as (lines & E).
  subst out. rewrite E. cbn [fst snd sent].
  split; [eauto |]. split; [eapply agreement_init_amount_read; exact Hi |].
  intros e ->. split; reflexivity.
Qed.

Lemma escrow_script_submits_unchecked_witness :
  let s := mkRun low_vault_cluster [] [] (Some example_info) in
  let out := main_escrow ed25519_isOnCurve base58_decode cluster_env example_payer s in
  out.1 = Throw (SendTransactionError PreconditionViolation
                   "amount exceeds the vault's holdings")
  /\ length (sent out.2) = 1%nat.
Proof.
  cbn zeta. destruct example_keys as (Kp & Km & Kb & Ka).
  destruct example_addresses as (Av & Ava & Ae & Asa & _).
  destruct (escrow_script_submits_unchecked ed25519_isOnCurve base58_decode Cluster
              cluster_env example_payer
              (mkRun low_vault_cluster [] [] (Some example_info))
              example_info example_program example_mint example_payer example_payer_ata
              example_seller (mkCluster low_vault_ledger [] 1700000000123 1461600)
              example_vault 254 example_escrow 255 example_vault_ata example_seller_ata
              _ _ _
              eq_refl Kp Km Kb Ka eq_refl eq_refl Av Ae Ava Asa
              (encodeInitEscrowIx_ok _ _ _ _ _ _ 50000 (1700000000123 / 1000 + 3600)
                 ltac:(lia) ltac:(change (1700000000123 / 1000) with 1700000000; lia))
              low_vault_rejects)
    as (_ & _ & H).
  destruct (H _ eq_refl) as [H1 H2]. split; [exact H1 |].
  rewrite H2. reflexivity.
Defined.

(** ** The executor on the instructions of the scripts *)

Lemma require_true c detail : require true c detail = Ok tt.
Proof. reflexivity. Qed.

Lemma selectors_differ :
  discriminator "init_vault" <> discriminator "lock_tokens"
  /\ discriminator "init_vault" <> discriminator "init_escrow"
  /\ discriminator "init_vault" <> discriminator "release_to_seller"
  /\ discriminator "lock_tokens" <> discriminator "init_escrow"
  /\ discriminator "lock_tokens" <> discriminator "release_to_seller"
  /\ discriminator "init_escrow" <> discriminator "release_to_seller".
Proof.
  destruct selector_values as (-> & -> & -> & ->). repeat split; discriminate.
Qed.

Lemma equals_refl k : equals k k = true.
Proof. unfold equals. apply bool_decide_eq_true_2. reflexivity. Qed.

Section Dispatch.

Variables (l : Ledger) (signers : list PublicKey) (ix : TransactionInstruction).
Hypothesis Hprogram : programId ix = program l.

Lemma dispatch_init_vault :
  firstn 8 (data ix) = discriminator "init_vault" ->
  dispatch l signers ix = vault_init l signers ix.
Proof.
  intros H. unfold dispatch. rewrite Hprogram, equals_refl, H. cbn [negb].
  rewrite bool_decide_eq_true_2 by reflexivity. reflexivity.
Qed.

Lemma dispatch_lock_tokens :
  firstn 8 (data ix) = discriminator "lock_tokens" ->
  dispatch l signers ix = custody_fund l signers ix.
Proof.
  intros H. destruct selectors_differ as (D1 & _).
  unfold dispatch. rewrite Hprogram, equals_refl, H. cbn [negb].
  rewrite bool_decide_eq_false_2 by congruence.
  rewrite bool_decide_eq_true_2 by reflexivity. reflexivity.
Qed.

Lemma dispatch_init_escrow :
  firstn 8 (data ix) = discriminator "init_escrow" ->
  dispatch l signers ix = agreement_init l signers ix.
Proof.
  intros H. destruct selectors_differ as (_ & D2 & _ & D4 & _).
  unfold dispatch. rewrite Hprogram, equals_refl, H. cbn [negb].
  rewrite !bool_decide_eq_false_2 by congruence.
  rewrite bool_decide_eq_true_2 by reflexivity. reflexivity.
Qed.

Lemma dispatch_release :
  firstn 8 (data ix) = discriminator "release_to_seller" ->
  dispatch l signers ix = release l signers ix.
Proof.
  intros H. destruct selectors_differ as (_ & _ & D3 & _ & D5 & D6).
  unfold dispatch. rewrite Hprogram, equals_refl, H. cbn [negb].
  rewrite !bool_decide_eq_false_2 by congruence.
  rewrite bool_decide_eq_true_2 by reflexivity. reflexivity.
Qed.

End Dispatch.

(** Membership in an explicit list of signers. *)
Ltac in_signers :=
  repeat first [apply list_elem_of_here | apply list_elem_of_further].

(** Rewriting the lookups and checks the executor makes. *)
Ltac ledger_simpl :=
  repeat first
    [ progress cbn [execute execute_instruction mbind result_bind andb negb
                    program assets holdings canonical vaults agreements clock
                    balance holding_asset holding_owner mint_authority
                    vault_authority vault_asset agreement_vault agreement_buyer
                    agreement_seller amount_locked deadline status
                    keys data programId pubkey isSigner isWritable
                    from_option fst snd]
    | rewrite lookup_empty
    | rewrite lookup_insert_eq
    | rewrite lookup_insert_ne by congruence
    | rewrite equals_refl
    | rewrite bool_decide_eq_true_2 by (first [reflexivity | assumption | solve [in_signers] | solve [eauto]])
    | rewrite require_true ].

Lemma account_at ix i m : keys ix !! i = Some m -> account ix i = Ok (pubkey m).
Proof. intros H. unfold account. rewrite H. reflexivity. Qed.

Lemma authorize_first signers ix m :
  keys ix !! 0%nat = Some m -> isSigner m = true -> pubkey m ∈ signers ->
  authorize signers ix = Ok tt.
Proof.
  intros H Hs Hin. unfold authorize, cosigns. rewrite H, Hs.
  rewrite bool_decide_eq_true_2 by exact Hin. reflexivity.
Qed.

Lemma holding_at_ok l address asset owner h :
  canonical l !! (toBuffer asset, toBuffer owner) = Some (toBuffer address) ->
  holdings l !! toBuffer address = Some h ->
  holding_at l address asset owner = Ok h.
Proof.
  intros Hc Hh. unfold holding_at. rewrite Hc, Hh.
  rewrite bool_decide_eq_true_2 by reflexivity. reflexivity.
Qed.

Lemma holdings_of_at l asset owner address h :
  canonical l !! (toBuffer asset, toBuffer owner) = Some (toBuffer address) ->
  holdings l !! toBuffer address = Some h ->
  holdings_of l asset owner = balance h.
Proof. intros Hc Hh. unfold holdings_of. rewrite Hc, Hh. reflexivity. Qed.

(** A transfer between two distinct holding accounts that exist. *)
Lemma transfer_ok l asset src srcOwner dst dstOwner amount hs hd :
  canonical l !! (toBuffer asset, toBuffer srcOwner) = Some (toBuffer src) ->
  canonical l !! (toBuffer asset, toBuffer dstOwner) = Some (toBuffer dst) ->
  holdings l !! toBuffer src = Some hs ->
  holdings l !! toBuffer dst = Some hd ->
  toBuffer src <> toBuffer dst ->
  amount <= balance hs ->
  transfer l asset src srcOwner dst dstOwner amount
  = Ok (mkLedger (program l) (assets l)
          (<[toBuffer dst := mkHolding (holding_asset hd) (holding_owner hd)
                               (balance hd + amount)]>
             (<[toBuffer src := mkHolding (holding_asset hs) (holding_owner hs)
                                  (balance hs - amount)]> (holdings l)))
          (canonical l) (vaults l) (agreements l) (clock l)).
Proof.
  intros Hcs Hcd Hs Hd Hne Ha. unfold transfer.
  rewrite (holding_at_ok l src asset srcOwner hs Hcs Hs).
  rewrite (holding_at_ok l dst asset dstOwner hd Hcd Hd).
  cbn [mbind result_bind].
  destruct (Z.leb_spec amount (balance hs)); [| lia]. rewrite require_true.
  cbn [mbind result_bind].
  erewrite holding_at_ok;
    [| unfold set_balance; cbn [canonical]; exact Hcd
     | unfold set_balance; cbn [holdings]; rewrite lookup_insert_ne by exact Hne; exact Hd].
  reflexivity.
Qed.

Section Scenario.

Variables (prog payer mintk seller payerAta vaultPda vaultAta escrowPda sellerAta : PublicKey).

(** The ledger after the mint script. *)
Lemma step_mint l rent :
  assets l !! toBuffer mintk = None ->
  canonical l !! (toBuffer mintk, toBuffer payer) = None ->
  holdings l !! toBuffer payerAta = None ->
  execute [payer; mintk] l
    [ SystemProgram_createAccount payer mintk rent MINT_SIZE TOKEN_PROGRAM_ID;
      createInitializeMint2Instruction mintk 6 payer payer;
      createAssociatedTokenAccountInstruction payer payerAta payer mintk
        TOKEN_PROGRAM_ID ASSOCIATED_TOKEN_PROGRAM_ID;
      createMintToInstruction mintk payerAta payer 1000000000000 TOKEN_PROGRAM_ID ]
  = Ok (mkLedger (program l)
          (<[toBuffer mintk := mkAsset 6 payer payer]> (assets l))
          (<[toBuffer payerAta := mkHolding mintk payer 1000000000000]> (holdings l))
          (<[(toBuffer mintk, toBuffer payer) := toBuffer payerAta]> (canonical l))
          (vaults l) (agreements l) (clock l)).
Proof.
  intros Ha Hc Hh. ledger_simpl.
  unfold set_balance. ledger_simpl. rewrite insert_insert_eq. reflexivity.
Qed.

Lemma step_create_ata l owner ata :
  canonical l !! (toBuffer mintk, toBuffer owner) = None ->
  holdings l !! toBuffer ata = None ->
  execute_instruction [payer] l
    (createAssociatedTokenAccountInstruction payer ata owner mintk
       TOKEN_PROGRAM_ID ASSOCIATED_TOKEN_PROGRAM_ID)
  = Ok (mkLedger (program l) (assets l)
          (<[toBuffer ata := mkHolding mintk owner 0]> (holdings l))
          (<[(toBuffer mintk, toBuffer owner) := toBuffer ata]> (canonical l))
          (vaults l) (agreements l) (clock l)).
Proof. intros Hc Hh. ledger_simpl. reflexivity. Qed.

Lemma step_init_vault l :
  program l = prog ->
  vaults l !! toBuffer vaultPda = None ->
  execute_instruction [payer] l
    (ProgramCall (encodeInitVaultIx prog payer mintk vaultPda))
  = Ok (mkLedger (program l) (assets l) (holdings l) (canonical l)
          (<[toBuffer vaultPda := mkVault mintk payer]> (vaults l))
          (agreements l) (clock l)).
Proof.
  intros Hp Hv. cbn [execute_instruction].
  rewrite dispatch_init_vault;
    [| rewrite Hp; reflexivity
     | unfold encodeInitVaultIx; cbn [data];
       rewrite <- (app_nil_r (discriminator _)); apply take_selector].
  unfold vault_init, encodeInitVaultIx.
  erewrite authorize_first; [| reflexivity | reflexivity | in_signers].
  repeat (erewrite account_at by reflexivity). ledger_simpl. rewrite Hv. reflexivity.
Qed.

Lemma read_after_selector name amount rest :
  0 <= amount < 2 ^ 64 ->
  readBigUInt64LE (skipn 8 (discriminator name ++ u64_le amount ++ rest)) = amount.
Proof.
  intros H. rewrite drop_selector. unfold readBigUInt64LE.
  rewrite (take_app_length' _ _ 8) by (symmetry; apply le_bytes_length).
  rewrite <- (firstn_all2 (n := 8) (u64_le amount))
    by (unfold u64_le; rewrite le_bytes_length; lia).
  apply read_u64_le, H.
Qed.

Lemma read_deadline_after_amount name amount timestamp :
  - 2 ^ 63 <= timestamp < 2 ^ 63 ->
  readBigInt64LE (skipn 16 (discriminator name ++ u64_le amount ++ i64_le timestamp))
  = timestamp.
Proof.
  intros H. rewrite app_assoc, (drop_app_length' _ _ 16)
    by (rewrite length_app, discriminator_length; unfold u64_le;
        rewrite le_bytes_length; reflexivity).
  apply read_i64_le, H.
Qed.

Lemma step_lock l amount bP bV :
  program l = prog ->
  vaults l !! toBuffer vaultPda = Some (mkVault mintk payer) ->
  canonical l !! (toBuffer mintk, toBuffer payer) = Some (toBuffer payerAta) ->
  canonical l !! (toBuffer mintk, toBuffer vaultPda) = Some (toBuffer vaultAta) ->
  holdings l !! toBuffer payerAta = Some (mkHolding mintk payer bP) ->
  holdings l !! toBuffer vaultAta = Some (mkHolding mintk vaultPda bV) ->
  toBuffer payerAta <> toBuffer vaultAta ->
  0 <= amount < 2 ^ 64 ->
  amount <= bP ->
  execute_instruction [payer] l
    (ProgramCall
       (mkIx prog
          [ mkMeta payer true true; mkMeta mintk false false; mkMeta vaultPda false false;
            mkMeta vaultAta false true; mkMeta payerAta false true;
            mkMeta TOKEN_PROGRAM_ID false false;
            mkMeta ASSOCIATED_TOKEN_PROGRAM_ID false false;
            mkMeta SystemProgram_programId false false ]
          (discriminator "lock_tokens" ++ u64_le amount)))
  = Ok (mkLedger (program l) (assets l)
          (<[toBuffer vaultAta := mkHolding mintk vaultPda (bV + amount)]>
             (<[toBuffer payerAta := mkHolding mintk payer (bP - amount)]> (holdings l)))
          (canonical l) (vaults l) (agreements l) (clock l)).
Proof.
  intros Hp Hv HcP HcV HhP HhV Hne Hr Ha. cbn [execute_instruction].
  rewrite dispatch_lock_tokens; [| rewrite Hp; reflexivity | apply take_selector].
  unfold custody_fund.
  erewrite authorize_first; [| reflexivity | reflexivity | in_signers].
  repeat (erewrite account_at by reflexivity). ledger_simpl.
  rewrite Hv. ledger_simpl.
  rewrite <- (app_nil_r (u64_le amount)), read_after_selector by exact Hr.
  erewrite transfer_ok by eassumption. reflexivity.
Qed.

Lemma step_init_escrow l amount timestamp v hV :
  program l = prog ->
  vaults l !! toBuffer vaultPda = Some v ->
  agreements l !! toBuffer escrowPda = None ->
  canonical l !! (toBuffer mintk, toBuffer vaultPda) = Some (toBuffer vaultAta) ->
  holdings l !! toBuffer vaultAta = Some hV ->
  0 <= amount < 2 ^ 64 ->
  - 2 ^ 63 <= timestamp < 2 ^ 63 ->
  amount <= balance hV ->
  clock l < timestamp ->
  execute_instruction [payer] l
    (ProgramCall
       (mkIx prog
          [ mkMeta payer true true; mkMeta seller false false; mkMeta mintk false false;
            mkMeta vaultPda false false; mkMeta escrowPda false true;
            mkMeta SystemProgram_programId false false ]
          (discriminator "init_escrow" ++ u64_le amount ++ i64_le timestamp)))
  = Ok (mkLedger (program l) (assets l) (holdings l) (canonical l) (vaults l)
          (<[toBuffer escrowPda :=
               mkAgreement vaultPda payer seller amount timestamp Active]> (agreements l))
          (clock l)).
Proof.
  intros Hp Hv Ha Hc Hh Hr Hd Hle Hcl. cbn [execute_instruction].
  rewrite dispatch_init_escrow; [| rewrite Hp; reflexivity | apply take_selector].
  unfold agreement_init.
  erewrite authorize_first; [| reflexivity | reflexivity | in_signers].
  repeat (erewrite account_at by reflexivity). ledger_simpl.
  rewrite read_after_selector, read_deadline_after_amount by assumption.
  rewrite ?Hv, (holdings_of_at l mintk vaultPda vaultAta hV Hc Hh).
  rewrite ?bool_decide_eq_true_2 by eauto. ledger_simpl.
  destruct (Z.leb_spec amount (balance hV)); [| lia].
  destruct (Z.ltb_spec (clock l) timestamp); [| lia].
  ledger_simpl. reflexivity.
Qed.

Lemma step_release l amount timestamp bV bS :
  program l = prog ->
  agreements l !! toBuffer escrowPda
  = Some (mkAgreement vaultPda payer seller amount timestamp Active) ->
  canonical l !! (toBuffer mintk, toBuffer vaultPda) = Some (toBuffer vaultAta) ->
  canonical l !! (toBuffer mintk, toBuffer seller) = Some (toBuffer sellerAta) ->
  holdings l !! toBuffer vaultAta = Some (mkHolding mintk vaultPda bV) ->
  holdings l !! toBuffer sellerAta = Some (mkHolding mintk seller bS) ->
  toBuffer vaultAta <> toBuffer sellerAta ->
  amount <= bV ->
  execute_instruction [payer] l
    (ProgramCall (encodeReleaseToSellerIx prog payer seller mintk escrowPda vaultPda
                    vaultAta sellerAta))
  = Ok (mkLedger (program l) (assets l)
          (<[toBuffer sellerAta := mkHolding mintk seller (bS + amount)]>
             (<[toBuffer vaultAta := mkHolding mintk vaultPda (bV - amount)]> (holdings l)))
          (canonical l) (vaults l)
          (<[toBuffer escrowPda :=
               mkAgreement vaultPda payer seller amount timestamp Released]> (agreements l))
          (clock l)).
Proof.
  intros Hp Ha HcV HcS HhV HhS Hne Hle. cbn [execute_instruction].
  rewrite dispatch_release;
    [| rewrite Hp; reflexivity
     | unfold encodeReleaseToSellerIx; cbn [data];
       rewrite <- (app_nil_r (discriminator _)); apply take_selector].
  unfold release, encodeReleaseToSellerIx.
  erewrite authorize_first; [| reflexivity | reflexivity | in_signers].
  repeat (erewrite account_at by reflexivity). ledger_simpl.
  rewrite Ha. ledger_simpl.
  erewrite transfer_ok by eassumption. ledger_simpl. reflexivity.
Qed.

End Scenario.

(** Submission to the modelled cluster. *)
Lemma cluster_send_ok c tx signers l' :
  execute signers (ledger c) tx = Ok l' ->
  sendAndConfirmTransaction cluster_env tx signers c
  = (Ok "confirmed"%string, mkCluster l' (fresh_keys c) (now_ms c) (mint_rent c)).
Proof. intros H. unfold sendAndConfirmTransaction, cluster_env. rewrite H. reflexivity. Qed.

Lemma execute_one signers l i l' :
  execute_instruction signers l i = Ok l' -> execute signers l [i] = Ok l'.
Proof. intros H. cbn [execute]. rewrite H. reflexivity. Qed.

Lemma execute_two signers l i j l' l'' :
  execute_instruction signers l i = Ok l' ->
  execute_instruction signers l' j = Ok l'' ->
  execute signers l [i; j] = Ok l''.
Proof. intros H H'. cbn [execute]. rewrite H. cbn [mbind result_bind]. rewrite H'. reflexivity. Qed.

Section OnCurve.

Variable isOnCurve : Buffer -> bool.

Lemma findProgramAddress_inv seeds programId address bump :
  findProgramAddress isOnCurve seeds programId = Ok (address, bump) ->
  wf_key address /\ isOnCurve (toBuffer address) = false.
Proof.
  unfold findProgramAddress. intros H.
  apply find_nonce_inv in H as [_ H].
  apply createProgramAddressSync_inv in H as [Ha Hc].
  split; [unfold wf_key; rewrite Ha; apply sha256_length | exact Hc].
Qed.

Lemma getAssociatedTokenAddress_inv mint owner allow programId ataProgramId address :
  getAssociatedTokenAddress isOnCurve mint owner allow programId ataProgramId = Ok address ->
  (allow = false -> isOnCurve (toBuffer owner) = true) /\ wf_key address.
Proof.
  unfold getAssociatedTokenAddress. intros H. split.
  - intros ->. cbn [negb andb] in H.
    destruct (isOnCurve (toBuffer owner)); [reflexivity | discriminate].
  - destruct (negb allow && negb (isOnCurve (toBuffer owner))); [discriminate |].
    destruct (findProgramAddress isOnCurve _ ataProgramId) as [[a b] |] eqn:E;
      [| discriminate].
    cbn [mbind result_bind] in H. apply Ok_inj in H. subst a.
    apply findProgramAddress_inv in E. tauto.
Qed.

End OnCurve.

Lemma decoded_key (bs58_decode : string -> option Buffer) s k :
  bs58_decode s = Some (toBuffer k) -> wf_key k ->
  pubkeyFromString bs58_decode s = Ok k.
Proof.
  intros H L. unfold pubkeyFromString, PublicKey_of_string. rewrite H.
  rewrite bool_decide_eq_true_2 by exact L. destruct k. reflexivity.
Qed.

(** The amounts read off the instructions of the scripts. *)
Lemma custody_fund_amount_lock programId user mint vaultPda vaultAta userAta amount :
  0 <= amount < 2 ^ 64 ->
  custody_fund_amount
    (ProgramCall
       (mkIx programId
          [ mkMeta user true true; mkMeta mint false false; mkMeta vaultPda false false;
            mkMeta vaultAta false true; mkMeta userAta false true;
            mkMeta TOKEN_PROGRAM_ID false false;
            mkMeta ASSOCIATED_TOKEN_PROGRAM_ID false false;
            mkMeta SystemProgram_programId false false ]
          (discriminator "lock_tokens" ++ u64_le amount))) = Some amount.
Proof.
  intros H. unfold custody_fund_amount. cbn [data].
  rewrite take_selector, bool_decide_eq_true_2 by reflexivity.
  rewrite <- (app_nil_r (u64_le amount)), read_after_selector by exact H. reflexivity.
Qed.

Lemma selector_init_vault programId authority mint vaultPda :
  firstn 8 (data (encodeInitVaultIx programId authority mint vaultPda))
  = discriminator "init_vault".
Proof.
  unfold encodeInitVaultIx. cbn [data].
  rewrite <- (app_nil_r (discriminator _)). apply take_selector.
Qed.

Lemma selector_release programId buyer seller mint escrow vault vaultAta sellerAta :
  firstn 8 (data (encodeReleaseToSellerIx programId buyer seller mint escrow vault
                    vaultAta sellerAta))
  = discriminator "release_to_seller".
Proof.
  unfold encodeReleaseToSellerIx. cbn [data].
  rewrite <- (app_nil_r (discriminator _)). apply take_selector.
Qed.

(** Side conditions of the steps: a lookup in a ledger built by inserts, an
    inequality of keys, or arithmetic. *)
Ltac scenario_side :=
  cbn [ledger world program assets holdings canonical vaults agreements clock
       balance Date_now cluster_env now_ms fresh_keys mint_rent];
  first
    [ reflexivity
    | assumption
    | lia
    | rewrite ?lookup_insert_ne by congruence;
      first [apply lookup_insert_eq | apply lookup_empty] ].

(** C8: the three scripts run in sequence against the executor, from a
    ledger on which nothing exists yet: the mint is created with 6 decimal
    places, the vault script locks exactly 100000 base units, the escrow
    script creates one agreement for exactly 50000 base units with a deadline
    3600 seconds after the current time in seconds and releases it; every
    submission is confirmed, and at the end the vault's holding is 50000, the
    seller's holding is 50000 and the agreement is Released. *)
Theorem end_to_end_scenario
  (isOnCurve : Buffer -> bool) (bs58_decode : string -> option Buffer)
  (toBase58 : PublicKey -> string)
  (prog payer mintk seller payerAta vaultPda vaultAta escrowPda sellerAta : PublicKey)
  (bump bump' : Z) (rest : list PublicKey) (clock0 now rent : Z) :
  bs58_decode "AhtmyF1FM2NwGYECDzgjC6jbNtPnSRDFzhahugFfqkZW"%string = Some (toBuffer prog) ->
  bs58_decode (toBase58 mintk) = Some (toBuffer mintk) ->
  bs58_decode (toBase58 payer) = Some (toBuffer payer) ->
  bs58_decode (toBase58 payerAta) = Some (toBuffer payerAta) ->
  wf_key prog -> wf_key mintk -> wf_key payer ->
  getAssociatedTokenAddress isOnCurve mintk payer false
    TOKEN_PROGRAM_ID ASSOCIATED_TOKEN_PROGRAM_ID = Ok payerAta ->
  deriveVaultPda isOnCurve prog mintk payer = Ok (vaultPda, bump) ->
  getAssociatedTokenAddress isOnCurve mintk vaultPda true
    TOKEN_PROGRAM_ID ASSOCIATED_TOKEN_PROGRAM_ID = Ok vaultAta ->
  deriveEscrowPda isOnCurve prog vaultPda payer seller = Ok (escrowPda, bump') ->
  getAssociatedTokenAddress isOnCurve mintk seller false
    TOKEN_PROGRAM_ID ASSOCIATED_TOKEN_PROGRAM_ID = Ok sellerAta ->
  toBuffer seller <> toBuffer payer ->
  toBuffer payerAta <> toBuffer vaultAta ->
  toBuffer payerAta <> toBuffer sellerAta ->
  toBuffer vaultAta <> toBuffer sellerAta ->
  clock0 < now / 1000 + 3600 < 2 ^ 63 ->
  - 2 ^ 63 <= now / 1000 + 3600 ->
  let c0 := mkCluster (empty_ledger prog clock0) (mintk :: seller :: rest) now rent in
  let out :=
    (main_create_mint isOnCurve toBase58 cluster_env payer ;;
     main_vault isOnCurve bs58_decode cluster_env payer ;;
     main_escrow isOnCurve bs58_decode cluster_env payer) (mkRun c0 [] [] None) in
  let l := ledger (world out.2) in
  out.1 = Ok tt
  /\ omap custody_fund_amount (submitted out.2) = [100000]
  /\ omap agreement_init_amount (submitted out.2) = [50000]
  /\ decimals <$> assets l !! toBuffer mintk = Some 6
  /\ holdings_of l mintk vaultPda = 50000
  /\ holdings_of l mintk seller = 50000
  /\ agreements l !! toBuffer escrowPda
     = Some (mkAgreement vaultPda payer seller 50000 (now / 1000 + 3600) Released).
Proof.
  intros Dprog Dmint Dpayer Data Wprog Wmint Wpayer Apayer Avault Avata Aescrow Asata
         Nsp Npv Nps Nvs Hclock Hlow c0 out l.
  (* keys on and off the curve are different keys *)
  pose proof (getAssociatedTokenAddress_inv _ _ _ _ _ _ _ Apayer) as [OnP WfPA].
  pose proof (getAssociatedTokenAddress_inv _ _ _ _ _ _ _ Asata) as [OnS _].
  pose proof (findProgramAddress_inv _ _ _ _ _ Avault) as [_ OffV].
  assert (Npw : toBuffer payer <> toBuffer vaultPda)
    by (intros E; rewrite E, OffV in OnP; specialize (OnP eq_refl); discriminate).
  assert (Nsw : toBuffer seller <> toBuffer vaultPda)
    by (intros E; rewrite E, OffV in OnS; specialize (OnS eq_refl); discriminate).
  (* the file read back *)
  pose proof (decoded_key bs58_decode _ _ Dprog Wprog) as Kprog.
  pose proof (decoded_key bs58_decode _ _ Dmint Wmint) as Kmint.
  pose proof (decoded_key bs58_decode _ _ Dpayer Wpayer) as Kpayer.
  pose proof (decoded_key bs58_decode _ _ Data WfPA) as Kata.
  (* the mint script *)
  edestruct (main_create_mint_run isOnCurve cluster_env payer toBase58
               (mkRun c0 [] [] None) mintk
               (mkCluster (empty_ledger prog clock0) (seller :: rest) now rent)
               rent payerAta) as (lines1 & E1);
    [reflexivity | reflexivity | exact Apayer
     | apply cluster_send_ok; cbn [ledger]; apply step_mint; apply lookup_empty |].
  unfold empty_ledger in E1.
  cbn [world console sent deploy_info fresh_keys now_ms mint_rent ledger
       program assets holdings canonical vaults agreements clock app] in E1.
  (* the vault script *)
  match type of E1 with
  | _ = (_, ?s1) =>
      edestruct (main_vault_run isOnCurve bs58_decode cluster_env payer s1)
        as (lines2 & E2 & _)
  end;
    [ reflexivity | exact Kprog | exact Kmint | exact Kpayer | exact Kata
      | apply equals_refl | exact Avault | exact Avata
      | apply encodeLockTokensIx_ok; lia
      | apply cluster_send_ok, execute_one, step_init_vault; scenario_side
      | apply cluster_send_ok, execute_one, step_create_ata; scenario_side
      | apply cluster_send_ok, execute_one;
        apply (step_lock prog payer mintk payerAta vaultPda vaultAta _ 100000
                 1000000000000 0); scenario_side
      | ].
  cbn [world console sent deploy_info fresh_keys now_ms mint_rent ledger
       program assets holdings canonical vaults agreements clock app] in E2.
  (* the escrow script *)
  match type of E2 with
  | _ = (_, ?s2) =>
      edestruct (main_escrow_run isOnCurve bs58_decode cluster_env payer s2)
        as (lines3 & E3)
  end;
    [ reflexivity | exact Kprog | exact Kmint | exact Kpayer | exact Kata
      | apply equals_refl | reflexivity | exact Avault | exact Aescrow | exact Avata
      | exact Asata
      | apply encodeInitEscrowIx_ok; scenario_side
      | apply cluster_send_ok;
        eapply execute_two;
        [ apply step_create_ata; scenario_side
        | eapply (step_init_escrow prog payer mintk seller vaultPda vaultAta escrowPda
                    _ 50000 _ _ (mkHolding mintk vaultPda (0 + 100000)));
          scenario_side ]
      | apply cluster_send_ok, execute_one;
        eapply (step_release prog payer mintk seller vaultPda vaultAta escrowPda sellerAta
                  _ 50000 _ (0 + 100000) 0); scenario_side
      | ].
  cbn [world console sent deploy_info fresh_keys now_ms mint_rent ledger
       program assets holdings canonical vaults agreements clock app] in E3.
  (* the whole run *)
  assert (Eout : out = (main_escrow isOnCurve bs58_decode cluster_env payer) _)
    by (subst out; erewrite bind_ok by exact E1; erewrite bind_ok by exact E2; reflexivity).
  rewrite E3 in Eout. subst l. rewrite Eout. clear Eout E1 E2 E3 out.
  cbn [fst snd world ledger sent].
  destruct selectors_differ as (D1 & D2 & D3 & D4 & D5 & D6).
  split; [reflexivity |]. split; [| split].
  - unfold submitted, custody_fund_amount.
    cbn [sent map fst concat app omap list_omap data].
    rewrite selector_init_vault, selector_release, !take_selector.
    rewrite !bool_decide_eq_false_2 by congruence.
    rewrite bool_decide_eq_true_2 by reflexivity.
    rewrite <- (app_nil_r (u64_le 100000)), read_after_selector by lia. reflexivity.
  - unfold submitted, agreement_init_amount.
    cbn [sent map fst concat app omap list_omap data].
    rewrite selector_init_vault, selector_release, !take_selector.
    rewrite !bool_decide_eq_false_2 by congruence.
    rewrite bool_decide_eq_true_2 by reflexivity.
    rewrite read_after_selector by lia. reflexivity.
  - cbn [assets agreements]. rewrite !lookup_insert_eq.
    split; [reflexivity |].
    split; [| split; [| reflexivity]];
      (erewrite holdings_of_at;
       [| cbn [canonical]; rewrite ?lookup_insert_ne by congruence; apply lookup_insert_eq
        | cbn [holdings]; rewrite ?lookup_insert_ne by congruence; apply lookup_insert_eq]);
      cbn [balance]; lia.
Qed.

Lemma example_codec :
  base58_decode "AhtmyF1FM2NwGYECDzgjC6jbNtPnSRDFzhahugFfqkZW"
  = Some (toBuffer example_program)
  /\ base58_decode (toBase58_ref example_mint) = Some (toBuffer example_mint)
  /\ base58_decode (toBase58_ref example_payer) = Some (toBuffer example_payer)
  /\ base58_decode (toBase58_ref example_payer_ata) = Some (toBuffer example_payer_ata).
Proof. vm_compute. auto. Qed.

Lemma example_distinct :
  toBuffer example_seller <> toBuffer example_payer
  /\ toBuffer example_payer_ata <> toBuffer example_vault_ata
  /\ toBuffer example_payer_ata <> toBuffer example_seller_ata
  /\ toBuffer example_vault_ata <> toBuffer example_seller_ata.
Proof. repeat split; intros H; vm_compute in H; discriminate H. Qed.

Lemma end_to_end_scenario_witness :
  let c0 := mkCluster (empty_ledger example_program 1700000000)
              [example_mint; example_seller] 1700000000123 1461600 in
  let out :=
    (main_create_mint ed25519_isOnCurve toBase58_ref cluster_env example_payer ;;
     main_vault ed25519_isOnCurve base58_decode cluster_env example_payer ;;
     main_escrow ed25519_isOnCurve base58_decode cluster_env example_payer)
      (mkRun c0 [] [] None) in
  out.1 = Ok tt
  /\ holdings_of (ledger (world out.2)) example_mint example_vault = 50000
  /\ holdings_of (ledger (world out.2)) example_mint example_seller = 50000
  /\ agreements (ledger (world out.2)) !! toBuffer example_escrow
     = Some (mkAgreement example_vault example_payer example_seller 50000
               (1700000000123 / 1000 + 3600) Released).
Proof.
  cbn zeta. destruct example_addresses as (Av & Ava & Ae & Asa & Apa).
  destruct example_codec as (Cp & Cm & Cb & Ca).
  destruct example_distinct as (N1 & N2 & N3 & N4).
  assert (Hclock : 1700000000 < 1700000000123 / 1000 + 3600 < 2 ^ 63)
    by (change (1700000000123 / 1000) with 1700000000; lia).
  assert (Hlow : - 2 ^ 63 <= 1700000000123 / 1000 + 3600)
    by (change (1700000000123 / 1000) with 1700000000; lia).
  destruct (end_to_end_scenario ed25519_isOnCurve base58_decode toBase58_ref
              example_program example_payer example_mint example_seller
              example_payer_ata example_vault example_vault_ata example_escrow
              example_seller_ata 254 255 [] 1700000000 1700000000123 1461600
              Cp Cm Cb Ca eq_refl eq_refl eq_refl Apa Av Ava Ae Asa N1 N2 N3 N4
              Hclock Hlow)
    as (R & _ & _ & _ & V & S & A).
  auto.
Defined.

(** * Further properties of the scripts *)

(** ** Derivations: every outcome of the search *)

Section Search.

Variable isOnCurve : Buffer -> bool.

(** With seeds of at most 32 bytes, [createProgramAddressSync] hashes or
    refuses an on-curve hash; it throws no [TypeError]. *)
Lemma createProgramAddressSync_short seeds programId :
  Forall (fun seed => (length seed <= MAX_SEED_LENGTH)%nat) seeds ->
  createProgramAddressSync isOnCurve seeds programId
  = if isOnCurve (SHA256.sha256 (address_preimage (concat seeds) programId))
    then Throw (Error "Invalid seeds, address must fall off the curve")
    else Ok (mkPublicKey (SHA256.sha256 (address_preimage (concat seeds) programId))).
Proof.
  intros H. unfold createProgramAddressSync. rewrite concat_seeds_ok by exact H.
  reflexivity.
Qed.

Lemma Forall_short_app seeds (nonce : Z) :
  Forall (fun seed => (length seed <= MAX_SEED_LENGTH)%nat) seeds ->
  Forall (fun seed => (length seed <= MAX_SEED_LENGTH)%nat) (seeds ++ [[nonce]]).
Proof.
  intros H. apply Forall_app. split; [exact H |].
  constructor; [cbn; unfold MAX_SEED_LENGTH; lia | constructor].
Qed.

(** The search returns the largest nonce of [1 .. n] whose hash is off the
    curve, and fails only when there is none. *)
Lemma find_nonce_outcome n seeds programId :
  Forall (fun seed => (length seed <= MAX_SEED_LENGTH)%nat) seeds ->
  match find_nonce isOnCurve n seeds programId with
  | Ok (address, bump) =>
      1 <= bump <= Z.of_nat n
      /\ toBuffer address = candidate seeds programId bump
      /\ isOnCurve (candidate seeds programId bump) = false
      /\ (forall k, bump < k <= Z.of_nat n -> isOnCurve (candidate seeds programId k) = true)
  | Throw e =>
      e = Error "Unable to find a viable program address nonce"
      /\ (forall k, 1 <= k <= Z.of_nat n -> isOnCurve (candidate seeds programId k) = true)
  end.
Proof.
  intros Hs. induction n as [| n IH].
  - cbn [find_nonce]. split; [reflexivity | intros k Hk; lia].
  - cbn [find_nonce].
    rewrite createProgramAddressSync_short by (apply Forall_short_app, Hs).
    fold (candidate seeds programId (Z.of_nat (S n))).
    destruct (isOnCurve (candidate seeds programId (Z.of_nat (S n)))) eqn:C.
    + cbn [is_TypeError].
      destruct (find_nonce isOnCurve n seeds programId) as [[address bump] | e].
      * destruct IH as (Hb & Ha & Hc & Hk).
        split; [lia |]. split; [exact Ha |]. split; [exact Hc |].
        intros k Hr. destruct (Z.eq_dec k (Z.of_nat (S n))) as [-> | Hne];
          [exact C | apply Hk; lia].
      * destruct IH as (He & Hk). split; [exact He |].
        intros k Hr. destruct (Z.eq_dec k (Z.of_nat (S n))) as [-> | Hne];
          [exact C | apply Hk; lia].
    + split; [lia |]. split; [reflexivity |]. split; [exact C |].
      intros k Hk. lia.
Qed.

End Search.

Lemma vault_seeds_short mint authority :
  wf_key mint -> wf_key authority ->
  Forall (fun seed => (length seed <= MAX_SEED_LENGTH)%nat) (vault_seeds mint authority).
Proof.
  unfold wf_key, PUBLIC_KEY_LENGTH, MAX_SEED_LENGTH, vault_seeds. intros Hm Ha.
  constructor; [cbn; lia |]. do 2 (constructor; [lia |]). constructor.
Qed.

Lemma escrow_seeds_short vaultPk buyerPk sellerPk :
  wf_key vaultPk -> wf_key buyerPk -> wf_key sellerPk ->
  Forall (fun seed => (length seed <= MAX_SEED_LENGTH)%nat)
    (escrow_seeds vaultPk buyerPk sellerPk).
Proof.
  unfold wf_key, PUBLIC_KEY_LENGTH, MAX_SEED_LENGTH, escrow_seeds. intros Hv Hb Hs.
  constructor; [cbn; lia |]. do 3 (constructor; [lia |]). constructor.
Qed.

(** X1: for keys of 32 bytes, [deriveVaultPda] and [deriveEscrowPda] have two
    outcomes only.  Either they return an address and a bump: the bump lies
    in 1..255, the address is the hash taken at this bump and lies off the
    curve, and the hash of every larger nonce up to 255 lies on the curve (the
    bump is the canonical one).  Or they throw, and then the error is the
    library's "Unable to find a viable program address nonce" (never a
    TypeError) and the hashes of all 255 nonces lie on the curve. *)
Theorem derivation_outcomes
  (isOnCurve : Buffer -> bool) (programId mint authority vaultPk buyerPk sellerPk : PublicKey) :
  wf_key mint -> wf_key authority ->
  wf_key vaultPk -> wf_key buyerPk -> wf_key sellerPk ->
  match deriveVaultPda isOnCurve programId mint authority with
  | Ok (address, bump) =>
      1 <= bump <= 255
      /\ toBuffer address = candidate (vault_seeds mint authority) programId bump
      /\ isOnCurve (toBuffer address) = false
      /\ (forall k, bump < k <= 255 ->
            isOnCurve (candidate (vault_seeds mint authority) programId k) = true)
  | Throw e =>
      e = Error "Unable to find a viable program address nonce"
      /\ (forall k, 1 <= k <= 255 ->
            isOnCurve (candidate (vault_seeds mint authority) programId k) = true)
  end
  /\ match deriveEscrowPda isOnCurve programId vaultPk buyerPk sellerPk with
     | Ok (address, bump) =>
         1 <= bump <= 255
         /\ toBuffer address
            = candidate (escrow_seeds vaultPk buyerPk sellerPk) programId bump
         /\ isOnCurve (toBuffer address) = false
         /\ (forall k, bump < k <= 255 ->
               isOnCurve (candidate (escrow_seeds vaultPk buyerPk sellerPk) programId k)
               = true)
     | Throw e =>
         e = Error "Unable to find a viable program address nonce"
         /\ (forall k, 1 <= k <= 255 ->
               isOnCurve (candidate (escrow_seeds vaultPk buyerPk sellerPk) programId k)
               = true)
     end.
Proof.
  intros Hm Ha Hv Hb Hs. split.
  - pose proof (find_nonce_outcome isOnCurve 255 (vault_seeds mint authority) programId
                  (vault_seeds_short mint authority Hm Ha)) as H.
    unfold deriveVaultPda, findProgramAddress.
    destruct (find_nonce isOnCurve 255 (vault_seeds mint authority) programId)
      as [[address bump] | e]; [| exact H].
    destruct H as (H1 & H2 & H3 & H4). rewrite H2. auto.
  - pose proof (find_nonce_outcome isOnCurve 255 (escrow_seeds vaultPk buyerPk sellerPk)
                  programId (escrow_seeds_short vaultPk buyerPk sellerPk Hv Hb Hs)) as H.
    unfold deriveEscrowPda, findProgramAddress.
    destruct (find_nonce isOnCurve 255 (escrow_seeds vaultPk buyerPk sellerPk) programId)
      as [[address bump] | e]; [| exact H].
    destruct H as (H1 & H2 & H3 & H4). rewrite H2. auto.
Qed.

Lemma derivation_outcomes_witness :
  ed25519_isOnCurve (toBuffer example_vault) = false
  /\ ed25519_isOnCurve
       (candidate (vault_seeds example_mint example_payer) example_program 255) = true
  /\ ed25519_isOnCurve (toBuffer example_escrow) = false.
Proof.
  destruct example_addresses as (Av & _ & Ae & _).
  pose proof (derivation_outcomes ed25519_isOnCurve example_program example_mint
                example_payer example_vault example_payer example_seller
                eq_refl eq_refl eq_refl eq_refl eq_refl) as [Hv He].
  rewrite Av in Hv. rewrite Ae in He.
  destruct Hv as (_ & _ & V & K). destruct He as (_ & _ & E & _).
  split; [exact V |]. split; [apply K; lia | exact E].
Defined.

(** ** Derivations: which inputs are told apart *)

Lemma vault_seeds_concat_inj m1 a1 m2 a2 :
  wf_key m1 -> wf_key m2 ->
  concat (vault_seeds m1 a1) = concat (vault_seeds m2 a2) ->
  (m1, a1) = (m2, a2).
Proof.
  unfold wf_key. intros Hm1 Hm2 H.
  unfold vault_seeds in H. cbn [concat] in H. rewrite !app_nil_r in H.
  apply app_inv_head in H.
  apply app_inj_1 in H as [Em Ea]; [| congruence].
  apply key_bytes_inj in Em, Ea. congruence.
Qed.

Lemma preimage_inj seeds1 seeds2 (n1 n2 : Z) p1 p2 :
  length (toBuffer p1) = length (toBuffer p2) ->
  address_preimage (concat (seeds1 ++ [[n1]])) p1
  = address_preimage (concat (seeds2 ++ [[n2]])) p2 ->
  concat seeds1 = concat seeds2 /\ n1 = n2 /\ p1 = p2.
Proof.
  intros Hl H. unfold address_preimage in H. cbn [Buffer_concat concat] in H.
  rewrite !app_nil_r, !app_assoc in H. apply app_inv_tail in H.
  apply app_inj_2 in H as [H Hp]; [| exact Hl].
  rewrite !concat_app in H. cbn [concat] in H. rewrite !app_nil_r in H.
  apply app_inj_2 in H as [Hs Hn]; [| reflexivity].
  split; [exact Hs |]. split; [congruence | apply key_bytes_inj, Hp].
Qed.

(** X2: one vault per (mint, authority) pair and program: for keys of 32
    bytes, two vault derivations hash the same bytes at some nonces only if
    they have the same mint, the same authority, the same program and the
    same nonce. *)
Theorem vault_address_depends_on_all
  (p1 m1 a1 p2 m2 a2 : PublicKey) (n1 n2 : Z) :
  wf_key p1 -> wf_key m1 -> wf_key p2 -> wf_key m2 ->
  address_preimage (concat (vault_seeds m1 a1 ++ [[n1]])) p1
  = address_preimage (concat (vault_seeds m2 a2 ++ [[n2]])) p2 ->
  m1 = m2 /\ a1 = a2 /\ p1 = p2 /\ n1 = n2.
Proof.
  intros Hp1 Hm1 Hp2 Hm2 H.
  apply preimage_inj in H as (Hs & Hn & Hp); [| unfold wf_key in *; congruence].
  apply vault_seeds_concat_inj in Hs; [| assumption | assumption].
  injection Hs as -> ->. auto.
Qed.

Lemma vault_address_depends_on_all_witness :
  address_preimage
    (concat (vault_seeds example_mint example_payer ++ [[255]])) example_program
  <> address_preimage
       (concat (vault_seeds example_mint example_seller ++ [[255]])) example_program.
Proof.
  intros H.
  apply (vault_address_depends_on_all example_program example_mint example_payer
           example_program example_mint example_seller 255 255
           eq_refl eq_refl eq_refl eq_refl) in H.
  destruct H as (_ & H & _). discriminate H.
Defined.

(** X3: a vault derivation and an agreement derivation never hash the same
    bytes, whatever the keys of 32 bytes, the programs and the nonces: the two
    kinds of address cannot be confused. *)
Theorem vault_and_agreement_kept_apart
  (p1 mint authority p2 vaultPk buyerPk sellerPk : PublicKey) (n1 n2 : Z) :
  wf_key p1 -> wf_key mint -> wf_key authority ->
  wf_key p2 -> wf_key vaultPk -> wf_key buyerPk -> wf_key sellerPk ->
  address_preimage (concat (vault_seeds mint authority ++ [[n1]])) p1
  <> address_preimage (concat (escrow_seeds vaultPk buyerPk sellerPk ++ [[n2]])) p2.
Proof.
  unfold wf_key, PUBLIC_KEY_LENGTH. intros Hp1 Hm Ha Hp2 Hv Hb Hs H.
  apply (f_equal (@length Z)) in H.
  unfold address_preimage, vault_seeds, escrow_seeds, Buffer_concat in H.
  cbn [concat app] in H. rewrite !app_nil_r in H.
  rewrite !length_app in H.
  rewrite Hp1, Hm, Ha, Hp2, Hv, Hb, Hs in H. cbn in H. discriminate H.
Qed.

Lemma vault_and_agreement_kept_apart_witness :
  address_preimage
    (concat (vault_seeds example_mint example_payer ++ [[254]])) example_program
  <> address_preimage
       (concat (escrow_seeds example_vault example_payer example_seller ++ [[255]]))
       example_program.
Proof.
  apply (vault_and_agreement_kept_apart example_program example_mint example_payer
           example_program example_vault example_payer example_seller 254 255);
    reflexivity.
Defined.

(** ** The encoders: one request per instruction *)

Lemma encodeLockTokensIx_inv programId user mint vaultPda vaultAta userAta amount ix :
  encodeLockTokensIx programId user mint vaultPda vaultAta userAta amount = Ok ix ->
  0 <= amount < 2 ^ 64.
Proof.
  intros H.
  destruct (Z_lt_dec amount 0); [rewrite encodeLockTokensIx_throws in H by lia; discriminate |].
  destruct (Z_le_dec (2 ^ 64) amount);
    [rewrite encodeLockTokensIx_throws in H by lia; discriminate |].
  lia.
Qed.

Lemma u64_le_inj a b :
  0 <= a < 2 ^ 64 -> 0 <= b < 2 ^ 64 -> u64_le a = u64_le b -> a = b.
Proof.
  intros Ha Hb H. rewrite <- (read_u64_le a Ha), <- (read_u64_le b Hb), H. reflexivity.
Qed.

Lemma i64_le_inj a b :
  - 2 ^ 63 <= a < 2 ^ 63 -> - 2 ^ 63 <= b < 2 ^ 63 -> i64_le a = i64_le b -> a = b.
Proof.
  intros Ha Hb H. rewrite <- (read_i64_le a Ha), <- (read_i64_le b Hb), H. reflexivity.
Qed.

Lemma u64_le_length a : length (u64_le a) = 8%nat.
Proof. apply le_bytes_length. Qed.

(** X4: the encoding is unambiguous.  Two custody-fund requests, or two
    agreement-init requests, that encode to the same instruction are the same
    request: same program, same accounts, same amount and same deadline; the
    same holds for vault-init and release; and instructions of two different
    operations are never equal. *)
Theorem instruction_determines_request
  (p u m v va ua p' u' m' v' va' ua' : PublicKey) (a a' : Z)
  (b s e b' s' e' : PublicKey) (d d' : Z) (sa sa' : PublicKey) :
  (forall ix,
      encodeLockTokensIx p u m v va ua a = Ok ix ->
      encodeLockTokensIx p' u' m' v' va' ua' a' = Ok ix ->
      (p, u, m, v, va, ua) = (p', u', m', v', va', ua') /\ a = a')
  /\ (forall ix,
        encodeInitEscrowIx p b s m v e a d = Ok ix ->
        encodeInitEscrowIx p' b' s' m' v' e' a' d' = Ok ix ->
        (p, b, s, m, v, e) = (p', b', s', m', v', e') /\ a = a' /\ d = d')
  /\ (encodeInitVaultIx p u m v = encodeInitVaultIx p' u' m' v' ->
      (p, u, m, v) = (p', u', m', v'))
  /\ (encodeReleaseToSellerIx p b s m e v va sa
      = encodeReleaseToSellerIx p' b' s' m' e' v' va' sa' ->
      (p, b, s, m, e, v, va, sa) = (p', b', s', m', e', v', va', sa'))
  /\ (forall ix,
        encodeLockTokensIx p u m v va ua a = Ok ix ->
        encodeInitEscrowIx p' b' s' m' v' e' a' d' <> Ok ix
        /\ encodeInitVaultIx p' u' m' v' <> ix
        /\ encodeReleaseToSellerIx p' b' s' m' e' v' va' sa' <> ix)
  /\ (forall ix,
        encodeInitEscrowIx p b s m v e a d = Ok ix ->
        encodeInitVaultIx p' u' m' v' <> ix
        /\ encodeReleaseToSellerIx p' b' s' m' e' v' va' sa' <> ix)
  /\ encodeInitVaultIx p u m v <> encodeReleaseToSellerIx p' b' s' m' e' v' va' sa'.
Proof.
  destruct selectors_differ as (D1 & D2 & D3 & D4 & D5 & D6).
  split; [| split; [| split; [| split; [| split; [| split]]]]].
  - intros ix H H'.
    pose proof (encodeLockTokensIx_inv _ _ _ _ _ _ _ _ H) as Ha.
    pose proof (encodeLockTokensIx_inv _ _ _ _ _ _ _ _ H') as Ha'.
    rewrite encodeLockTokensIx_ok in H, H' by assumption.
    apply Ok_inj in H, H'. rewrite <- H' in H.
    pose proof (f_equal programId H) as Ep.
    pose proof (f_equal keys H) as Ek.
    pose proof (f_equal data H) as Ed.
    cbn [programId keys data] in Ep, Ek, Ed.
    apply app_inv_head in Ed. apply u64_le_inj in Ed; [| assumption | assumption].
    split; [congruence | exact Ed].
  - intros ix H H'.
    pose proof (encodeInitEscrowIx_inv _ _ _ _ _ _ _ _ _ H) as [Ha Hd].
    pose proof (encodeInitEscrowIx_inv _ _ _ _ _ _ _ _ _ H') as [Ha' Hd'].
    rewrite encodeInitEscrowIx_ok in H, H' by assumption.
    apply Ok_inj in H, H'. rewrite <- H' in H.
    pose proof (f_equal programId H) as Ep.
    pose proof (f_equal keys H) as Ek.
    pose proof (f_equal data H) as Ed.
    cbn [programId keys data] in Ep, Ek, Ed.
    apply app_inv_head in Ed.
    apply app_inj_1 in Ed as [Ea Edd]; [| rewrite !u64_le_length; reflexivity].
    apply u64_le_inj in Ea; [| assumption | assumption].
    apply i64_le_inj in Edd; [| assumption | assumption].
    split; [congruence | auto].
  - intros H.
    pose proof (f_equal programId H) as Ep. pose proof (f_equal keys H) as Ek.
    unfold encodeInitVaultIx in Ep, Ek. cbn [programId keys] in Ep, Ek. congruence.
  - intros H.
    pose proof (f_equal programId H) as Ep. pose proof (f_equal keys H) as Ek.
    unfold encodeReleaseToSellerIx in Ep, Ek. cbn [programId keys] in Ep, Ek. congruence.
  - intros ix H.
    pose proof (encodeLockTokensIx_inv _ _ _ _ _ _ _ _ H) as Ha.
    rewrite encodeLockTokensIx_ok in H by assumption. apply Ok_inj in H.
    assert (Hsel : firstn 8 (data ix) = discriminator "lock_tokens")
      by (rewrite <- H; cbn [data]; apply take_selector).
    split; [| split].
    + intros H'.
      pose proof (encodeInitEscrowIx_inv _ _ _ _ _ _ _ _ _ H') as [Ha' Hd'].
      rewrite encodeInitEscrowIx_ok in H' by assumption. apply Ok_inj in H'.
      rewrite <- H' in Hsel. cbn [data] in Hsel. rewrite take_selector in Hsel.
      congruence.
    + intros H'. rewrite <- H', selector_init_vault in Hsel. congruence.
    + intros H'. rewrite <- H', selector_release in Hsel. congruence.
  - intros ix H.
    pose proof (encodeInitEscrowIx_inv _ _ _ _ _ _ _ _ _ H) as [Ha Hd].
    rewrite encodeInitEscrowIx_ok in H by assumption. apply Ok_inj in H.
    assert (Hsel : firstn 8 (data ix) = discriminator "init_escrow")
      by (rewrite <- H; cbn [data]; apply take_selector).
    split.
    + intros H'. rewrite <- H', selector_init_vault in Hsel. congruence.
    + intros H'. rewrite <- H', selector_release in Hsel. congruence.
  - intros H. pose proof (f_equal (fun ix => firstn 8 (data ix)) H) as Hsel.
    cbn beta in Hsel. rewrite selector_init_vault, selector_release in Hsel. congruence.
Qed.

Lemma instruction_determines_request_witness :
  encodeLockTokensIx example_program example_payer example_mint example_vault
    example_vault_ata example_payer_ata 100000
  <> encodeLockTokensIx example_program example_payer example_mint example_vault
       example_vault_ata example_payer_ata 100001.
Proof.
  intros H.
  destruct (instruction_determines_request
              example_program example_payer example_mint example_vault
              example_vault_ata example_payer_ata
              example_program example_payer example_mint example_vault
              example_vault_ata example_payer_ata 100000 100001
              example_payer example_seller example_escrow
              example_payer example_seller example_escrow 0 0
              example_seller_ata example_seller_ata) as (L & _).
  destruct (L _ (encodeLockTokensIx_ok _ _ _ _ _ _ 100000 ltac:(lia))) as [_ E].
  - rewrite <- H. apply encodeLockTokensIx_ok. lia.
  - discriminate E.
Defined.

(** ** What every run of a script keeps *)

Section Submissions.

Context {World : Type}.
Variable Q : Transaction * list PublicKey -> Prop.

Lemma submits_weaken {A} n n' (m : M World A) :
  submits n Q m -> (n <= n')%nat -> submits n' Q m.
Proof.
  intros H Hn s. destruct (H s) as (new & E & L & F & D).
  exists new. repeat split; [exact E | lia | exact F | exact D].
Qed.

Lemma submits_still {A} (m : M World A) :
  (forall s, sent (m s).2 = sent s /\ deploy_info (m s).2 = deploy_info s) ->
  submits 0 Q m.
Proof.
  intros H s. destruct (H s) as [E D]. exists [].
  rewrite app_nil_r. repeat split; [exact E | reflexivity | constructor | exact D].
Qed.

Lemma submits_lift {A} (r : result A) : submits 0 Q (lift (World := World) r).
Proof. apply submits_still. intros s. split; reflexivity. Qed.

Lemma submits_ret {A} (a : A) : submits 0 Q (mret (M := M World) a).
Proof. apply submits_still. intros s. split; reflexivity. Qed.

Lemma submits_throw {A} e : submits 0 Q (throw (World := World) (A := A) e).
Proof. apply submits_still. intros s. split; reflexivity. Qed.

Lemma submits_log line : submits 0 Q (console_log (World := World) line).
Proof. apply submits_still. intros s. split; reflexivity. Qed.

Lemma submits_generate (env : Env World) : submits 0 Q (generate env).
Proof.
  apply submits_still. intros s. unfold generate.
  destruct (Keypair_generate env (world s)). split; reflexivity.
Qed.

Lemma submits_read : submits 0 Q (read_deploy_info (World := World)).
Proof.
  apply submits_still. intros s. unfold read_deploy_info.
  destruct (deploy_info s) eqn:D; cbn [snd]; auto.
Qed.

Lemma submits_peek {A} (f : World -> result A) :
  submits 0 Q (fun s : Run World => (f (world s), s)).
Proof. apply submits_still. intros s. split; reflexivity. Qed.

Lemma submits_send (env : Env World) tx signers :
  Q (tx, signers) -> submits 1 Q (send env tx signers).
Proof.
  intros H s. unfold send. destruct (sendAndConfirmTransaction env tx signers (world s)).
  exists [(tx, signers)]. cbn [snd sent deploy_info].
  repeat split; [reflexivity | repeat constructor; exact H].
Qed.

(** Sequencing; the rest of the script may rely on the value returned. *)
Lemma submits_bind {A B} n n' (m : M World A) (k : A -> M World B) :
  submits n Q m ->
  (forall a, (exists s, (m s).1 = Ok a) -> submits n' Q (k a)) ->
  submits (n + n') Q (m ≫= k).
Proof.
  intros Hm Hk s. unfold mbind, M_bind, bind.
  destruct (Hm s) as (new & E & L & F & D).
  destruct (m s) as [[a | e] s'] eqn:Ems; cbn [snd] in *.
  - assert (Ha : exists s0, (m s0).1 = Ok a) by (exists s; rewrite Ems; reflexivity).
    destruct (Hk a Ha s') as (new' & E' & L' & F' & D').
    exists (new ++ new'). rewrite E', E, app_assoc, length_app.
    repeat split; [lia | apply Forall_app; auto | congruence].
  - exists new. repeat split; [exact E | lia | exact F | exact D].
Qed.

Lemma submits_try {A} n n' (body : M World A) (handler : Exn -> M World A) :
  submits n Q body -> (forall e, submits n' Q (handler e)) ->
  submits (n + n') Q (try_catch body handler).
Proof.
  intros Hb Hh s. unfold try_catch.
  destruct (Hb s) as (new & E & L & F & D).
  destruct (body s) as [[a | e] s']; cbn [snd] in *.
  - exists new. repeat split; [exact E | lia | exact F | exact D].
  - destruct (Hh e s') as (new' & E' & L' & F' & D').
    exists (new ++ new'). rewrite E', E, app_assoc, length_app.
    repeat split; [lia | apply Forall_app; auto | congruence].
Qed.

End Submissions.

Lemma lift_ok {World A} (r : result A) (a : A) :
  (exists s : Run World, (lift r s).1 = Ok a) -> r = Ok a.
Proof. intros [s H]. exact H. Qed.

(** The commands of a script, one after the other. *)
Ltac script_step :=
  first
    [ apply submits_log
    | apply submits_lift
    | apply submits_ret
    | apply submits_throw
    | apply submits_generate
    | apply submits_read
    | apply submits_peek
    | eapply submits_bind; [| intros ? ?] ].

Section ScriptSubmissions.

Variable isOnCurve : Buffer -> bool.
Variable bs58_decode : string -> option Buffer.
Context {World : Type} (env : Env World).
Variable payer : PublicKey.

Lemma submits_load label (Q : Transaction * list PublicKey -> Prop) :
  submits 0 Q (load_deploy_info (World := World) bs58_decode payer label).
Proof.
  apply submits_still. intros s.
  destruct (load_deploy_info_frame bs58_decode payer label s) as (E & _ & _).
  split; [exact E |].
  unfold load_deploy_info, read_deploy_info.
  unfold mbind, M_bind, bind, lift, console_log, throw, mret, M_ret, ret.
  destruct (deploy_info s) as [info |] eqn:D; [| cbn; exact D].
  repeat match goal with
         | |- context [pubkeyFromString bs58_decode ?x] =>
             destruct (pubkeyFromString bs58_decode x); [| cbn; exact D]
         end.
  cbn [world console sent deploy_info].
  match goal with |- context [equals ?a ?b] => destruct (equals a b) end; cbn; exact D.
Qed.

Lemma loaded_buyer label keys :
  (exists s : Run World, (load_deploy_info bs58_decode payer label s).1 = Ok keys) ->
  keys.1.2 = payer.
Proof.
  intros [s H]. destruct (load_deploy_info_frame bs58_decode payer label s) as (_ & _ & K).
  destruct (K keys H) as (info & _ & _ & E). apply equals_true, E.
Qed.

Lemma wallet_signed_one (i : Instruction) :
  (forall k, In k (required_signers i) -> k = payer) -> wallet_signed payer ([i], [payer]).
Proof.
  intros H. split; [reflexivity |]. intros i' k [<- | []] Hk. left. symmetry. auto.
Qed.

Lemma wallet_signed_two (i j : Instruction) :
  (forall k, In k (required_signers i) -> k = payer) ->
  (forall k, In k (required_signers j) -> k = payer) ->
  wallet_signed payer ([i; j], [payer]).
Proof.
  intros Hi Hj. split; [reflexivity |].
  intros i' k [<- | [<- | []]] Hk; left; symmetry; auto.
Qed.

Lemma main_vault_submits :
  submits 3 (wallet_signed payer) (main_vault isOnCurve bs58_decode env payer).
Proof.
  unfold main_vault. eapply submits_weaken.
  - eapply submits_bind; [apply submits_load |].
    intros [[[programId mint] buyer] buyerAta] Hk. apply loaded_buyer in Hk.
    cbn [fst snd] in Hk. subst buyer.
    eapply submits_bind; [apply submits_lift |]. intros [vaultPda bump] _.
    eapply submits_bind; [apply submits_log |]. intros _ _.
    eapply submits_bind; [apply submits_lift |]. intros vaultAta _.
    eapply submits_bind; [apply submits_log |]. intros _ _.
    eapply submits_bind.
    { eapply submits_try.
      - eapply submits_bind; [| intros ? ?; apply submits_log].
        apply submits_send, wallet_signed_one.
        intros k [<- | []]. reflexivity.
      - intros e. eapply submits_bind; [apply submits_log | intros ? ?; apply submits_log]. }
    intros _ _.
    eapply submits_bind.
    { eapply submits_try.
      - eapply submits_bind; [| intros ? ?; apply submits_log].
        apply submits_send, wallet_signed_one.
        intros k [<- | []]. reflexivity.
      - intros e. eapply submits_bind; [apply submits_log | intros ? ?; apply submits_log]. }
    intros _ _.
    eapply submits_bind; [apply submits_lift |]. intros lockTokensIx Hl.
    apply lift_ok in Hl.
    pose proof (encodeLockTokensIx_inv _ _ _ _ _ _ _ _ Hl) as Ha.
    rewrite encodeLockTokensIx_ok in Hl by exact Ha. apply Ok_inj in Hl. subst lockTokensIx.
    eapply submits_bind.
    { apply submits_send, wallet_signed_one. intros k [<- | []]. reflexivity. }
    intros sig3 _. repeat script_step.
  - cbn. lia.
Qed.

Lemma main_escrow_submits :
  submits 2 (wallet_signed payer) (main_escrow isOnCurve bs58_decode env payer).
Proof.
  unfold main_escrow. eapply submits_weaken.
  - eapply submits_bind; [apply submits_load |].
    intros [[[programId mint] buyer] buyerAta] Hk. apply loaded_buyer in Hk.
    cbn [fst snd] in Hk. subst buyer.
    eapply submits_bind; [apply submits_generate |]. intros seller _.
    eapply submits_bind; [apply submits_log |]. intros _ _.
    eapply submits_bind; [apply submits_lift |]. intros [vaultPda bump] _.
    eapply submits_bind; [apply submits_log |]. intros _ _.
    eapply submits_bind; [apply submits_lift |]. intros [escrowPda bump'] _.
    eapply submits_bind; [apply submits_log |]. intros _ _.
    eapply submits_bind; [apply submits_lift |]. intros vaultAta _.
    eapply submits_bind; [apply submits_log |]. intros _ _.
    eapply submits_bind; [apply submits_lift |]. intros sellerAta _.
    eapply submits_bind; [apply submits_log |]. intros _ _.
    eapply submits_bind; [apply (submits_peek _ (fun w => Ok (Date_now env w / 1000))) |].
    intros nowSec _.
    eapply submits_bind; [apply submits_lift |]. intros initEscrowIx Hi.
    apply lift_ok in Hi.
    pose proof (encodeInitEscrowIx_inv _ _ _ _ _ _ _ _ _ Hi) as [Ha Hd].
    rewrite encodeInitEscrowIx_ok in Hi by assumption. apply Ok_inj in Hi.
    subst initEscrowIx.
    eapply submits_bind.
    { apply submits_send, wallet_signed_two.
      - intros k [<- | []]. reflexivity.
      - intros k [<- | []]. reflexivity. }
    intros sig1 _.
    eapply submits_bind; [apply submits_log |]. intros _ _.
    eapply submits_bind.
    { apply submits_send, wallet_signed_one. intros k [<- | []]. reflexivity. }
    intros sig2 _. repeat script_step.
  - cbn. lia.
Qed.

End ScriptSubmissions.

(** X5: whatever the file, the cluster and the clock, the vault script
    submits at most three transactions and the escrow script at most two;
    each of them is signed by the local wallet alone, and every signature
    its instructions ask for is the wallet's (the guard on the payer of the
    file sees to it); neither script writes the file. *)
Theorem later_scripts_sign_with_wallet
  (isOnCurve : Buffer -> bool) (bs58_decode : string -> option Buffer)
  (World : Type) (env : Env World) (payer : PublicKey) (s : Run World) :
  let vault_out := main_vault isOnCurve bs58_decode env payer s in
  let escrow_out := main_escrow isOnCurve bs58_decode env payer s in
  (exists new,
      sent vault_out.2 = sent s ++ new
      /\ (length new <= 3)%nat
      /\ Forall (wallet_signed payer) new
      /\ deploy_info vault_out.2 = deploy_info s)
  /\ (exists new,
        sent escrow_out.2 = sent s ++ new
        /\ (length new <= 2)%nat
        /\ Forall (wallet_signed payer) new
        /\ deploy_info escrow_out.2 = deploy_info s).
Proof.
  split.
  - apply (main_vault_submits isOnCurve bs58_decode env payer s).
  - apply (main_escrow_submits isOnCurve bs58_decode env payer s).
Qed.

(** ** The mint script, on every path *)

(** The transaction of the mint script. *)
Lemma mint_transaction_signed (payer mint : PublicKey) (rent : Z) (ata : PublicKey) :
  fully_signed
    ([ SystemProgram_createAccount payer mint rent MINT_SIZE TOKEN_PROGRAM_ID;
       createInitializeMint2Instruction mint 6 payer payer;
       createAssociatedTokenAccountInstruction payer ata payer mint
         TOKEN_PROGRAM_ID ASSOCIATED_TOKEN_PROGRAM_ID;
       createMintToInstruction mint ata payer 1000000000000 TOKEN_PROGRAM_ID ],
     [payer; mint]).
Proof.
  intros i k Hi Hk. cbn [fst snd] in Hi, Hk |- *.
  destruct Hi as [<- | [<- | [<- | [<- | []]]]]; cbn [required_signers] in Hk;
    repeat (destruct Hk as [<- | Hk]; [cbn; tauto |]); destruct Hk.
Qed.

Section MintScript.

Variable isOnCurve : Buffer -> bool.
Variable toBase58 : PublicKey -> string.
Context {World : Type} (env : Env World).
Variable payer : PublicKey.

(** Either nothing is submitted and the script throws, or the one
    transaction is submitted and its answer decides. *)
Lemma main_create_mint_cases (s : Run World) :
  let out := main_create_mint isOnCurve toBase58 env payer s in
  let mint := (Keypair_generate env (world s)).1 in
  let w0 := (Keypair_generate env (world s)).2 in
  ((exists e, out.1 = Throw e)
   /\ sent out.2 = sent s /\ deploy_info out.2 = deploy_info s)
  \/ (exists rent ata r w1 lines,
         getMinimumBalanceForRentExemptMint env w0 = Ok rent
         /\ getAssociatedTokenAddress isOnCurve mint payer false
              TOKEN_PROGRAM_ID ASSOCIATED_TOKEN_PROGRAM_ID = Ok ata
         /\ let tx :=
              [ SystemProgram_createAccount payer mint rent MINT_SIZE TOKEN_PROGRAM_ID;
                createInitializeMint2Instruction mint 6 payer payer;
                createAssociatedTokenAccountInstruction payer ata payer mint
                  TOKEN_PROGRAM_ID ASSOCIATED_TOKEN_PROGRAM_ID;
                createMintToInstruction mint ata payer 1000000000000 TOKEN_PROGRAM_ID ] in
            sendAndConfirmTransaction env tx [payer; mint] w0 = (r, w1)
            /\ out
               = (match r with Ok _ => Ok tt | Throw e => Throw e end,
                  mkRun w1 (console s ++ lines) (sent s ++ [(tx, [payer; mint])])
                    (match r with
                     | Ok _ =>
                         Some (mkInfo "AhtmyF1FM2NwGYECDzgjC6jbNtPnSRDFzhahugFfqkZW"
                                 (toBase58 mint) (toBase58 payer) (toBase58 ata)
                                 6 "Goblin Gold")
                     | Throw _ => deploy_info s
                     end))).
Proof.
  cbn zeta.
  destruct (Keypair_generate env (world s)) as [mint w0] eqn:Hg. cbn [fst snd].
  destruct (getMinimumBalanceForRentExemptMint env w0) as [rent | e] eqn:Hr.
  - destruct (getAssociatedTokenAddress isOnCurve mint payer false
                TOKEN_PROGRAM_ID ASSOCIATED_TOKEN_PROGRAM_ID) as [ata | e] eqn:Ha.
    + right.
      destruct (sendAndConfirmTransaction env
                  [ SystemProgram_createAccount payer mint rent MINT_SIZE TOKEN_PROGRAM_ID;
                    createInitializeMint2Instruction mint 6 payer payer;
                    createAssociatedTokenAccountInstruction payer ata payer mint
                      TOKEN_PROGRAM_ID ASSOCIATED_TOKEN_PROGRAM_ID;
                    createMintToInstruction mint ata payer 1000000000000 TOKEN_PROGRAM_ID ]
                  [payer; mint] w0) as [r w1] eqn:Hs.
      destruct (main_create_mint_run isOnCurve env payer toBase58 s mint w0 rent ata r w1
                  Hg Hr Ha Hs) as [lines E].
      exists rent, ata, r, w1, lines. auto.
    + left. unfold main_create_mint, logPubkeys.
      unfold mbind, M_bind, bind, lift, console_log, generate.
      cbn [world console sent deploy_info]. rewrite Hg.
      cbn [world console sent deploy_info]. rewrite Hr, Ha. cbn. eauto.
  - left. unfold main_create_mint, logPubkeys.
    unfold mbind, M_bind, bind, lift, console_log, generate.
    cbn [world console sent deploy_info]. rewrite Hg.
    cbn [world console sent deploy_info]. rewrite Hr. cbn. eauto.
Qed.

End MintScript.

(** X6: on every path the mint script submits at most one transaction; it
    is signed by the wallet and the fresh mint key, which are the signatures
    its four instructions ask for.  The file is left as it was whenever the
    script throws.  When the script returns, the submission was confirmed,
    and the file names the program, the fresh mint, the wallet and the
    wallet's holding account for that mint, with 6 decimals. *)
Theorem mint_script_outcomes
  (isOnCurve : Buffer -> bool) (toBase58 : PublicKey -> string)
  (World : Type) (env : Env World) (payer : PublicKey) (s : Run World) :
  let out := main_create_mint isOnCurve toBase58 env payer s in
  let mint := (Keypair_generate env (world s)).1 in
  let w0 := (Keypair_generate env (world s)).2 in
  (exists new,
      sent out.2 = sent s ++ new
      /\ (length new <= 1)%nat
      /\ Forall (fun t => t.2 = [payer; mint] /\ fully_signed t) new)
  /\ (forall e, out.1 = Throw e -> deploy_info out.2 = deploy_info s)
  /\ (out.1 = Ok tt ->
      exists rent ata sig,
        getMinimumBalanceForRentExemptMint env w0 = Ok rent
        /\ getAssociatedTokenAddress isOnCurve mint payer false
             TOKEN_PROGRAM_ID ASSOCIATED_TOKEN_PROGRAM_ID = Ok ata
        /\ let tx :=
             [ SystemProgram_createAccount payer mint rent MINT_SIZE TOKEN_PROGRAM_ID;
               createInitializeMint2Instruction mint 6 payer payer;
               createAssociatedTokenAccountInstruction payer ata payer mint
                 TOKEN_PROGRAM_ID ASSOCIATED_TOKEN_PROGRAM_ID;
               createMintToInstruction mint ata payer 1000000000000 TOKEN_PROGRAM_ID ] in
           sent out.2 = sent s ++ [(tx, [payer; mint])]
           /\ (sendAndConfirmTransaction env tx [payer; mint] w0).1 = Ok sig
           /\ deploy_info out.2
              = Some (mkInfo "AhtmyF1FM2NwGYECDzgjC6jbNtPnSRDFzhahugFfqkZW"
                        (toBase58 mint) (toBase58 payer) (toBase58 ata) 6 "Goblin Gold")).
Proof.
  cbn zeta.
  destruct (main_create_mint_cases isOnCurve toBase58 env payer s)
    as [([e He] & Hs & Hd) | (rent & ata & r & w1 & lines & Hr & Ha & Hx & E)].
  - split; [| split].
    + exists []. rewrite app_nil_r. repeat split; [exact Hs | cbn; lia | constructor].
    + intros _ _. exact Hd.
    + intros H. rewrite He in H. discriminate H.
  - rewrite E. cbn [fst snd sent deploy_info]. split; [| split].
    + eexists. split; [reflexivity |]. split; [cbn; lia |].
      constructor; [| constructor]. split; [reflexivity |].
      apply mint_transaction_signed.
    + intros e H. destruct r; [discriminate H | reflexivity].
    + intros H. destruct r as [sig | e]; [| discriminate H].
      exists rent, ata, sig. rewrite Hx. auto 7.
Qed.

(** ** Addresses that own holding accounts *)

Lemma concat_seeds_errors seeds buffer e :
  concat_seeds seeds buffer = Throw e -> e = TypeError "Max seed length exceeded".
Proof.
  revert buffer. induction seeds as [| seed rest IH]; intros buffer H.
  - discriminate H.
  - cbn [concat_seeds] in H.
    destruct (MAX_SEED_LENGTH <? length seed)%nat; [congruence | eapply IH, H].
Qed.

Section Owners.

Variable isOnCurve : Buffer -> bool.

Lemma findProgramAddress_errors seeds programId e :
  findProgramAddress isOnCurve seeds programId = Throw e ->
  e = TypeError "Max seed length exceeded"
  \/ e = Error "Unable to find a viable program address nonce".
Proof.
  unfold findProgramAddress. generalize 255%nat. intros n. induction n as [| n IH].
  - cbn [find_nonce]. intros H. right. congruence.
  - cbn [find_nonce]. unfold createProgramAddressSync.
    destruct (concat_seeds (seeds ++ [[Z.of_nat (S n)]]) []) as [buffer | err] eqn:C.
    + cbn [mbind result_bind].
      destruct (isOnCurve _); [cbn [is_TypeError]; exact IH | discriminate].
    + cbn [mbind result_bind]. apply concat_seeds_errors in C. subst err.
      cbn [is_TypeError]. intros H. left. congruence.
Qed.

Lemma derived_owner mint owner bump seeds programId tokenProgram ataProgram :
  findProgramAddress isOnCurve seeds programId = Ok (owner, bump) ->
  getAssociatedTokenAddress isOnCurve mint owner false tokenProgram ataProgram
  = Throw TokenOwnerOffCurveError
  /\ getAssociatedTokenAddress isOnCurve mint owner true tokenProgram ataProgram
     <> Throw TokenOwnerOffCurveError.
Proof.
  intros H. apply findProgramAddress_inv in H as [_ Off].
  unfold getAssociatedTokenAddress. rewrite Off. cbn [negb andb].
  split; [reflexivity |].
  destruct (findProgramAddress isOnCurve _ ataProgram) as [[a b] | e] eqn:E.
  - discriminate.
  - cbn [mbind result_bind]. apply findProgramAddress_errors in E as [-> | ->]; discriminate.
Qed.

End Owners.

(** X7: an address returned by [deriveVaultPda] or [deriveEscrowPda] cannot
    own a holding account unless the caller allows owners off the curve:
    without the flag [getAssociatedTokenAddress] throws
    TokenOwnerOffCurveError, for every mint and every pair of programs; with
    the flag, as the scripts call it for the vault, it never throws this
    error. *)
Theorem derived_address_needs_flag
  (isOnCurve : Buffer -> bool)
  (programId mint authority vaultPk buyerPk sellerPk owner : PublicKey) (bump : Z) :
  deriveVaultPda isOnCurve programId mint authority = Ok (owner, bump)
  \/ deriveEscrowPda isOnCurve programId vaultPk buyerPk sellerPk = Ok (owner, bump) ->
  forall anyMint tokenProgram ataProgram,
    getAssociatedTokenAddress isOnCurve anyMint owner false tokenProgram ataProgram
    = Throw TokenOwnerOffCurveError
    /\ getAssociatedTokenAddress isOnCurve anyMint owner true tokenProgram ataProgram
       <> Throw TokenOwnerOffCurveError.
Proof.
  intros [H | H] anyMint tokenProgram ataProgram;
    eapply derived_owner; exact H.
Qed.

Lemma derived_address_needs_flag_witness :
  getAssociatedTokenAddress ed25519_isOnCurve example_mint example_vault false
    TOKEN_PROGRAM_ID ASSOCIATED_TOKEN_PROGRAM_ID = Throw TokenOwnerOffCurveError.
Proof.
  destruct example_addresses as (Av & _).
  apply (derived_address_needs_flag ed25519_isOnCurve example_program example_mint
           example_payer example_vault example_payer example_seller example_vault 254
           (or_introl Av)).
Defined.

(** ** Keys as text: the base-58 codec *)

Lemma alphabet_digits :
  forallb
    (fun n =>
       let c := default "1"%char (String.get n base58_alphabet) in
       match index_in c base58_alphabet 0 with
       | Some d => (d =? Z.of_nat n) && (if Ascii.eqb c "1" then (n =? 0)%nat else true)
       | None => false
       end)
    (seq 0 58) = true.
Proof. reflexivity. Qed.

(** Every digit has its character, and only the digit 0 is written [1]. *)
Lemma alphabet_digit d :
  0 <= d < 58 ->
  index_in (default "1"%char (String.get (Z.to_nat d) base58_alphabet)) base58_alphabet 0
  = Some d
  /\ (default "1"%char (String.get (Z.to_nat d) base58_alphabet) = "1"%char -> d = 0).
Proof.
  intros Hd. pose proof alphabet_digits as H.
  rewrite forallb_forall in H. specialize (H (Z.to_nat d)).
  cbv zeta in H.
  destruct (index_in _ base58_alphabet 0) as [d' |].
  - assert (Hin : In (Z.to_nat d) (seq 0 58)) by (apply in_seq; lia).
    apply H in Hin. apply andb_prop in Hin as [H1 H2].
    apply Z.eqb_eq in H1. rewrite Z2Nat.id in H1 by lia. split; [congruence |].
    intros E. rewrite E in H2. cbn in H2. apply Nat.eqb_eq in H2. lia.
  - assert (Hin : In (Z.to_nat d) (seq 0 58)) by (apply in_seq; lia).
    apply H in Hin. discriminate Hin.
Qed.

Lemma base58_digits_zero fuel acc : base58_digits fuel 0 acc = acc.
Proof. destruct fuel; reflexivity. Qed.

(** Reading the digits written for [n] gives [n] back. *)
Lemma digits_number fuel :
  forall n acc,
    0 <= n < 58 ^ Z.of_nat fuel ->
    exists k : nat,
      forall a,
        base58_number (base58_digits fuel n acc) a
        = base58_number acc (a * 58 ^ Z.of_nat k + n).
Proof.
  induction fuel as [| f IH]; intros n acc Hn.
  - exists 0%nat. intros a. cbn [base58_digits]. f_equal.
    change (58 ^ Z.of_nat 0) with 1 in *. lia.
  - cbn [base58_digits]. destruct (Z.leb_spec n 0) as [Hz | Hp].
    + exists 0%nat. intros a. f_equal. change (58 ^ Z.of_nat 0) with 1. lia.
    + cbv zeta.
      rewrite Nat2Z.inj_succ, Z.pow_succ_r in Hn by lia.
      destruct (IH (n / 58)
                  (String (default "1"%char
                             (String.get (Z.to_nat (n mod 58)) base58_alphabet)) acc))
        as [k Hk].
      { split; [apply Z.div_pos; lia | apply Z.div_lt_upper_bound; lia]. }
      exists (S k). intros a. rewrite Hk. cbn [base58_number].
      rewrite (proj1 (alphabet_digit (n mod 58) ltac:(apply Z.mod_pos_bound; lia))).
      f_equal. rewrite Nat2Z.inj_succ, Z.pow_succ_r by lia.
      pose proof (Z.div_mod n 58 ltac:(lia)) as E.
      rewrite E at 3. ring.
Qed.

Lemma leading_ones_head c r :
  c <> "1"%char -> leading_ones (String c r) = (0%nat, String c r).
Proof.
  intros H. destruct c as [[] [] [] [] [] [] [] []]; try reflexivity.
  exfalso. apply H. reflexivity.
Qed.

(** The digits written for a positive number do not start with [1]. *)
Lemma digits_head fuel :
  forall n acc,
    0 < n < 58 ^ Z.of_nat fuel ->
    exists c r, base58_digits fuel n acc = String c r /\ c <> "1"%char.
Proof.
  induction fuel as [| f IH]; intros n acc Hn.
  - change (58 ^ Z.of_nat 0) with 1 in Hn. lia.
  - cbn [base58_digits]. destruct (Z.leb_spec n 0) as [Hz | Hp]; [lia |].
    cbv zeta. rewrite Nat2Z.inj_succ, Z.pow_succ_r in Hn by lia.
    destruct (Z.eq_dec (n / 58) 0) as [E | E].
    + rewrite E, base58_digits_zero. eexists _, _. split; [reflexivity |].
      intros C. apply alphabet_digit in C; [| apply Z.mod_pos_bound; lia].
      pose proof (Z.div_mod n 58 ltac:(lia)). lia.
    + apply IH. split.
      * pose proof (Z.div_pos n 58 ltac:(lia) ltac:(lia)). lia.
      * apply Z.div_lt_upper_bound; lia.
Qed.

Lemma leading_ones_repeat k t :
  leading_ones (string_of_list_ascii (repeat "1"%char k) ++ t)
  = ((k + (leading_ones t).1)%nat, (leading_ones t).2).
Proof.
  induction k as [| k IH].
  - change (leading_ones t = ((leading_ones t).1, (leading_ones t).2)).
    destruct (leading_ones t). reflexivity.
  - change (leading_ones (String "1" (string_of_list_ascii (repeat "1"%char k) ++ t))
            = ((S k + (leading_ones t).1)%nat, (leading_ones t).2)).
    cbn [leading_ones]. rewrite IH. reflexivity.
Qed.

Lemma be_word_acc b :
  forall a,
    fold_left (fun acc x => acc * 256 + x) b a
    = a * 256 ^ Z.of_nat (length b) + SHA256.be_word b.
Proof.
  unfold SHA256.be_word. induction b as [| x r IH]; intros a.
  - cbn [fold_left length]. change (256 ^ Z.of_nat 0) with 1. lia.
  - cbn [fold_left length]. rewrite IH, (IH (0 * 256 + x)).
    rewrite Nat2Z.inj_succ, Z.pow_succ_r by lia. ring.
Qed.

Lemma be_word_cons x r :
  SHA256.be_word (x :: r) = x * 256 ^ Z.of_nat (length r) + SHA256.be_word r.
Proof.
  unfold SHA256.be_word at 1. cbn [fold_left]. rewrite be_word_acc. ring.
Qed.

Lemma be_word_snoc b x : SHA256.be_word (b ++ [x]) = SHA256.be_word b * 256 + x.
Proof. unfold SHA256.be_word. rewrite fold_left_app. reflexivity. Qed.

Lemma be_word_bound b :
  Forall (fun x => 0 <= x < 256) b ->
  0 <= SHA256.be_word b < 256 ^ Z.of_nat (length b).
Proof.
  induction 1 as [| x r Hx Hr IH].
  - cbn. lia.
  - rewrite be_word_cons. cbn [length].
    rewrite Nat2Z.inj_succ, Z.pow_succ_r by lia.
    pose proof (Z.pow_pos_nonneg 256 (Z.of_nat (length r)) ltac:(lia) ltac:(lia)).
    nia.
Qed.

Lemma be_bytes_S k v :
  SHA256.be_bytes (S k) v = SHA256.be_bytes k (v / 256) ++ [v mod 256].
Proof.
  unfold SHA256.be_bytes.
  replace (rev (seq 0 (S k))) with (map S (rev (seq 0 k)) ++ [0%nat]).
  - rewrite map_app, map_map. f_equal.
    + apply map_ext. intros i.
      change (v / 256) with (v / 2 ^ 8).
      rewrite <- (Z.shiftr_div_pow2 v 8), Z.shiftr_shiftr by lia.
      do 2 f_equal. lia.
    + cbn [map]. rewrite Z.mul_0_r, Z.shiftr_0_r.
      change 255 with (Z.ones 8). rewrite Z.land_ones by lia. reflexivity.
  - rewrite map_rev, seq_shift. cbn [seq rev]. reflexivity.
Qed.

Lemma be_bytes_be_word b :
  Forall (fun x => 0 <= x < 256) b ->
  SHA256.be_bytes (length b) (SHA256.be_word b) = b.
Proof.
  induction b as [| x b IH] using rev_ind; intros H; [reflexivity |].
  apply Forall_app in H as [Hb Hx]. inversion Hx as [| ? ? Hr _]; subst.
  rewrite length_app, Nat.add_1_r, be_bytes_S, be_word_snoc.
  replace ((SHA256.be_word b * 256 + x) / 256) with (SHA256.be_word b)
    by (Z.div_mod_to_equations; lia).
  replace ((SHA256.be_word b * 256 + x) mod 256) with x
    by (Z.div_mod_to_equations; lia).
  rewrite IH by exact Hb. reflexivity.
Qed.

Lemma be_minimal_word x r :
  0 < x < 256 -> Forall (fun x => 0 <= x < 256) r ->
  be_minimal (SHA256.be_word (x :: r)) = x :: r.
Proof.
  intros Hx Hr.
  assert (Hall : Forall (fun x => 0 <= x < 256) (x :: r)) by (constructor; [lia | exact Hr]).
  pose proof (be_word_bound _ Hall) as [_ Hhi].
  pose proof (be_word_bound _ Hr) as [Hlo' _].
  pose proof (be_word_cons x r) as E.
  pose proof (Z.pow_pos_nonneg 256 (Z.of_nat (length r)) ltac:(lia) ltac:(lia)) as Hp.
  assert (Hlo : 256 ^ Z.of_nat (length r) <= SHA256.be_word (x :: r)) by nia.
  unfold be_minimal. destruct (Z.leb_spec (SHA256.be_word (x :: r)) 0) as [Hz | Hpos]; [lia |].
  change 256 with (2 ^ 8) in Hlo, Hhi. rewrite <- Z.pow_mul_r in Hlo, Hhi by lia.
  apply Z.log2_le_pow2 in Hlo; [| lia]. apply Z.log2_lt_pow2 in Hhi; [| lia].
  cbn [length] in Hhi. rewrite Nat2Z.inj_succ in Hhi.
  replace (Z.to_nat (Z.log2 (SHA256.be_word (x :: r)) / 8 + 1)) with (length (x :: r)).
  - apply be_bytes_be_word, Hall.
  - cbn [length].
    replace (Z.log2 (SHA256.be_word (x :: r)) / 8) with (Z.of_nat (length r))
      by (Z.div_mod_to_equations; lia).
    lia.
Qed.

Lemma be_minimal_drop b :
  Forall (fun x => 0 <= x < 256) b ->
  be_minimal (SHA256.be_word b) = drop (leading_zeroes b) b.
Proof.
  induction 1 as [| x r Hx Hr IH]; [reflexivity |].
  destruct x as [| p | p].
  - cbn [leading_zeroes drop]. rewrite <- IH. reflexivity.
  - cbn [leading_zeroes drop]. apply be_minimal_word; [lia | exact Hr].
  - lia.
Qed.

Lemma zeroes_drop b : repeat 0 (leading_zeroes b) ++ drop (leading_zeroes b) b = b.
Proof.
  induction b as [| x r IH]; [reflexivity |].
  destruct x as [| p | p]; cbn [leading_zeroes repeat drop app]; [| reflexivity ..].
  f_equal. exact IH.
Qed.

(** Decoding what was encoded gives the bytes back. *)
Lemma base58_round_trip b :
  Forall (fun x => 0 <= x < 256) b -> base58_decode (base58_encode b) = Some b.
Proof.
  intros Hb. unfold base58_decode, base58_encode. rewrite leading_ones_repeat.
  pose proof (be_word_bound b Hb) as [Hlo Hhi].
  assert (Hfuel : 0 <= SHA256.be_word b < 58 ^ Z.of_nat (2 * length b)).
  { split; [exact Hlo |]. eapply Z.lt_le_trans; [exact Hhi |].
    rewrite Nat2Z.inj_mul, Z.pow_mul_r by lia.
    apply Z.pow_le_mono_l. change (58 ^ Z.of_nat 2) with 3364. lia. }
  assert (Hhead : leading_ones (base58_digits (2 * length b) (SHA256.be_word b) "")
                  = (0%nat, base58_digits (2 * length b) (SHA256.be_word b) "")).
  { destruct (Z.eq_dec (SHA256.be_word b) 0) as [E | E].
    - rewrite E, base58_digits_zero. reflexivity.
    - destruct (digits_head (2 * length b) (SHA256.be_word b) "" ltac:(lia))
        as (c & r & -> & Hc).
      apply leading_ones_head, Hc. }
  rewrite Hhead. cbn [fst snd]. rewrite Nat.add_0_r.
  destruct (digits_number (2 * length b) (SHA256.be_word b) "" Hfuel) as [k Hk].
  rewrite Hk. cbn [base58_number]. rewrite Z.mul_0_l, Z.add_0_l.
  rewrite be_minimal_drop by exact Hb. rewrite zeroes_drop. reflexivity.
Qed.

Lemma base58_number_bad r :
  forall a c,
    In c (list_ascii_of_string r) -> index_in c base58_alphabet 0 = None ->
    base58_number r a = None.
Proof.
  induction r as [| d r IH]; intros a c Hin Hc; [destruct Hin |].
  cbn [list_ascii_of_string] in Hin. cbn [base58_number].
  destruct Hin as [-> | Hin]; [rewrite Hc; reflexivity |].
  destruct (index_in d base58_alphabet 0); [eapply IH; eassumption | reflexivity].
Qed.

Lemma leading_ones_rest s c :
  In c (list_ascii_of_string s) -> c <> "1"%char ->
  In c (list_ascii_of_string (leading_ones s).2).
Proof.
  induction s as [| d r IH]; intros Hin Hc; [destruct Hin |].
  destruct (ascii_dec d "1") as [-> | Hd].
  - cbn [leading_ones]. destruct (leading_ones r) as [n t] eqn:E. cbn [snd] in *.
    cbn [list_ascii_of_string] in Hin. destruct Hin as [<- | Hin]; [congruence | auto].
  - rewrite leading_ones_head by exact Hd. exact Hin.
Qed.

Lemma base58_decode_bad s c :
  In c (list_ascii_of_string s) -> index_in c base58_alphabet 0 = None ->
  base58_decode s = None.
Proof.
  intros Hin Hc. unfold base58_decode.
  assert (Hne : c <> "1"%char) by (intros ->; discriminate Hc).
  pose proof (leading_ones_rest s c Hin Hne) as Hr.
  destruct (leading_ones s) as [zeroes rest]. cbn [snd] in Hr.
  rewrite (base58_number_bad rest 0 c Hr Hc). reflexivity.
Qed.

Lemma key_round_trip k :
  key_bytes k -> pubkeyFromString base58_decode (toBase58_ref k) = Ok k.
Proof.
  intros [Hw Hb]. apply decoded_key; [| exact Hw].
  unfold toBase58_ref. apply base58_round_trip, Hb.
Qed.

(** X8: a key of 32 bytes written with [toBase58] is read back unchanged by
    [pubkeyFromString]; the text of bytes that are not 32 in number is
    refused with "Invalid public key input"; a text that holds a character
    outside the alphabet is refused with "Non-base58 character"; and,
    whatever the decoder, a key that [pubkeyFromString] returns has 32
    bytes, the ones decoded. *)
Theorem key_text_round_trip :
  (forall k, key_bytes k -> pubkeyFromString base58_decode (toBase58_ref k) = Ok k)
  /\ (forall decode s k,
         pubkeyFromString decode s = Ok k ->
         wf_key k /\ decode s = Some (toBuffer k))
  /\ (forall b,
         Forall (fun x => 0 <= x < 256) b -> length b <> PUBLIC_KEY_LENGTH ->
         pubkeyFromString base58_decode (base58_encode b)
         = Throw (Error "Invalid public key input"))
  /\ (forall s c,
         In c (list_ascii_of_string s) -> index_in c base58_alphabet 0 = None ->
         pubkeyFromString base58_decode s = Throw (Error "Non-base58 character")).
Proof.
  split; [exact key_round_trip |]. split; [| split].
  - intros decode s k. unfold pubkeyFromString, PublicKey_of_string.
    destruct (decode s) as [decoded |]; [| discriminate].
    destruct (bool_decide (length decoded = PUBLIC_KEY_LENGTH)) eqn:L; [| discriminate].
    intros H. apply Ok_inj in H. subst k. apply bool_decide_eq_true_1 in L. auto.
  - intros b Hb Hl. unfold pubkeyFromString, PublicKey_of_string.
    rewrite base58_round_trip by exact Hb.
    rewrite bool_decide_eq_false_2 by exact Hl. reflexivity.
  - intros s c Hin Hc. unfold pubkeyFromString, PublicKey_of_string.
    rewrite (base58_decode_bad s c Hin Hc). reflexivity.
Qed.

(** ** From the mint script to the later scripts *)

Lemma land_byte x : 0 <= Z.land x 255 < 256.
Proof.
  change 255 with (Z.ones 8). rewrite Z.land_ones by lia.
  apply Z.mod_pos_bound. lia.
Qed.

Lemma sha256_bytes m : Forall (fun x => 0 <= x < 256) (SHA256.sha256 m).
Proof.
  unfold SHA256.sha256, SHA256.digest_of, SHA256.be32. cbn [app].
  repeat (constructor; [apply land_byte |]). constructor.
Qed.

(** A derived address is a key of 32 bytes. *)
Lemma getAssociatedTokenAddress_bytes isOnCurve mint owner allow programId ataProgramId a :
  getAssociatedTokenAddress isOnCurve mint owner allow programId ataProgramId = Ok a ->
  key_bytes a.
Proof.
  intros H. split; [eapply getAssociatedTokenAddress_inv, H |].
  unfold getAssociatedTokenAddress in H.
  destruct (negb allow && negb (isOnCurve (toBuffer owner))); [discriminate |].
  destruct (findProgramAddress isOnCurve _ ataProgramId) as [[a' b] |] eqn:E;
    [| discriminate].
  cbn [mbind result_bind] in H. apply Ok_inj in H. subst a'.
  unfold findProgramAddress in E. apply find_nonce_inv in E as [_ E].
  apply createProgramAddressSync_inv in E as [-> _]. apply sha256_bytes.
Qed.

(** X9: the file written by a mint script that returned is accepted by the
    key loading of both later scripts run with the same wallet: with the
    wallet and the fresh mint keys of 32 bytes, the program, the mint, the
    wallet and the wallet's holding account are read back as the mint script
    had them, and the guard on the payer passes. *)
Theorem minted_file_is_read_back
  (isOnCurve : Buffer -> bool) (World : Type) (env : Env World) (payer : PublicKey)
  (s : Run World) (label : string) :
  key_bytes payer ->
  key_bytes (Keypair_generate env (world s)).1 ->
  let out := main_create_mint isOnCurve toBase58_ref env payer s in
  let mint := (Keypair_generate env (world s)).1 in
  out.1 = Ok tt ->
  exists ata,
    getAssociatedTokenAddress isOnCurve mint payer false
      TOKEN_PROGRAM_ID ASSOCIATED_TOKEN_PROGRAM_ID = Ok ata
    /\ (load_deploy_info base58_decode payer label out.2).1
       = Ok (example_program, mint, payer, ata).
Proof.
  intros Hp Hm out mint Hok. subst out mint.
  destruct (main_create_mint_cases isOnCurve toBase58_ref env payer s)
    as [([e He] & _) | (rent & ata & r & w1 & lines & Hr & Ha & Hx & E)];
    [rewrite He in Hok; discriminate Hok |].
  rewrite E in Hok |- *. cbn [fst snd] in Hok |- *.
  destruct r as [sig | e]; [| discriminate Hok].
  exists ata. split; [exact Ha |].
  pose proof (getAssociatedTokenAddress_bytes _ _ _ _ _ _ _ Ha) as Hab.
  destruct example_keys as (Kp & _).
  erewrite load_deploy_info_run;
    [| reflexivity | exact Kp | apply key_round_trip, Hm | apply key_round_trip, Hp
     | apply key_round_trip, Hab ].
  cbn [fst]. unfold equals. rewrite bool_decide_eq_true_2 by reflexivity. reflexivity.
Qed.

Lemma minted_file_is_read_back_witness :
  (load_deploy_info base58_decode example_payer "Buyer:"
     (main_create_mint ed25519_isOnCurve toBase58_ref
        (scripted_env example_mint 1700000000123 1461600) example_payer
        (mkRun [] [] [] None)).2).1
  = Ok (example_program, example_mint, example_payer, example_payer_ata).
Proof.
  destruct example_addresses as (_ & _ & _ & _ & Apayer).
  assert (Hp : key_bytes example_payer)
    by (split; [reflexivity | repeat (constructor; [lia |]); constructor]).
  assert (Hm : key_bytes example_mint)
    by (split; [reflexivity | repeat (constructor; [lia |]); constructor]).
  destruct (main_create_mint_run ed25519_isOnCurve
              (scripted_env example_mint 1700000000123 1461600) example_payer toBase58_ref
              (mkRun [] [] [] None) example_mint [] 1461600 example_payer_ata
              (Ok "confirmed"%string) [] eq_refl eq_refl Apayer eq_refl) as [lines E].
  destruct (minted_file_is_read_back ed25519_isOnCurve (list (result Signature))
              (scripted_env example_mint 1700000000123 1461600) example_payer
              (mkRun [] [] [] None) "Buyer:" Hp Hm) as (ata & Ha & L).
  - rewrite E. reflexivity.
  - cbn [scripted_env Keypair_generate world fst] in Ha. rewrite Apayer in Ha.
    apply Ok_inj in Ha. subst ata. exact L.
Defined.

(** ** A file that cannot be read *)

(** X10: when the file is missing, or one of its four keys is not the text
    of a key, each of the two later scripts throws before it logs or submits
    anything: the run is left exactly as it was. *)
Theorem unreadable_file_stops_scripts
  (isOnCurve : Buffer -> bool) (bs58_decode : string -> option Buffer)
  (World : Type) (env : Env World) (payer : PublicKey) (s : Run World) :
  (forall info,
      deploy_info s = Some info ->
      exists field e,
        In field [info_programId info; info_mint info; info_payer info;
                  info_payerAta info]
        /\ pubkeyFromString bs58_decode field = Throw e) ->
  exists e,
    main_vault isOnCurve bs58_decode env payer s = (Throw e, s)
    /\ main_escrow isOnCurve bs58_decode env payer s = (Throw e, s)
    /\ (deploy_info s = None \/
        exists info field,
          deploy_info s = Some info
          /\ In field [info_programId info; info_mint info; info_payer info;
                       info_payerAta info]
          /\ pubkeyFromString bs58_decode field = Throw e).
Proof.
  intros H.
  assert (L : forall label,
             exists e,
               load_deploy_info (World := World) bs58_decode payer label s = (Throw e, s)
               /\ (e = Error "ENOENT: no such file or directory" /\ deploy_info s = None
                   \/ exists info field,
                       deploy_info s = Some info
                       /\ In field [info_programId info; info_mint info; info_payer info;
                                    info_payerAta info]
                       /\ pubkeyFromString bs58_decode field = Throw e)).
  { intros label. unfold load_deploy_info, read_deploy_info.
    unfold mbind, M_bind, bind, lift.
    destruct (deploy_info s) as [info |] eqn:D; [| eauto 6].
    destruct (H info eq_refl) as (field & e & Hin & He).
    destruct (pubkeyFromString bs58_decode (info_programId info)) as [k1 | e1] eqn:E1;
      [| exists e1; split; [reflexivity |]; right; exists info, (info_programId info);
         (split; [reflexivity |]); (split; [cbn; tauto | assumption])].
    destruct (pubkeyFromString bs58_decode (info_mint info)) as [k2 | e2] eqn:E2;
      [| exists e2; split; [reflexivity |]; right; exists info, (info_mint info);
         (split; [reflexivity |]); (split; [cbn; tauto | assumption])].
    destruct (pubkeyFromString bs58_decode (info_payer info)) as [k3 | e3] eqn:E3;
      [| exists e3; split; [reflexivity |]; right; exists info, (info_payer info);
         (split; [reflexivity |]); (split; [cbn; tauto | assumption])].
    destruct (pubkeyFromString bs58_decode (info_payerAta info)) as [k4 | e4] eqn:E4;
      [| exists e4; split; [reflexivity |]; right; exists info, (info_payerAta info);
         (split; [reflexivity |]); (split; [cbn; tauto | assumption])].
    exfalso. cbn [In] in Hin.
    destruct Hin as [<- | [<- | [<- | [<- | []]]]]; congruence. }
  destruct (L "Buyer (authority):"%string) as (e & Lv & Hv).
  destruct (L "Buyer:"%string) as (e' & Le & He).
  assert (e' = e).
  { unfold load_deploy_info, read_deploy_info in Lv, Le.
    unfold mbind, M_bind, bind, lift in Lv, Le.
    destruct (deploy_info s) as [info |]; [| congruence].
    repeat match type of Lv with
           | context [pubkeyFromString bs58_decode ?x] =>
               destruct (pubkeyFromString bs58_decode x); [| congruence]
           end.
    exfalso. clear -Lv. unfold console_log in Lv. cbn in Lv.
    match type of Lv with context [equals ?a ?b] => destruct (equals a b) end;
      cbn in Lv; inversion Lv as [[E1 E2]];
      apply (f_equal (fun r => length (console r))) in E2; cbn in E2;
      rewrite !length_app in E2; cbn in E2; lia. }
  subst e'. exists e. split; [apply main_vault_load_throw, Lv |].
  split; [apply main_escrow_load_throw, Le |].
  destruct Hv as [[_ D] | Hv]; [left; exact D | right; exact Hv].
Qed.

Lemma unreadable_file_stops_scripts_witness :
  exists e,
    main_vault ed25519_isOnCurve base58_decode
      (scripted_env example_seller 1700000000123 1461600) example_payer
      (mkRun [] [] [] None)
    = (Throw e, mkRun [] [] [] None).
Proof.
  destruct (unreadable_file_stops_scripts ed25519_isOnCurve base58_decode
              (list (result Signature))
              (scripted_env example_seller 1700000000123 1461600) example_payer
              (mkRun [] [] [] None)) as (e & V & _).
  - intros info H. discriminate H.
  - exists e. exact V.
Defined.

(** ** The errors a script can end with *)

Section Throws.

Context {World : Type}.
Variable P : Exn -> Prop.

Lemma throws_bind {A B} (m : M World A) (k : A -> M World B) :
  throws_only P m ->
  (forall a, (exists s, (m s).1 = Ok a) -> throws_only P (k a)) ->
  throws_only P (m ≫= k).
Proof.
  intros Hm Hk s e. unfold mbind, M_bind, bind.
  destruct (m s) as [[a | e'] s'] eqn:E.
  - apply Hk. exists s. rewrite E. reflexivity.
  - cbn [fst]. intros H. apply (Hm s). rewrite E. cbn [fst]. congruence.
Qed.

Lemma throws_never {A} (m : M World A) :
  (forall s, exists a, (m s).1 = Ok a) -> throws_only P m.
Proof. intros H s e He. destruct (H s) as [a Ha]. congruence. Qed.

Lemma throws_log line : throws_only P (console_log (World := World) line).
Proof. apply throws_never. intros s. exists tt. reflexivity. Qed.

Lemma throws_generate (env : Env World) : throws_only P (generate env).
Proof.
  apply throws_never. intros s. unfold generate.
  destruct (Keypair_generate env (world s)) as [k w]. exists k. reflexivity.
Qed.

Lemma throws_lift {A} (r : result A) :
  (forall e, r = Throw e -> P e) -> throws_only P (lift (World := World) r).
Proof. intros H s e He. apply H, He. Qed.

Lemma throws_try {A} (body : M World A) (handler : Exn -> M World A) :
  (forall e, throws_only P (handler e)) -> throws_only P (try_catch body handler).
Proof.
  intros H s e. unfold try_catch. destruct (body s) as [[a | e'] s'].
  - discriminate.
  - apply H.
Qed.

Lemma throws_send (env : Env World) tx signers :
  (forall w e, (sendAndConfirmTransaction env tx signers w).1 = Throw e -> P e) ->
  throws_only P (send env tx signers).
Proof.
  intros H s e. unfold send.
  destruct (sendAndConfirmTransaction env tx signers (world s)) as [r w] eqn:E.
  cbn [fst]. intros ->. apply (H (world s)). rewrite E. reflexivity.
Qed.

End Throws.

Lemma pubkeyFromString_wf decode s k : pubkeyFromString decode s = Ok k -> wf_key k.
Proof.
  unfold pubkeyFromString, PublicKey_of_string.
  destruct (decode s) as [decoded |]; [| discriminate].
  destruct (bool_decide (length decoded = PUBLIC_KEY_LENGTH)) eqn:L; [| discriminate].
  intros H. apply Ok_inj in H. subst k. apply bool_decide_eq_true_1 in L. exact L.
Qed.

Lemma findProgramAddress_short isOnCurve seeds programId e :
  Forall (fun seed => (length seed <= MAX_SEED_LENGTH)%nat) seeds ->
  findProgramAddress isOnCurve seeds programId = Throw e ->
  e = Error "Unable to find a viable program address nonce".
Proof.
  intros Hs E. pose proof (find_nonce_outcome isOnCurve 255 seeds programId Hs) as H.
  unfold findProgramAddress in E. rewrite E in H. apply H.
Qed.

Lemma getAssociatedTokenAddress_errors isOnCurve mint owner allow e :
  wf_key mint -> wf_key owner ->
  getAssociatedTokenAddress isOnCurve mint owner allow
    TOKEN_PROGRAM_ID ASSOCIATED_TOKEN_PROGRAM_ID = Throw e ->
  e = TokenOwnerOffCurveError /\ allow = false
  \/ e = Error "Unable to find a viable program address nonce".
Proof.
  unfold wf_key, PUBLIC_KEY_LENGTH. intros Hm Ho. unfold getAssociatedTokenAddress.
  destruct allow; cbn [negb andb].
  - destruct (findProgramAddress isOnCurve _ ASSOCIATED_TOKEN_PROGRAM_ID)
      as [[a b] | e'] eqn:E; cbn [mbind result_bind]; [discriminate |].
    intros H. right. apply findProgramAddress_short in E.
    + congruence.
    + unfold MAX_SEED_LENGTH. repeat (constructor; [first [lia | cbn; lia] |]). constructor.
  - destruct (isOnCurve (toBuffer owner)); cbn [negb].
    + destruct (findProgramAddress isOnCurve _ ASSOCIATED_TOKEN_PROGRAM_ID)
        as [[a b] | e'] eqn:E; cbn [mbind result_bind]; [discriminate |].
      intros H. right. apply findProgramAddress_short in E.
      * congruence.
      * unfold MAX_SEED_LENGTH. repeat (constructor; [first [lia | cbn; lia] |]).
        constructor.
    + intros H. left. split; [congruence | reflexivity].
Qed.

Section ScriptErrors.

Variable isOnCurve : Buffer -> bool.
Variable bs58_decode : string -> option Buffer.
Context {World : Type} (env : Env World).
Variable payer : PublicKey.

Variable P : Exn -> Prop.
Hypothesis P_file : P (Error "ENOENT: no such file or directory").
Hypothesis P_text : forall text e, pubkeyFromString bs58_decode text = Throw e -> P e.
Hypothesis P_wallet : P wallet_mismatch.
Hypothesis P_nonce : P (Error "Unable to find a viable program address nonce").

Lemma throws_load label :
  throws_only P (load_deploy_info (World := World) bs58_decode payer label).
Proof.
  intros s e. unfold load_deploy_info, read_deploy_info.
  unfold mbind, M_bind, bind, lift, console_log, throw, mret, M_ret, ret.
  destruct (deploy_info s) as [info |]; [| cbn [fst]; congruence].
  destruct (pubkeyFromString bs58_decode (info_programId info)) eqn:E1;
    [| cbn [fst]; intros H; eapply P_text; rewrite E1; congruence].
  destruct (pubkeyFromString bs58_decode (info_mint info)) eqn:E2;
    [| cbn [fst]; intros H; eapply P_text; rewrite E2; congruence].
  destruct (pubkeyFromString bs58_decode (info_payer info)) eqn:E3;
    [| cbn [fst]; intros H; eapply P_text; rewrite E3; congruence].
  destruct (pubkeyFromString bs58_decode (info_payerAta info)) eqn:E4;
    [| cbn [fst]; intros H; eapply P_text; rewrite E4; congruence].
  cbn [world console sent deploy_info].
  match goal with |- context [equals ?a ?b] => destruct (equals a b) end; cbn.
  - discriminate.
  - congruence.
Qed.

Lemma loaded_keys label keys :
  (exists s : Run World, (load_deploy_info bs58_decode payer label s).1 = Ok keys) ->
  wf_key keys.1.1.2 /\ keys.1.2 = payer /\ wf_key keys.1.2.
Proof.
  intros Hk. pose proof (loaded_buyer bs58_decode payer label keys Hk) as Hb.
  destruct Hk as [s H]. revert H. unfold load_deploy_info, read_deploy_info.
  unfold mbind, M_bind, bind, lift, console_log, throw, mret, M_ret, ret.
  destruct (deploy_info s) as [info |]; [| discriminate].
  destruct (pubkeyFromString bs58_decode (info_programId info)) eqn:E1; [| discriminate].
  destruct (pubkeyFromString bs58_decode (info_mint info)) eqn:E2; [| discriminate].
  destruct (pubkeyFromString bs58_decode (info_payer info)) eqn:E3; [| discriminate].
  destruct (pubkeyFromString bs58_decode (info_payerAta info)) eqn:E4; [| discriminate].
  cbn [world console sent deploy_info].
  match goal with |- context [equals ?a ?b] => destruct (equals a b) end; cbn;
    [| discriminate].
  intros H. apply Ok_inj in H. subst keys. cbn [fst snd] in Hb |- *.
  split; [eapply pubkeyFromString_wf, E2 |]. split; [exact Hb |].
  eapply pubkeyFromString_wf, E3.
Qed.

Lemma throws_vault_derivation programId mint buyer :
  wf_key mint -> wf_key buyer ->
  forall e, deriveVaultPda isOnCurve programId mint buyer = Throw e -> P e.
Proof.
  intros Hm Hb e E. unfold deriveVaultPda in E.
  apply findProgramAddress_short in E; [| apply vault_seeds_short; assumption].
  subst e. exact P_nonce.
Qed.

Lemma throws_vault_ata mint vaultPda bump seeds programId :
  wf_key mint ->
  findProgramAddress isOnCurve seeds programId = Ok (vaultPda, bump) ->
  forall e,
    getAssociatedTokenAddress isOnCurve mint vaultPda true
      TOKEN_PROGRAM_ID ASSOCIATED_TOKEN_PROGRAM_ID = Throw e -> P e.
Proof.
  intros Hm Hv e E. apply findProgramAddress_inv in Hv as [Hw _].
  apply getAssociatedTokenAddress_errors in E as [[_ E] | ->];
    [discriminate E | exact P_nonce | exact Hm | exact Hw].
Qed.

Lemma main_vault_throws :
  (forall programId mint vaultPda vaultAta buyerAta ix w e,
      encodeLockTokensIx programId payer mint vaultPda vaultAta buyerAta 100000 = Ok ix ->
      (sendAndConfirmTransaction env [ProgramCall ix] [payer] w).1 = Throw e -> P e) ->
  throws_only P (main_vault isOnCurve bs58_decode env payer).
Proof.
  intros P_sent. unfold main_vault.
  apply throws_bind; [apply throws_load |].
  intros [[[programId mint] buyer] buyerAta] Hk.
  apply loaded_keys in Hk as (Hm & Hb & Hbw). cbn [fst snd] in Hm, Hb, Hbw. subst buyer.
  apply throws_bind; [apply throws_lift, throws_vault_derivation; assumption |].
  intros [vaultPda bump] Hv. apply lift_ok in Hv.
  apply throws_bind; [apply throws_log |]. intros _ _.
  apply throws_bind;
    [apply throws_lift; eapply throws_vault_ata; [exact Hm | exact Hv] |].
  intros vaultAta _.
  apply throws_bind; [apply throws_log |]. intros _ _.
  apply throws_bind.
  { apply throws_try. intros e.
    apply throws_bind; [apply throws_log | intros _ _; apply throws_log]. }
  intros _ _.
  apply throws_bind.
  { apply throws_try. intros e.
    apply throws_bind; [apply throws_log | intros _ _; apply throws_log]. }
  intros _ _.
  apply throws_bind.
  { apply throws_lift. intros e He.
    rewrite encodeLockTokensIx_ok in He by lia. discriminate He. }
  intros lockTokensIx Hl. apply lift_ok in Hl.
  apply throws_bind.
  { apply throws_send. intros w e. apply (P_sent _ _ _ _ _ _ _ _ Hl). }
  intros sig3 _.
  repeat (apply throws_bind; [apply throws_log | intros _ _]). apply throws_log.
Qed.

Hypothesis P_owner : P TokenOwnerOffCurveError.
Hypothesis generated_keys : forall w, wf_key (Keypair_generate env w).1.
Hypothesis clock_range : forall w, - 2 ^ 63 <= Date_now env w / 1000 + 3600 < 2 ^ 63.

Lemma generated_key seller :
  (exists s : Run World, (generate env s).1 = Ok seller) -> wf_key seller.
Proof.
  intros [s H]. unfold generate in H.
  pose proof (generated_keys (world s)) as Hw.
  destruct (Keypair_generate env (world s)) as [k w]. cbn [fst] in H, Hw.
  apply Ok_inj in H. subst k. exact Hw.
Qed.

Lemma main_escrow_throws :
  (forall tx w e,
      (sendAndConfirmTransaction env tx [payer] w).1 = Throw e ->
      (exists ata ix, tx = [ata; ProgramCall ix]) \/ (exists ix, tx = [ProgramCall ix]) ->
      P e) ->
  throws_only P (main_escrow isOnCurve bs58_decode env payer).
Proof.
  intros P_sent. unfold main_escrow.
  apply throws_bind; [apply throws_load |].
  intros [[[programId mint] buyer] buyerAta] Hk.
  apply loaded_keys in Hk as (Hm & Hb & Hbw). cbn [fst snd] in Hm, Hb, Hbw. subst buyer.
  apply throws_bind; [apply throws_generate |]. intros seller Hs.
  apply generated_key in Hs.
  apply throws_bind; [apply throws_log |]. intros _ _.
  apply throws_bind; [apply throws_lift, throws_vault_derivation; assumption |].
  intros [vaultPda bump] Hv. apply lift_ok in Hv.
  pose proof (findProgramAddress_inv _ _ _ _ _ Hv) as [Hvw _].
  apply throws_bind; [apply throws_log |]. intros _ _.
  apply throws_bind.
  { apply throws_lift. intros e E. unfold deriveEscrowPda in E.
    apply findProgramAddress_short in E; [| apply escrow_seeds_short; assumption].
    subst e. exact P_nonce. }
  intros [escrowPda bump'] _.
  apply throws_bind; [apply throws_log |]. intros _ _.
  apply throws_bind;
    [apply throws_lift; eapply throws_vault_ata; [exact Hm | exact Hv] |].
  intros vaultAta _.
  apply throws_bind; [apply throws_log |]. intros _ _.
  apply throws_bind.
  { apply throws_lift. intros e E.
    apply getAssociatedTokenAddress_errors in E as [[-> _] | ->];
      [exact P_owner | exact P_nonce | exact Hm | exact Hs]. }
  intros sellerAta _.
  apply throws_bind; [apply throws_log |]. intros _ _.
  apply throws_bind.
  { apply (throws_never P (fun s : Run World => (Ok (Date_now env (world s) / 1000), s))).
    intros s. eexists. reflexivity. }
  intros nowSec Hn.
  assert (Hd : - 2 ^ 63 <= nowSec + 3600 < 2 ^ 63).
  { destruct Hn as [s Hn]. cbn [fst] in Hn. apply Ok_inj in Hn. subst nowSec.
    apply clock_range. }
  apply throws_bind.
  { apply throws_lift. intros e He.
    rewrite encodeInitEscrowIx_ok in He by first [exact Hd | lia]. discriminate He. }
  intros initEscrowIx _.
  apply throws_bind.
  { apply throws_send. intros w e He. apply (P_sent _ _ _ He). left. eauto. }
  intros sig1 _.
  apply throws_bind; [apply throws_log |]. intros _ _.
  apply throws_bind.
  { apply throws_send. intros w e He. apply (P_sent _ _ _ He). right. eauto. }
  intros sig2 _.
  repeat (apply throws_bind; [apply throws_log | intros _ _]). apply throws_log.
Qed.

End ScriptErrors.

(** X11: the vault script can end with five errors only: the missing file's,
    the one [pubkeyFromString] throws for a text of the file, the wallet
    mismatch, the failed search of a program address, or the error of the
    submission of lock_tokens.  In particular the keys read from the file
    are never too long for a seed, the amount never leaves the encoder's
    range, and no error of the first two submissions ends the script. *)
Theorem vault_script_errors
  (isOnCurve : Buffer -> bool) (bs58_decode : string -> option Buffer)
  (World : Type) (env : Env World) (payer : PublicKey) (s : Run World) (e : Exn) :
  (main_vault isOnCurve bs58_decode env payer s).1 = Throw e ->
  e = Error "ENOENT: no such file or directory"
  \/ (exists text, pubkeyFromString bs58_decode text = Throw e)
  \/ e = wallet_mismatch
  \/ e = Error "Unable to find a viable program address nonce"
  \/ (exists programId mint vaultPda vaultAta buyerAta ix w,
         encodeLockTokensIx programId payer mint vaultPda vaultAta buyerAta 100000 = Ok ix
         /\ (sendAndConfirmTransaction env [ProgramCall ix] [payer] w).1 = Throw e).
Proof.
  revert s e. apply main_vault_throws.
  - left. reflexivity.
  - intros text e H. right. left. exists text. exact H.
  - do 2 right. left. reflexivity.
  - do 3 right. left. reflexivity.
  - intros programId mint vaultPda vaultAta buyerAta ix w e Hl H. do 4 right.
    exists programId, mint, vaultPda, vaultAta, buyerAta, ix, w. split; assumption.
Qed.

Lemma vault_script_errors_witness :
  exists e,
    (main_vault ed25519_isOnCurve base58_decode
       (scripted_env example_seller 1700000000123 1461600) example_payer
       (mkRun [] [] [] None)).1 = Throw e
    /\ (e = Error "ENOENT: no such file or directory"
        \/ (exists text, pubkeyFromString base58_decode text = Throw e)
        \/ e = wallet_mismatch
        \/ e = Error "Unable to find a viable program address nonce"
        \/ (exists programId mint vaultPda vaultAta buyerAta ix w,
               encodeLockTokensIx programId example_payer mint vaultPda vaultAta buyerAta
                 100000 = Ok ix
               /\ (sendAndConfirmTransaction
                     (scripted_env example_seller 1700000000123 1461600)
                     [ProgramCall ix] [example_payer] w).1 = Throw e)).
Proof.
  exists (Error "ENOENT: no such file or directory"). split; [reflexivity |].
  apply (vault_script_errors ed25519_isOnCurve base58_decode (list (result Signature))
           (scripted_env example_seller 1700000000123 1461600) example_payer
           (mkRun [] [] [] None)).
  reflexivity.
Defined.

(** X12: with generated keys of 32 bytes and a clock within the time values
    of a date (at most 8.64e15 milliseconds from the epoch, the range of
    [Date.now()], where the script's arithmetic on the clock is exact), the
    escrow script can end with six errors only: the missing file's, the one
    [pubkeyFromString] throws for a text of the file, the wallet mismatch,
    the failed search of a program address, the refusal of a seller off the
    curve, or the error of one of its two submissions.  No seed is too long
    and no field leaves the encoder's range. *)
Theorem escrow_script_errors
  (isOnCurve : Buffer -> bool) (bs58_decode : string -> option Buffer)
  (World : Type) (env : Env World) (payer : PublicKey) (s : Run World) (e : Exn) :
  (forall w, wf_key (Keypair_generate env w).1) ->
  (forall w, - 8640000000000000 <= Date_now env w <= 8640000000000000) ->
  (main_escrow isOnCurve bs58_decode env payer s).1 = Throw e ->
  e = Error "ENOENT: no such file or directory"
  \/ (exists text, pubkeyFromString bs58_decode text = Throw e)
  \/ e = wallet_mismatch
  \/ e = Error "Unable to find a viable program address nonce"
  \/ e = TokenOwnerOffCurveError
  \/ (exists tx w,
         (sendAndConfirmTransaction env tx [payer] w).1 = Throw e
         /\ ((exists ata ix, tx = [ata; ProgramCall ix])
             \/ (exists ix, tx = [ProgramCall ix]))).
Proof.
  intros Hg Hc. revert s e. apply main_escrow_throws.
  - left. reflexivity.
  - intros text e H. right. left. exists text. exact H.
  - do 2 right. left. reflexivity.
  - do 3 right. left. reflexivity.
  - do 4 right. left. reflexivity.
  - exact Hg.
  - intros w. specialize (Hc w).
    assert (- 8640000000000 <= Date_now env w / 1000 <= 8640000000000)
      by (split; [apply Z.div_le_lower_bound | apply Z.div_le_upper_bound]; lia).
    lia.
  - intros tx w e H Htx. do 5 right. exists tx, w. split; assumption.
Qed.

Lemma escrow_script_errors_witness :
  exists e,
    (main_escrow ed25519_isOnCurve base58_decode
       (scripted_env example_seller 1700000000123 1461600) example_payer
       (mkRun [] [] [] None)).1 = Throw e
    /\ (e = Error "ENOENT: no such file or directory"
        \/ (exists text, pubkeyFromString base58_decode text = Throw e)
        \/ e = wallet_mismatch
        \/ e = Error "Unable to find a viable program address nonce"
        \/ e = TokenOwnerOffCurveError
        \/ (exists tx w,
               (sendAndConfirmTransaction
                  (scripted_env example_seller 1700000000123 1461600)
                  tx [example_payer] w).1 = Throw e
               /\ ((exists ata ix, tx = [ata; ProgramCall ix])
                   \/ (exists ix, tx = [ProgramCall ix])))).
Proof.
  exists (Error "ENOENT: no such file or directory"). split; [reflexivity |].
  apply (escrow_script_errors ed25519_isOnCurve base58_decode (list (result Signature))
           (scripted_env example_seller 1700000000123 1461600) example_payer
           (mkRun [] [] [] None)).
  - intros w. reflexivity.
  - intros w. cbn [scripted_env Date_now]. lia.
  - reflexivity.
Defined.
